(** * COI tracker: the ingestion webhook (main.py) and the nag engine
    (nag_engine.py), embedded as Rocq functions.

    Python values are an inductive type, exceptions are values of a sum
    type, and every call that leaves the process (object storage, the
    model provider, the database, the clock, the mail provider) goes
    through an interface whose answers are arbitrary; the calls made are
    recorded in a trace. *)

From Stdlib Require Import ZArith List String Ascii Bool Lia PrimFloat.
From Stdlib Require Uint63 DecimalString.
Import ListNotations.

Set Warnings "-register-all".
Set Warnings "-automation".


Local Open Scope Z_scope.
Local Open Scope string_scope.
Local Open Scope list_scope.

(** ** Python values *)

Module Py.

(** The values that [json.loads], a JSON request body or a database row
    can hold.  A [dict] keeps its insertion order; lookup takes the first
    binding of a key. *)
Inductive pyval : Type :=
| PNone
| PBool (b : bool)
| PInt (z : Z)
| PFloat (f : float)
| PStr (s : string)
| PList (l : list pyval)
| PDict (d : list (string * pyval)).

Definition pydict : Type := list (string * pyval).

(** Exception classes that the two programs raise or catch, all of them
    below [Exception]. *)
Inductive exn_class : Type :=
| KeyError
| IndexError
| TypeError
| AttributeError
| ValueError
| JSONDecodeError
| OverflowError
| HTTPException
| OtherException (name : string).

(** An exception: its class and [str(e)]. *)
Record exn : Type := Exn { exn_cls : exn_class; exn_str : string }.

(** The result of evaluating an expression: a value, or a raised
    exception. *)
Definition res (A : Type) : Type := (exn + A)%type.

Definition ok {A} (a : A) : res A := inr a.
Definition raise {A} (e : exn) : res A := inl e.

Definition res_bind {A B} (r : res A) (k : A -> res B) : res B :=
  match r with
  | inl e => inl e
  | inr a => k a
  end.

Definition class_eqb (c1 c2 : exn_class) : bool :=
  match c1, c2 with
  | KeyError, KeyError | IndexError, IndexError | TypeError, TypeError
  | AttributeError, AttributeError | ValueError, ValueError
  | JSONDecodeError, JSONDecodeError | OverflowError, OverflowError
  | HTTPException, HTTPException => true
  | OtherException a, OtherException b => String.eqb a b
  | _, _ => false
  end.

(** [issubclass]: [json.JSONDecodeError] derives from [ValueError]; the
    other classes here are unrelated to each other. *)
Definition subclass_of (c parent : exn_class) : bool :=
  class_eqb c parent ||
  match c, parent with
  | JSONDecodeError, ValueError => true
  | _, _ => false
  end.

(** Whether [except (c1, ..., cn)] catches [e]. *)
Definition caught_by (classes : list exn_class) (e : exn) : bool :=
  existsb (subclass_of (exn_cls e)) classes.

(** [type(v).__name__] *)
Definition type_name (v : pyval) : string :=
  match v with
  | PNone => "NoneType"
  | PBool _ => "bool"
  | PInt _ => "int"
  | PFloat _ => "float"
  | PStr _ => "str"
  | PList _ => "list"
  | PDict _ => "dict"
  end.

(** Truth value of an object, as [if v:] and [and] test it. *)
Definition truthy (v : pyval) : bool :=
  match v with
  | PNone => false
  | PBool b => b
  | PInt z => negb (Z.eqb z 0)
  | PFloat f => negb (PrimFloat.eqb f 0%float)
  | PStr s => negb (String.eqb s "")
  | PList l => match l with [] => false | _ => true end
  | PDict d => match d with [] => false | _ => true end
  end.

Fixpoint dict_lookup (d : pydict) (k : string) : option pyval :=
  match d with
  | [] => None
  | (k', v) :: d' => if String.eqb k' k then Some v else dict_lookup d' k
  end.

(** [d.get(k, default)] *)
Definition dict_get_default (d : pydict) (k : string) (default : pyval) : pyval :=
  match dict_lookup d k with
  | Some v => v
  | None => default
  end.

(** [d.get(k)] *)
Definition dict_get (d : pydict) (k : string) : pyval :=
  dict_get_default d k PNone.

(** [repr] of the string keys used as subscripts (plain identifiers). *)
Definition repr_key (k : string) : string := "'" ++ k ++ "'".

(** [d[k]] on a dict. *)
Definition dict_getitem (d : pydict) (k : string) : res pyval :=
  match dict_lookup d k with
  | Some v => ok v
  | None => raise (Exn KeyError (repr_key k))
  end.

Definition no_attribute (v : pyval) (attr : string) : exn :=
  Exn AttributeError
      ("'" ++ type_name v ++ "' object has no attribute '" ++ attr ++ "'").

Definition not_subscriptable (v : pyval) : exn :=
  Exn TypeError ("'" ++ type_name v ++ "' object is not subscriptable").

(** [v[k]] for a string subscript [k]. *)
Definition getitem_str (v : pyval) (k : string) : res pyval :=
  match v with
  | PDict d => dict_getitem d k
  | PList _ =>
      raise (Exn TypeError "list indices must be integers or slices, not str")
  | PStr _ =>
      raise (Exn TypeError "string indices must be integers, not 'str'")
  | _ => raise (not_subscriptable v)
  end.

(** [v[0]] *)
Definition getitem_0 (v : pyval) : res pyval :=
  match v with
  | PList l =>
      match l with
      | x :: _ => ok x
      | [] => raise (Exn IndexError "list index out of range")
      end
  | PStr s =>
      match s with
      | String c _ => ok (PStr (String c EmptyString))
      | EmptyString => raise (Exn IndexError "string index out of range")
      end
  | PDict _ => raise (Exn KeyError "0")
  | _ => raise (not_subscriptable v)
  end.

(** [v.get(k, default)]: only a dict has the method. *)
Definition method_get_default (v : pyval) (k : string) (default : pyval)
  : res pyval :=
  match v with
  | PDict d => ok (dict_get_default d k default)
  | _ => raise (no_attribute v "get")
  end.

(** [v.get(k)] *)
Definition method_get (v : pyval) (k : string) : res pyval :=
  method_get_default v k PNone.

(** *** [str] methods (on text modelled by its UTF-8 bytes) *)

Fixpoint starts_with (p s : string) : bool :=
  match p, s with
  | EmptyString, _ => true
  | String a p', String b s' => Ascii.eqb a b && starts_with p' s'
  | String _ _, EmptyString => false
  end.

(** [replace_from old new s skip]: [s.replace(old, new)] for a non-empty
    [old], where the first [skip] characters of [s] belong to an
    occurrence already replaced. *)
Fixpoint replace_from (old new s : string) (skip : nat) : string :=
  match s with
  | EmptyString => EmptyString
  | String c s' =>
      match skip with
      | S n => replace_from old new s' n
      | O =>
          if starts_with old s
          then new ++ replace_from old new s' (Nat.pred (String.length old))
          else String c (replace_from old new s' O)
      end
  end.

(** [s.replace(old, new)], all occurrences, left to right, not
    overlapping.  (Both call sites pass a non-empty [old].) *)
Definition str_replace (s old new : string) : string :=
  match old with
  | EmptyString => s
  | _ => replace_from old new s O
  end.

(** Text is held as its UTF-8 bytes.  The characters [str.isspace]
    holds for, which [str.strip] removes, each as the bytes that
    encode it: the ASCII blanks U+0009..U+000D, U+001C..U+0020, then
    U+0085, U+00A0 (no-break space), U+1680, U+2000..U+200A, U+2028,
    U+2029, U+202F, U+205F and U+3000. *)
Definition whitespace : list string :=
  (map (fun n => String (ascii_of_nat n) "") [9; 10; 11; 12; 13; 28; 29; 30; 31; 32]
   ++ [ (* U+0085 *) String "194" (String "133" "");
    (* U+00A0 *) String "194" (String "160" "");
    (* U+1680 *) String "225" (String "154" (String "128" ""));
    (* U+2000 *) String "226" (String "128" (String "128" ""));
    (* U+2001 *) String "226" (String "128" (String "129" ""));
    (* U+2002 *) String "226" (String "128" (String "130" ""));
    (* U+2003 *) String "226" (String "128" (String "131" ""));
    (* U+2004 *) String "226" (String "128" (String "132" ""));
    (* U+2005 *) String "226" (String "128" (String "133" ""));
    (* U+2006 *) String "226" (String "128" (String "134" ""));
    (* U+2007 *) String "226" (String "128" (String "135" ""));
    (* U+2008 *) String "226" (String "128" (String "136" ""));
    (* U+2009 *) String "226" (String "128" (String "137" ""));
    (* U+200A *) String "226" (String "128" (String "138" ""));
    (* U+2028 *) String "226" (String "128" (String "168" ""));
    (* U+2029 *) String "226" (String "128" (String "169" ""));
    (* U+202F *) String "226" (String "128" (String "175" ""));
    (* U+205F *) String "226" (String "129" (String "159" ""));
    (* U+3000 *) String "227" (String "128" (String "128" "")) ])%char%nat.

(** Whether [t] is one whitespace character. *)
Definition is_space (t : string) : bool := existsb (String.eqb t) whitespace.

(** [s.lstrip()]: a whitespace character takes one, two or three
    bytes. *)
Fixpoint lstrip (s : string) : string :=
  match s with
  | EmptyString => EmptyString
  | String a r1 =>
      if is_space (String a "") then lstrip r1
      else
        match r1 with
        | EmptyString => s
        | String b r2 =>
            if is_space (String a (String b "")) then lstrip r2
            else
              match r2 with
              | EmptyString => s
              | String c r3 =>
                  if is_space (String a (String b (String c "")))
                  then lstrip r3 else s
              end
        end
  end.

(** [s.rstrip()]: going back from the end, the bytes kept so far are
    dropped each time they have grown into one whitespace character. *)
Fixpoint rstrip (s : string) : string :=
  match s with
  | EmptyString => EmptyString
  | String c s' =>
      let r := rstrip s' in
      if is_space (String c r) then EmptyString else String c r
  end.

(** [s.strip()] *)
Definition str_strip (s : string) : string := rstrip (lstrip s).

Definition lower_char (c : ascii) : ascii :=
  let n := N_of_ascii c in
  if ((65 <=? n) && (n <=? 90))%N then ascii_of_N (n + 32) else c.

(** [s.lower()], on the ASCII letters.  Letters of other scripts
    change under [lower] as well, but none of them turns into a
    character of [".png"], [".jpg"] or [".jpeg"], and the result is
    read for nothing but these endings. *)
Fixpoint str_lower (s : string) : string :=
  match s with
  | EmptyString => EmptyString
  | String c s' => String (lower_char c) (str_lower s')
  end.

(** [s.endswith(suffix)] *)
Fixpoint str_endswith (s suffix : string) : bool :=
  String.eqb s suffix ||
  match s with
  | EmptyString => false
  | String _ s' => str_endswith s' suffix
  end.

(** [v.replace(old, new)]: only a str has the method. *)
Definition method_replace (v : pyval) (old new : string) : res string :=
  match v with
  | PStr s => ok (str_replace s old new)
  | _ => raise (no_attribute v "replace")
  end.

End Py.

(** ** Calendar dates, as [datetime.date] has them

    Texts are read byte by byte: a digit is one of the ten ASCII
    digits, and blank characters are the ASCII ones. *)

Module Calendar.
Import Py.

Record date : Type := Date { year : Z; month : Z; day : Z }.

Definition MINYEAR : Z := 1.
Definition MAXYEAR : Z := 9999.

Definition is_leap (y : Z) : bool :=
  (y mod 4 =? 0)%Z && (negb (y mod 100 =? 0)%Z || (y mod 400 =? 0)%Z).

Definition days_in_month (y m : Z) : Z :=
  if (m =? 2)%Z then (if is_leap y then 29 else 28)
  else if (m =? 4)%Z || (m =? 6)%Z || (m =? 9)%Z || (m =? 11)%Z then 30
  else 31.

(** What the [date(y, m, d)] constructor accepts. *)
Definition date_valid (d : date) : bool :=
  (MINYEAR <=? year d)%Z && (year d <=? MAXYEAR)%Z &&
  (1 <=? month d)%Z && (month d <=? 12)%Z &&
  (1 <=? day d)%Z && (day d <=? days_in_month (year d) (month d))%Z.

(** [d1 < d2], [d1 <= d2] and [d1 == d2] on dates: (year, month, day)
    compared as tuples. *)
Definition date_ltb (d1 d2 : date) : bool :=
  (year d1 <? year d2)%Z ||
  ((year d1 =? year d2)%Z &&
   ((month d1 <? month d2)%Z ||
    ((month d1 =? month d2)%Z && (day d1 <? day d2)%Z))).

Definition date_eqb (d1 d2 : date) : bool :=
  (year d1 =? year d2)%Z && (month d1 =? month d2)%Z && (day d1 =? day d2)%Z.

Definition date_leb (d1 d2 : date) : bool := negb (date_ltb d2 d1).

(** *** Ordinals (day 1 is 0001-01-01) *)

Definition days_before_year (y : Z) : Z :=
  let y' := y - 1 in
  y' * 365 + y' / 4 - y' / 100 + y' / 400.

(** [_DAYS_BEFORE_MONTH[m]] *)
Definition DAYS_BEFORE_MONTH (m : Z) : Z :=
  nth (Z.to_nat m) [0; 0; 31; 59; 90; 120; 151; 181; 212; 243; 273; 304; 334] 0.

(** [_DAYS_IN_MONTH[m]] *)
Definition DAYS_IN_MONTH (m : Z) : Z :=
  nth (Z.to_nat m) [0; 31; 28; 31; 30; 31; 30; 31; 31; 30; 31; 30; 31] 0.

Definition b2z (b : bool) : Z := if b then 1 else 0.

Definition days_before_month (y m : Z) : Z :=
  DAYS_BEFORE_MONTH m + b2z ((2 <? m)%Z && is_leap y).

(** [d.toordinal()] *)
Definition toordinal (d : date) : Z :=
  days_before_year (year d) + days_before_month (year d) (month d) + day d.

Definition DI400Y : Z := 146097.
Definition DI100Y : Z := 36524.
Definition DI4Y : Z := 1461.
Definition MAXORDINAL : Z := 3652059.

(** The end of [_ord2ymd]: month and day from the day of the year,
    counted from 0. *)
Definition month_day_of (n : Z) (leapyear : bool) : Z * Z :=
  let m := Z.shiftr (n + 50) 5 in
  let preceding := DAYS_BEFORE_MONTH m + b2z ((2 <? m)%Z && leapyear) in
  if (n <? preceding)%Z then
    let m' := m - 1 in
    let preceding' :=
      preceding - (DAYS_IN_MONTH m' + b2z ((m' =? 2)%Z && leapyear)) in
    (m', n - preceding' + 1)
  else (m, n - preceding + 1).

(** [_ord2ymd(n)] *)
Definition ord2ymd (n : Z) : date :=
  let n := n - 1 in
  let n400 := n / DI400Y in
  let n := n mod DI400Y in
  let n100 := n / DI100Y in
  let n := n mod DI100Y in
  let n4 := n / DI4Y in
  let n := n mod DI4Y in
  let n1 := n / 365 in
  let n := n mod 365 in
  let y := n400 * 400 + 1 + n100 * 100 + n4 * 4 + n1 in
  if (n1 =? 4)%Z || (n100 =? 4)%Z then Date (y - 1) 12 31
  else
    let leapyear := (n1 =? 3)%Z && (negb (n4 =? 24)%Z || (n100 =? 3)%Z) in
    let (m, d) := month_day_of n leapyear in
    Date y m d.

(** [date.fromordinal(n)] *)
Definition fromordinal (n : Z) : res date :=
  if (1 <=? n)%Z && (n <=? MAXORDINAL)%Z then ok (ord2ymd n)
  else raise (Exn OverflowError "date value out of range").

(** A [datetime]: its date and the time of day in microseconds. *)
Record datetime : Type := Datetime { dt_date : date; dt_micros : Z }.

(** [timedelta(days=n)]: at most 999999999 days either way. *)
Definition timedelta_days (n : Z) : res Z :=
  if (Z.abs n <=? 999999999)%Z then ok n
  else if (- 2 ^ 31 <=? n)%Z && (n <? 2 ^ 31)%Z then
    raise (Exn OverflowError
             ("days=" ++ DecimalString.NilZero.string_of_int (Z.to_int n)
              ++ "; must have magnitude <= 999999999"))
  else raise (Exn OverflowError "Python int too large to convert to C int").

(** [dt + timedelta(days=n)]: the sum must stay within years 1..9999. *)
Definition datetime_add_days (dt : datetime) (n : Z) : res datetime :=
  res_bind (timedelta_days n) (fun days =>
  res_bind (fromordinal (toordinal (dt_date dt) + days)) (fun d =>
  ok (Datetime d (dt_micros dt)))).

(** *** Text forms *)

Definition digit_char (n : Z) : ascii := ascii_of_N (Z.to_N (48 + n)).

Definition is_digit (c : ascii) : bool :=
  let n := N_of_ascii c in ((48 <=? n) && (n <=? 57))%N.

Definition digit_val (c : ascii) : Z := Z.of_N (N_of_ascii c) - 48.

Definition pad2 (n : Z) : string :=
  String (digit_char (n / 10 mod 10)) (String (digit_char (n mod 10)) "").

Definition pad4 (n : Z) : string :=
  String (digit_char (n / 1000 mod 10))
    (String (digit_char (n / 100 mod 10)) (pad2 n)).

(** [d.isoformat()] *)
Definition isoformat (d : date) : string :=
  pad4 (year d) ++ "-" ++ pad2 (month d) ++ "-" ++ pad2 (day d).

(** The decimal digits of Unicode (category Nd), which the [\d] of a
    pattern matches and [int()] converts, stand in runs of ten, zero
    to nine, in every script: these are the code points of the zeros
    (Unicode 14.0, the database of CPython 3.11). *)
Definition decimal_zeros : list Z :=
  [ 48; 1632; 1776; 1984; 2406; 2534; 2662; 2790;
    2918; 3046; 3174; 3302; 3430; 3558; 3664; 3792;
    3872; 4160; 4240; 6112; 6160; 6470; 6608; 6784;
    6800; 6992; 7088; 7232; 7248; 42528; 43216; 43264;
    43472; 43504; 43600; 44016; 65296; 66720; 68912; 69734;
    69872; 69942; 70096; 70384; 70736; 70864; 71248; 71360;
    71472; 71904; 72016; 72784; 73040; 73120; 92768; 92864;
    93008; 120782; 120792; 120802; 120812; 120822; 123200; 123632;
    125264; 130032 ].

(** The code point a text starts with, decoded from its UTF-8 bytes,
    and the text after it. *)
Definition code_point (s : string) : option (Z * string) :=
  let byte (c : ascii) := Z.of_N (N_of_ascii c) in
  match s with
  | EmptyString => None
  | String a r1 =>
      if (byte a <? 128)%Z then Some (byte a, r1)
      else if (byte a <? 192)%Z then None
      else if (byte a <? 224)%Z then
        match r1 with
        | String b r2 => Some ((byte a - 192) * 64 + (byte b - 128), r2)
        | _ => None
        end
      else if (byte a <? 240)%Z then
        match r1 with
        | String b (String c r3) =>
            Some ((byte a - 224) * 4096 + (byte b - 128) * 64
                  + (byte c - 128), r3)
        | _ => None
        end
      else
        match r1 with
        | String b (String c (String d r4)) =>
            Some ((byte a - 240) * 262144 + (byte b - 128) * 4096
                  + (byte c - 128) * 64 + (byte d - 128), r4)
        | _ => None
        end
  end.

(** The regular expression [_strptime] builds for ["%Y-%m-%d"], each
    directive returning its matches in the order the alternation tries
    them: (value, rest of the text). *)

(** [\d]: one decimal digit of any script, with its value. *)
Definition re_digit (s : string) : list (Z * string) :=
  match code_point s with
  | Some (cp, r) =>
      match find (fun z => (z <=? cp)%Z && (cp <? z + 10)%Z) decimal_zeros with
      | Some z => [(cp - z, r)]
      | None => []
      end
  | None => []
  end.

(** [%Y]: [\d\d\d\d]. *)
Definition re_Y (s : string) : list (Z * string) :=
  flat_map (fun '(a, r1) =>
    flat_map (fun '(b, r2) =>
      flat_map (fun '(c, r3) =>
        map (fun '(d, r) => (a * 1000 + b * 100 + c * 10 + d, r))
            (re_digit r3))
        (re_digit r2))
      (re_digit r1))
    (re_digit s).

Definition in_range (lo hi : Z) (c : ascii) : bool :=
  is_digit c && (lo <=? digit_val c)%Z && (digit_val c <=? hi)%Z.

(** Two characters, the first being the ASCII digit [t] and the second
    an ASCII digit in [lo..hi] (the classes [[0-2]], [[1-9]] and the
    like take no other digits). *)
Definition two_chars (t : Z) (lo hi : Z) (s : string) : list (Z * string) :=
  match s with
  | String a (String b r) =>
      if in_range t t a && in_range lo hi b
      then [(t * 10 + digit_val b, r)] else []
  | _ => []
  end.

(** The ASCII digit [t], then [\d]. *)
Definition digit_after (t : Z) (s : string) : list (Z * string) :=
  match s with
  | String a r =>
      if in_range t t a
      then map (fun '(v, r') => (t * 10 + v, r')) (re_digit r) else []
  | _ => []
  end.

(** One ASCII digit in [1..9]. *)
Definition one_char (s : string) : list (Z * string) :=
  match s with
  | String a r => if in_range 1 9 a then [(digit_val a, r)] else []
  | _ => []
  end.

(** [%m]: 1[0-2] | 0[1-9] | [1-9] *)
Definition re_m (s : string) : list (Z * string) :=
  two_chars 1 0 2 s ++ two_chars 0 1 9 s ++ one_char s.

(** [%d]: 3[0-1] | [1-2]\d | 0[1-9] | [1-9] | a space and [1-9] *)
Definition re_d (s : string) : list (Z * string) :=
  two_chars 3 0 1 s ++ digit_after 1 s ++ digit_after 2 s
  ++ two_chars 0 1 9 s ++ one_char s
  ++ match s with
     | String " " r => one_char r
     | _ => []
     end.

Definition re_dash (s : string) : list string :=
  match s with
  | String "-" r => [r]
  | _ => []
  end.

(** All the ways [%m-%d] matches a prefix of [s], in the order a
    backtracking matcher finds them. *)
Definition re_md (s : string) : list (Z * Z * string) :=
  flat_map (fun '(m, r3) =>
    flat_map (fun r4 => map (fun '(d, r5) => (m, d, r5)) (re_d r4))
             (re_dash r3))
    (re_m s).

(** The same for the whole pattern [%Y-%m-%d]. *)
Definition re_Ymd (s : string) : list (date * string) :=
  flat_map (fun '(y, r1) =>
    flat_map (fun r2 => map (fun '(m, d, r5) => (Date y m d, r5)) (re_md r2))
             (re_dash r1))
    (re_Y s).

(** The [ValueError] of the [date] constructor.  (The pattern only lets
    months 1..12 and four-digit years through, so year 0 or the day is at
    fault.) *)
Definition date_range_error (d : date) : exn :=
  if (MINYEAR <=? year d)%Z && (year d <=? MAXYEAR)%Z
  then Exn ValueError "day is out of range for month"
  else Exn ValueError "year 0 is out of range".

(** [datetime.strptime(v, "%Y-%m-%d").date()]: the first match must use
    the whole text, and the three numbers must make a date.  (The text
    is quoted in the message as [repr] quotes a text without quotes or
    escapes; the handler catches this [ValueError] and never reads its
    message.) *)
Definition strptime_Ymd (v : pyval) : res date :=
  match v with
  | PStr s =>
      match re_Ymd s with
      | [] => raise (Exn ValueError
                ("time data " ++ repr_key s ++ " does not match format '%Y-%m-%d'"))
      | (d, rest) :: _ =>
          match rest with
          | EmptyString =>
              if date_valid d then ok d else raise (date_range_error d)
          | _ => raise (Exn ValueError ("unconverted data remains: " ++ rest))
          end
      end
  | PNone => raise (Exn TypeError "strptime() argument 1 must be str, not None")
  | _ => raise (Exn TypeError
           ("strptime() argument 1 must be str, not " ++ type_name v))
  end.

(** The strict form [YYYY-MM-DD]: ten characters, digits around two
    dashes. *)
Definition iso_fields (s : string) : option date :=
  match s with
  | String y1 (String y2 (String y3 (String y4 (String "-"
      (String m1 (String m2 (String "-" (String d1 (String d2 "")))))))))
    =>
      if is_digit y1 && is_digit y2 && is_digit y3 && is_digit y4
         && is_digit m1 && is_digit m2 && is_digit d1 && is_digit d2
      then Some (Date (digit_val y1 * 1000 + digit_val y2 * 100
                       + digit_val y3 * 10 + digit_val y4)
                      (digit_val m1 * 10 + digit_val m2)
                      (digit_val d1 * 10 + digit_val d2))
      else None
  | _ => None
  end.

(** The strict form of a valid date, which is what [isoformat] writes
    and what a date column reads back. *)
Definition date_fromisoformat (s : string) : option date :=
  match iso_fields s with
  | Some d => if date_valid d then Some d else None
  | None => None
  end.

End Calendar.

(** ** The collaborators and the calls made to them *)

Module Effects.
Import Py Calendar.

Definition bytes : Type := list Byte.byte.

(** [client.post(url, headers=..., json=..., timeout=...)] *)
Record request : Type := Request {
  req_url : string;
  req_headers : pydict;
  req_json : pyval;
  req_timeout : Z
}.

(** An [httpx.Response]: the status code and the body text. *)
Record response : Type := Response { status_code : Z; text : string }.

(** One filter of a query being built: [.eq], [.lte], [.gte]. *)
Inductive filter_op : Type := OpEq | OpLte | OpGte.

Record filter : Type := Filter {
  f_op : filter_op;
  f_column : string;
  f_value : string
}.

(** [supabase.table(t).select(cols).<filters>.execute()] *)
Record select_query : Type := SelectQuery {
  q_table : string;
  q_columns : string;
  q_filters : list filter
}.

(** An f-string: its literal parts and the values substituted, in
    order. *)
Inductive piece : Type :=
| Lit (s : string)
| Val (v : pyval).

Definition fstring : Type := list piece.

(** The argument of [resend.Emails.send]. *)
Record email : Type := Email {
  email_from : string;
  email_to : pyval;
  email_subject : fstring;
  email_text : fstring
}.

(** What the programs ask of the outside, in the order asked. *)
Inductive event : Type :=
| EvDownload (bucket path : string)
| EvPost (r : request)
| EvUpdate (table : string) (fields : pydict) (id_column : string) (id : pyval)
| EvSelect (q : select_query)
| EvNow
| EvEmail (params : email).

(** The outside world: each call may answer with a value or raise, and
    may change the world.  [json_loads] is [json.loads] on text: the
    parsed value, or the exception it raises, which is a
    [JSONDecodeError] for a text that is not JSON, but a
    [RecursionError] for brackets nested too deep and a plain
    [ValueError] for an integer of more digits than [int] converts.
    The two options are the settings read from the environment at
    start-up. *)
Class Collaborators (World : Type) : Type := {
  storage_download : string -> string -> World -> res bytes * World;
  client_post : request -> World -> res response * World;
  table_update : string -> pydict -> string -> pyval -> World -> res unit * World;
  table_select : select_query -> World -> res (list pyval) * World;
  datetime_now : World -> datetime * World;
  emails_send : email -> World -> res pyval * World;
  json_loads : string -> res pyval;
  GEMINI_API_KEY : option string;
  RESEND_API_KEY : option string
}.

Section Monad.
Context {World : Type} `{Collaborators World}.

(** The state a program runs in: the world, and the calls made so far. *)
Record state : Type := State { world : World; trace : list event }.

Definition M (A : Type) : Type := state -> A * state.

Definition ret {A} (a : A) : M A := fun s => (a, s).

Definition bind {A B} (m : M A) (k : A -> M B) : M B :=
  fun s => let (a, s') := m s in k a s'.

(** Sequencing of computations that may raise: an exception skips the
    rest. *)
Definition bindE {A B} (m : M (res A)) (k : A -> M (res B)) : M (res B) :=
  bind m (fun r => match r with
                   | inl e => ret (inl e)
                   | inr a => k a
                   end).

(** A pure expression that may raise, inside a computation. *)
Definition lift {A} (r : res A) : M (res A) := ret r.

Definition perform {A} (ev : event) (call : World -> A * World) : M A :=
  fun s => let (a, w) := call (world s) in
           (a, State w (trace s ++ [ev])).

Definition call_download (bucket path : string) : M (res bytes) :=
  perform (EvDownload bucket path) (storage_download bucket path).

Definition call_post (r : request) : M (res response) :=
  perform (EvPost r) (client_post r).

Definition call_update (table : string) (fields : pydict)
    (id_column : string) (id : pyval) : M (res unit) :=
  perform (EvUpdate table fields id_column id)
          (table_update table fields id_column id).

Definition call_select (q : select_query) : M (res (list pyval)) :=
  perform (EvSelect q) (table_select q).

Definition call_now : M datetime := perform EvNow datetime_now.

Definition call_email (params : email) : M (res pyval) :=
  perform (EvEmail params) (emails_send params).

(** [json.loads(s)] *)
Definition py_json_loads (s : string) : res pyval := json_loads s.

End Monad.

Arguments state World : clear implicits.
Arguments M World A : clear implicits.

Notation "x <- c1 ;; c2" := (bind c1 (fun x => c2))
  (at level 61, c1 at next level, right associativity).
Notation "x <-! c1 ;; c2" := (bindE c1 (fun x => c2))
  (at level 61, c1 at next level, right associativity).

(** [str(x)] of an optional text, as an f-string prints it. *)
Definition str_option (o : option string) : string :=
  match o with
  | Some s => s
  | None => "None"
  end.

End Effects.

(** ** main.py: the ingestion webhook *)

Module Main.
Import Py Calendar Effects.

(** The body the endpoint accepts (a pydantic model: [record] is a
    dict, [old_record] a dict or absent). *)
Record WebhookPayload : Type := {
  type : string;
  table : string;
  record : pydict;
  schema_name : string;
  old_record : option pydict
}.

(** *** [base64.b64encode(...).decode('utf-8')] *)

Definition b64_alphabet : string :=
  "ABCDEFGHIJKLMNOPQRSTUVWXYZabcdefghijklmnopqrstuvwxyz0123456789+/".

Definition b64_char (n : N) : ascii :=
  match String.get (N.to_nat n) b64_alphabet with
  | Some c => c
  | None => "="%char
  end.

Fixpoint b64encode (l : bytes) : string :=
  match l with
  | [] => ""
  | [a] =>
      let x := Byte.to_N a in
      String (b64_char (x / 4)) (String (b64_char (x mod 4 * 16)) "==")
  | [a; b] =>
      let x := Byte.to_N a in
      let y := Byte.to_N b in
      String (b64_char (x / 4))
        (String (b64_char (x mod 4 * 16 + y / 16))
           (String (b64_char (y mod 16 * 4)) "="))
  | a :: b :: c :: rest =>
      let x := Byte.to_N a in
      let y := Byte.to_N b in
      let z := Byte.to_N c in
      String (b64_char (x / 4))
        (String (b64_char (x mod 4 * 16 + y / 16))
           (String (b64_char (y mod 16 * 4 + z / 64))
              (String (b64_char (z mod 64)) (b64encode rest))))
  end%N.

(** *** The request sent to each model *)

(** Step 1 of [extract_data_with_gemini_raw]: the MIME type from the
    file extension. *)
Definition mime_type_of (lower_path : string) : string :=
  if str_endswith lower_path ".png" then "image/png"
  else if str_endswith lower_path ".jpg" || str_endswith lower_path ".jpeg"
       then "image/jpeg"
  else "application/pdf".

Definition target_models : list string :=
  [ "gemini-2.5-flash-preview-09-2025";
    "gemini-2.5-flash";
    "gemini-1.5-flash-latest";
    "gemini-1.5-flash" ].

Definition headers : pydict := [("Content-Type", PStr "application/json")].

Definition prompt_text : string := "
    You are a strictly logical Data Extraction Engine.
    Analyze this Certificate of Insurance (COI) document. 
    
    Extract the following data strictly in JSON format. Do not include Markdown formatting (no ```json ... ```).
    
    Keys to extract:
    - producer_name (Insurance Broker)
    - insured_name (Vendor Company Name)
    - insurer_name (The Main Carrier Name)
    - policy_expiration_date (YYYY-MM-DD format. Look for General Liability or Umbrella expiration. If multiple, take the earliest one.)
    - general_liability_limit (Number only, remove currency symbols and commas. e.g. 1000000)
    - confidence_score (Float between 0.0 and 1.0. 1.0 = clear text, 0.1 = blurry/illegible)

    If a field is missing or illegible, return null.
    ".

Definition payload_of (mime_type b64_data : string) : pyval :=
  PDict [("contents", PList [PDict [("parts", PList [
    PDict [("text", PStr prompt_text)];
    PDict [("inline_data", PDict [("mime_type", PStr mime_type);
                                  ("data", PStr b64_data)])]])]])].

Section WithCollaborators.
Context {World : Type} `{Collaborators World}.

Definition url_of (model_name : string) : string :=
  "https://generativelanguage.googleapis.com/v1beta/models/" ++ model_name
  ++ ":generateContent?key=" ++ str_option GEMINI_API_KEY.

Definition request_of (payload : pyval) (model_name : string) : request :=
  Request (url_of model_name) headers payload 60.

(** *** Reading one reply (the inner [try] of the loop) *)

(** [result['candidates'][0]['content']['parts'][0]['text']] *)
Definition reply_text (result : pyval) : res pyval :=
  res_bind (getitem_str result "candidates") (fun cs =>
  res_bind (getitem_0 cs) (fun c =>
  res_bind (getitem_str c "content") (fun content =>
  res_bind (getitem_str content "parts") (fun parts =>
  res_bind (getitem_0 parts) (fun part =>
  getitem_str part "text"))))).

(** [text.replace("```json", "").replace("```", "").strip()] *)
Definition clean_reply (text : pyval) : res string :=
  res_bind (method_replace text "```json" "") (fun t1 =>
  ok (str_strip (str_replace t1 "```" ""))).

(** The inner [try ... except (KeyError, IndexError,
    json.JSONDecodeError)]: the parsed reply, or [ValueError("Invalid
    JSON structure: ...")] for the three classes caught; any other
    exception passes through unchanged. *)
Definition parse_reply (result : pyval) : res pyval :=
  match res_bind (reply_text result) (fun text =>
        res_bind (clean_reply text) py_json_loads) with
  | inr v => ok v
  | inl e =>
      if caught_by [KeyError; IndexError; JSONDecodeError] e
      then raise (Exn ValueError ("Invalid JSON structure: " ++ exn_str e))
      else raise e
  end.

(** *** The loop over the models *)

(** [response.raise_for_status()] passes on a 2xx status and raises
    [HTTPStatusError] on any other. *)
Definition is_success (r : response) : bool :=
  (200 <=? status_code r)%Z && (status_code r <=? 299)%Z.

(** How one pass through the loop body ends: [return], [continue] on a
    404, or one of the two [except] clauses storing [last_error]. *)
Inductive attempt : Type :=
| Found (v : pyval)
| NotFound
| Failed (detail : string).

(** What the loop body does with the answer to its request: an
    exception of the request itself, a 404, another status that
    [raise_for_status] refuses, or a body to read with [response.json()]
    and the inner [try]. *)
Definition outcome_of (r : res response) : attempt :=
  match r with
  | inl e => Failed (exn_str e)
  | inr response =>
      if (status_code response =? 404)%Z then NotFound
      else if negb (is_success response) then Failed (text response)
      else
        match res_bind (py_json_loads (text response)) parse_reply with
        | inr v => Found v
        | inl e => Failed (exn_str e)
        end
  end.

Definition attempt_model (payload : pyval) (model_name : string) : M World attempt :=
  r <- call_post (request_of payload model_name) ;;
  ret (outcome_of r).

Definition exhausted (last_error : option string) : exn :=
  Exn ValueError
      ("All models failed. Last API response: " ++ str_option last_error).

(** [for model_name in target_models: ...] followed by the final
    [raise]. *)
Fixpoint try_models (payload : pyval) (models : list string)
    (last_error : option string) : M World (res pyval) :=
  match models with
  | [] => ret (raise (exhausted last_error))
  | model_name :: rest =>
      a <- attempt_model payload model_name ;;
      match a with
      | Found v => ret (ok v)
      | NotFound => try_models payload rest last_error
      | Failed detail => try_models payload rest (Some detail)
      end
  end.

(** [file_path.lower()] *)
Definition method_lower (v : pyval) : res string :=
  match v with
  | PStr s => ok (str_lower s)
  | _ => raise (no_attribute v "lower")
  end.

(** The gateway, over a given list of models. *)
Definition extract_with_models (models : list string)
    (file_bytes : bytes) (file_path : pyval) : M World (res pyval) :=
  lower_path <-! lift (method_lower file_path) ;;
  let mime_type := mime_type_of lower_path in
  let b64_data := b64encode file_bytes in
  try_models (payload_of mime_type b64_data) models None.

Definition extract_data_with_gemini_raw
    (file_bytes : bytes) (file_path : pyval) : M World (res pyval) :=
  extract_with_models target_models file_bytes file_path.

(** *** Download *)

(** [HTTPException.__str__] *)
Definition http_exception (status : string) (detail : string) : exn :=
  Exn HTTPException (status ++ ": " ++ detail).

(** Every exception of the body, also the [AttributeError] of a path
    that is not a str, becomes the [HTTPException]. *)
Definition download_file_from_supabase (file_path : pyval) : M World (res bytes) :=
  r <- (clean_path <-! lift (method_replace file_path "cois/" "") ;;
        call_download "cois" clean_path) ;;
  ret match r with
      | inr data => ok data
      | inl _ => raise (http_exception "500" "Storage Download Failed")
      end.

(** *** Status *)

(** Lines 159-169: [status] from the extracted expiration date.  The
    clock is read only when the text parses; an exception that is not a
    [ValueError] leaves the block. *)
Definition resolve_status (exp_date_str : pyval) : M World (res string) :=
  if truthy exp_date_str then
    match strptime_Ymd exp_date_str with
    | inr exp_date =>
        now <- call_now ;;
        ret (ok (if date_ltb exp_date (dt_date now)
                 then "rejected" else "active"))
    | inl e =>
        if caught_by [ValueError] e then ret (ok "error") else ret (raise e)
    end
  else ret (ok "error").

(** *** The handler *)

Definition update_data_of (extracted_data : pydict) (exp_date_str : pyval)
    (status : string) : pydict :=
  [ ("carrier_name", dict_get extracted_data "insurer_name");
    ("policy_number", PStr "PENDING");
    ("expiration_date", if truthy exp_date_str then exp_date_str else PNone);
    ("limit_amount", dict_get extracted_data "general_liability_limit");
    ("ocr_confidence_score", dict_get extracted_data "confidence_score");
    ("ocr_data", PDict extracted_data);
    ("processing_status", PStr status) ].

Definition success_of (status : string) : pyval :=
  PDict [("status", PStr "success"); ("policy_status", PStr status)].

Definition error_of (message : string) : pyval :=
  PDict [("status", PStr "error"); ("message", PStr message)].

(** [extracted_data.get(...)] needs a dict: the first [.get] raises on
    anything else, and the later ones are calls on that same dict. *)
Definition as_dict (v : pyval) : res pydict :=
  match v with
  | PDict d => ok d
  | _ => raise (no_attribute v "get")
  end.

(** The body of the [try]. *)
Definition process_body (policy_id document_url : pyval) : M World (res pyval) :=
  file_bytes <-! download_file_from_supabase document_url ;;
  extracted <-! extract_data_with_gemini_raw file_bytes document_url ;;
  extracted_data <-! lift (as_dict extracted) ;;
  let exp_date_str := dict_get extracted_data "policy_expiration_date" in
  status <-! resolve_status exp_date_str ;;
  let update_data := update_data_of extracted_data exp_date_str status in
  _ <-! call_update "policies" update_data "id" policy_id ;;
  ret (ok (success_of status)).

Definition mark_error : pydict := [("processing_status", PStr "error")].

(** The [except Exception] clause: the second update, whose own
    exception is dropped, then the error answer. *)
Definition on_failure (policy_id : pyval) (e : exn) : M World (res pyval) :=
  _ <- call_update "policies" mark_error "id" policy_id ;;
  ret (ok (error_of (exn_str e))).

Definition process_coi_webhook (payload : WebhookPayload) : M World (res pyval) :=
  policy_id <-! lift (dict_getitem (record payload) "id") ;;
  document_url <-! lift (dict_getitem (record payload) "document_url") ;;
  r <- process_body policy_id document_url ;;
  match r with
  | inr answer => ret (ok answer)
  | inl e => on_failure policy_id e
  end.

Definition health_check : pyval :=
  PDict [("status", PStr "awake"); ("system", PStr "The Liability Shield")].

End WithCollaborators.

End Main.

(** ** nag_engine.py: the expiration scan and the reminders *)

Module NagEngine.
Import Py Calendar Effects.

Definition fallback_email : string := "mlodic.blue@gmail.com".
Definition fallback_name : string := "Valued Vendor".
Definition frontend_url : string := "https://the-liability-shield-face.onrender.com".

(** Lines 57-64 of [send_email]: the address and the name to greet. *)
Definition resolve_recipient (policy : pyval) : res (pyval * pyval) :=
  res_bind (method_get policy "vendors") (fun vendor_data =>
  (* vendor_data and vendor_data.get("contact_email") *)
  res_bind (if truthy vendor_data
            then method_get vendor_data "contact_email"
            else ok vendor_data) (fun cond =>
  if truthy cond then
    res_bind (method_get vendor_data "contact_email") (fun target_email =>
    res_bind (method_get vendor_data "company_name") (fun vendor_name =>
    ok (target_email, vendor_name)))
  else ok (PStr fallback_email, PStr fallback_name))).

Definition subject_of (carrier : pyval) : fstring :=
  [Lit "ACTION REQUIRED: Insurance Certificate Expiring - "; Val carrier].

Definition body_of (vendor_name carrier exp_date doc_id : pyval) : fstring :=
  [ Lit "
    Dear ";
    Val vendor_name;
    Lit ",
    
    Our records indicate that your Commercial General Liability policy (";
    Val carrier;
    Lit ") 
    will expire on ";
    Val exp_date;
    Lit ".
    
    To maintain your active vendor status and avoid payment holds, please upload 
    your renewed Certificate of Insurance to our secure portal immediately.
    
    Portal Link: ";
    Lit frontend_url;
    Lit "
    Reference ID: ";
    Val doc_id;
    Lit "
    
    Instructions:
    1. Click the portal link above.
    2. Click 'Continue with Google' to securely access your dashboard.
    3. Upload your renewed PDF document.
    
    This is an automated message from The Liability Shield.
    " ].

Definition email_of (target_email : pyval) (subject body : fstring) : email :=
  Email "onboarding@resend.dev" target_email subject body.

Section WithCollaborators.
Context {World : Type} `{Collaborators World}.

(** [if RESEND_API_KEY:] *)
Definition armed : bool :=
  match RESEND_API_KEY with
  | Some k => negb (String.eqb k "")
  | None => false
  end.

Definition scan_query (today target_date : date) : select_query :=
  SelectQuery "policies" "*, vendors(company_name, contact_email)"
    [ Filter OpEq "processing_status" "active";
      Filter OpLte "expiration_date" (isoformat target_date);
      Filter OpGte "expiration_date" (isoformat today) ].

(** The two dates are computed before the [try]; the query runs inside
    it. *)
Definition get_expiring_policies (days_out : Z) : M World (res (list pyval)) :=
  now1 <- call_now ;;
  target <-! lift (datetime_add_days now1 days_out) ;;
  let target_date := dt_date target in
  now2 <- call_now ;;
  let today := dt_date now2 in
  r <- call_select (scan_query today target_date) ;;
  ret (ok match r with
          | inr data => data
          | inl _ => []
          end).

Definition send_email (policy : pyval) : M World (res unit) :=
  carrier <-! lift (method_get_default policy "carrier_name"
                                       (PStr "Unknown Carrier")) ;;
  exp_date <-! lift (method_get policy "expiration_date") ;;
  doc_id <-! lift (method_get policy "id") ;;
  to_whom <-! lift (resolve_recipient policy) ;;
  let (target_email, vendor_name) := to_whom : pyval * pyval in
  let subject := subject_of carrier in
  let body := body_of vendor_name carrier exp_date doc_id in
  if armed then
    _ <- call_email (email_of target_email subject body) ;;
    ret (ok tt)
  else ret (ok tt).

(** [for policy in expiring_policies: send_email(policy)] *)
Fixpoint send_all (policies : list pyval) : M World (res unit) :=
  match policies with
  | [] => ret (ok tt)
  | policy :: rest => _ <-! send_email policy ;; send_all rest
  end.

Definition run_nag_cycle : M World (res unit) :=
  expiring_policies <-! get_expiring_policies 30 ;;
  match expiring_policies with
  | [] => ret (ok tt)
  | _ => send_all expiring_policies
  end.

End WithCollaborators.

End NagEngine.

(** ** The policy table as the query sees it *)

Module Store.
Import Py Calendar Effects.

(** A row of [policies]: its columns as [select *] returns them (a date
    column as its ISO text, or null), and the row of [vendors] that its
    foreign key points to, if any. *)
Record policy_row : Type := PolicyRow {
  columns : pydict;
  vendor : option pydict
}.

(** The embedded [vendors(company_name, contact_email)]. *)
Definition embed_vendor (v : option pydict) : pyval :=
  match v with
  | Some d => PDict [ ("company_name", dict_get d "company_name");
                      ("contact_email", dict_get d "contact_email") ]
  | None => PNone
  end.

(** One element of [response.data]. *)
Definition joined (r : policy_row) : pyval :=
  PDict (columns r ++ [("vendors", embed_vendor (vendor r))]).

Definition status_of (r : policy_row) : pyval :=
  dict_get (columns r) "processing_status".

Definition expiration_of (r : policy_row) : option date :=
  match dict_get (columns r) "expiration_date" with
  | PStr s => date_fromisoformat s
  | _ => None
  end.

Definition date_compare (d1 d2 : date) : comparison :=
  if date_ltb d1 d2 then Lt else if date_ltb d2 d1 then Gt else Eq.

Definition op_holds (op : filter_op) (c : comparison) : bool :=
  match op, c with
  | OpEq, Eq => true
  | OpLte, (Lt | Eq) => true
  | OpGte, (Gt | Eq) => true
  | _, _ => false
  end.

Definition is_date_column (c : string) : bool := String.eqb c "expiration_date".

(** A filter as a test on rows.  On the date column the literal must be
    a date, and a null never passes; the other columns compare as text
    (byte order). *)
Definition compile_filter (f : filter) : res (policy_row -> bool) :=
  if is_date_column (f_column f) then
    match date_fromisoformat (f_value f) with
    | Some lit =>
        ok (fun r => match expiration_of r with
                     | Some d => op_holds (f_op f) (date_compare d lit)
                     | None => false
                     end)
    | None => raise (Exn (OtherException "APIError")
                         "invalid input syntax for type date")
    end
  else
    ok (fun r => match dict_get (columns r) (f_column f) with
                 | PStr s => op_holds (f_op f) (String.compare s (f_value f))
                 | _ => false
                 end).

Fixpoint compile_filters (fs : list filter) : res (policy_row -> bool) :=
  match fs with
  | [] => ok (fun _ => true)
  | f :: rest =>
      res_bind (compile_filter f) (fun p =>
      res_bind (compile_filters rest) (fun q =>
      ok (fun r => p r && q r)))
  end.

(** What the database answers to a query on [policies] with the vendor
    embedded: the rows passing every filter, in table order. *)
Definition eval_select (tbl : list policy_row) (q : select_query)
  : res (list pyval) :=
  if String.eqb (q_table q) "policies"
     && String.eqb (q_columns q) "*, vendors(company_name, contact_email)"
  then res_bind (compile_filters (q_filters q)) (fun p =>
       ok (map joined (List.filter p tbl)))
  else raise (Exn (OtherException "APIError") "relation does not exist").

End Store.

(** ** A JSON decoder

    A reference instance for [json_loads], used to run the programs on
    concrete texts.  It reads objects, arrays, strings with the
    single-character escapes, integers, decimals without an exponent and
    of at most 15 digits, and the three literals; on any other text it
    raises [JSONDecodeError] (with the message abridged: without the
    position CPython adds), and on brackets nested deeper than
    [recursion_limit] it raises [RecursionError].  The statements about
    the programs hold for every decoder and do not depend on this
    one. *)

Module Json.
Import Py.

Definition dquote : ascii := "034"%char.
Definition backslash : ascii := "092"%char.

Definition is_ws (c : ascii) : bool :=
  let n := N_of_ascii c in
  ((n =? 32) || (n =? 9) || (n =? 10) || (n =? 13))%N.

Fixpoint skip_ws (s : string) : string :=
  match s with
  | String c r => if is_ws c then skip_ws r else s
  | EmptyString => EmptyString
  end.

Definition unescape (c : ascii) : option ascii :=
  if Ascii.eqb c dquote then Some dquote
  else if Ascii.eqb c backslash then Some backslash
  else if Ascii.eqb c "/" then Some "/"%char
  else if Ascii.eqb c "b" then Some "008"%char
  else if Ascii.eqb c "f" then Some "012"%char
  else if Ascii.eqb c "n" then Some "010"%char
  else if Ascii.eqb c "r" then Some "013"%char
  else if Ascii.eqb c "t" then Some "009"%char
  else None.

(** The characters of a string literal after its opening quote, up to
    the closing one. *)
Fixpoint scan_string (s : string) : option (string * string) :=
  match s with
  | EmptyString => None
  | String c r =>
      if Ascii.eqb c dquote then Some (EmptyString, r)
      else if Ascii.eqb c backslash then
        match r with
        | String e r' =>
            match unescape e, scan_string r' with
            | Some ch, Some (body, rest) => Some (String ch body, rest)
            | _, _ => None
            end
        | EmptyString => None
        end
      else if (N_of_ascii c <? 32)%N then None
      else
        match scan_string r with
        | Some (body, rest) => Some (String c body, rest)
        | None => None
        end
  end.

Definition is_digit (c : ascii) : bool :=
  let n := N_of_ascii c in ((48 <=? n) && (n <=? 57))%N.

(** The digits at the head of [s], as a number and a count. *)
Fixpoint scan_digits (s : string) (acc : Z) (count : nat)
  : Z * nat * string :=
  match s with
  | String c r =>
      if is_digit c
      then scan_digits r (acc * 10 + (Z.of_N (N_of_ascii c) - 48)) (S count)
      else (acc, count, s)
  | EmptyString => (acc, count, s)
  end.

Definition float_of_Z (z : Z) : float := PrimFloat.of_uint63 (Uint63.of_Z z).

(** A number without its sign: [0] or a digit string not starting with
    [0], then optionally a point and digits. *)
Definition scan_number (negative : bool) (s : string)
  : option (pyval * string) :=
  let '(int_part, n_int, r) :=
    match s with
    | String "0" r0 => (0, 1%nat, r0)
    | _ => scan_digits s 0 0%nat
    end in
  if Nat.eqb n_int 0 then None
  else
    match r with
    | String "." r' =>
        let '(mantissa, n_all, r'') := scan_digits r' int_part n_int in
        if Nat.eqb n_all n_int
        then Some (PInt (if negative then - int_part else int_part), r)
        else if Nat.ltb 15 n_all then None
        else
          match r'' with
          | String "e" _ | String "E" _ => None
          | _ =>
              let x := PrimFloat.div (float_of_Z mantissa)
                         (float_of_Z (10 ^ Z.of_nat (n_all - n_int))) in
              Some (PFloat (if negative then PrimFloat.opp x else x), r'')
          end
    | String "e" _ | String "E" _ => None
    | _ => Some (PInt (if negative then - int_part else int_part), r)
    end.

Fixpoint drop (n : nat) (s : string) : string :=
  match n, s with
  | S n', String _ r => drop n' r
  | _, _ => s
  end.

Definition literal (word : string) (v : pyval) (s : string)
  : option (pyval * string) :=
  if starts_with word s then Some (v, drop (String.length word) s) else None.

(** [d[k] = v] while an object is being read: a repeated key keeps its
    place and takes the later value. *)
Fixpoint dict_set (d : pydict) (k : string) (v : pyval) : pydict :=
  match d with
  | [] => [(k, v)]
  | (k', v') :: d' =>
      if String.eqb k' k then (k, v) :: d' else (k', v') :: dict_set d' k v
  end.

Fixpoint parse_value (fuel : nat) (s : string) {struct fuel}
  : option (pyval * string) :=
  match fuel with
  | O => None
  | S fuel' =>
      match skip_ws s with
      | String "[" r =>
          match skip_ws r with
          | String "]" r' => Some (PList [], r')
          | _ =>
              match parse_elements fuel' r with
              | Some (vs, r') => Some (PList vs, r')
              | None => None
              end
          end
      | String "{" r =>
          match skip_ws r with
          | String "}" r' => Some (PDict [], r')
          | _ =>
              match parse_members fuel' r [] with
              | Some (d, r') => Some (PDict d, r')
              | None => None
              end
          end
      | String "-" r => scan_number true r
      | String c r as s' =>
          if Ascii.eqb c dquote then
            match scan_string r with
            | Some (body, r') => Some (PStr body, r')
            | None => None
            end
          else if is_digit c then scan_number false s'
          else
            match literal "null" PNone s' with
            | Some x => Some x
            | None =>
                match literal "true" (PBool true) s' with
                | Some x => Some x
                | None => literal "false" (PBool false) s'
                end
            end
      | EmptyString => None
      end
  end
with parse_elements (fuel : nat) (s : string) {struct fuel}
  : option (list pyval * string) :=
  match fuel with
  | O => None
  | S fuel' =>
      match parse_value fuel' s with
      | Some (v, r) =>
          match skip_ws r with
          | String "," r' =>
              match parse_elements fuel' r' with
              | Some (vs, r'') => Some (v :: vs, r'')
              | None => None
              end
          | String "]" r' => Some ([v], r')
          | _ => None
          end
      | None => None
      end
  end
with parse_members (fuel : nat) (s : string) (acc : pydict) {struct fuel}
  : option (pydict * string) :=
  match fuel with
  | O => None
  | S fuel' =>
      match skip_ws s with
      | String c r =>
          if Ascii.eqb c dquote then
            match scan_string r with
            | Some (key, r1) =>
                match skip_ws r1 with
                | String ":" r2 =>
                    match parse_value fuel' r2 with
                    | Some (v, r3) =>
                        let acc' := dict_set acc key v in
                        match skip_ws r3 with
                        | String "," r4 => parse_members fuel' r4 acc'
                        | String "}" r4 => Some (acc', r4)
                        | _ => None
                        end
                    | None => None
                    end
                | _ => None
                end
            | None => None
            end
          else None
      | EmptyString => None
      end
  end.

(** CPython gives up on nested brackets near its recursion limit of
    1000 frames; the depth left depends on the frames already in use. *)
Definition recursion_limit : nat := 990.

(** The first opening bracket of [s] that nests deeper than the limit,
    string literals passed over. *)
Fixpoint overrun (s : string) (in_string : bool) (depth : nat)
  : option ascii :=
  match s with
  | EmptyString => None
  | String c r =>
      if in_string then
        if Ascii.eqb c backslash then
          match r with
          | String _ r' => overrun r' true depth
          | EmptyString => None
          end
        else overrun r (negb (Ascii.eqb c dquote)) depth
      else if Ascii.eqb c dquote then overrun r true depth
      else if Ascii.eqb c "[" || Ascii.eqb c "{" then
        if Nat.leb recursion_limit depth then Some c
        else overrun r false (S depth)
      else if Ascii.eqb c "]" || Ascii.eqb c "}" then
        overrun r false (Nat.pred depth)
      else overrun r false depth
  end.

Definition recursion_error (bracket : ascii) : exn :=
  Exn (OtherException "RecursionError")
      ("maximum recursion depth exceeded while decoding a JSON "
       ++ (if Ascii.eqb bracket "[" then "array" else "object")
       ++ " from a unicode string").

(** The whole text must be one value, with blanks around it. *)
Definition loads (s : string) : res pyval :=
  match overrun s false 0 with
  | Some bracket => raise (recursion_error bracket)
  | None =>
      match parse_value (2 * String.length s + 2) s with
      | Some (v, r) =>
          match skip_ws r with
          | EmptyString => ok v
          | _ => raise (Exn JSONDecodeError "Extra data")
          end
      | None => raise (Exn JSONDecodeError "Expecting value")
      end
  end.

(** Writing a text as a JSON string literal. *)
Fixpoint escape (s : string) : string :=
  match s with
  | EmptyString => EmptyString
  | String c r =>
      if Ascii.eqb c dquote || Ascii.eqb c backslash
      then String backslash (String c (escape r))
      else if Ascii.eqb c "010" then String backslash (String "n" (escape r))
      else String c (escape r)
  end.

Definition quoted (s : string) : string :=
  String dquote (escape s ++ String dquote EmptyString).

End Json.

(** ** A small world to run the programs in *)

Module Sim.
Import Py Calendar Effects Store.

(** Files of the bucket; the answers the model provider will give, one
    per request; the faults of the coming updates ([None]: the update is
    applied); the clock readings to come (the last one stays); the
    policy table; whether queries and mail deliveries succeed. *)
Record sim_world : Type := SimWorld {
  files : list (string * bytes);
  replies : list (res response);
  update_faults : list (option exn);
  clock : list datetime;
  policies : list policy_row;
  db_up : bool;
  mail_up : bool
}.

Fixpoint find_file (fs : list (string * bytes)) (path : string) : option bytes :=
  match fs with
  | [] => None
  | (p, b) :: fs' => if String.eqb p path then Some b else find_file fs' path
  end.

Definition download (bucket path : string) (w : sim_world) : res bytes * sim_world :=
  match find_file (files w) path with
  | Some b => (ok b, w)
  | None => (raise (Exn (OtherException "StorageApiError") "Object not found"), w)
  end.

Definition post (r : request) (w : sim_world) : res response * sim_world :=
  match replies w with
  | a :: rest =>
      (a, SimWorld (files w) rest (update_faults w) (clock w) (policies w)
                (db_up w) (mail_up w))
  | [] => (raise (Exn (OtherException "ConnectError") "connection refused"), w)
  end.

(** Keys of the rows are texts or integers. *)
Definition same_key (a b : pyval) : bool :=
  match a, b with
  | PStr x, PStr y => String.eqb x y
  | PInt x, PInt y => Z.eqb x y
  | _, _ => false
  end.

Definition apply_update (fields : pydict) (id_column : string) (id : pyval)
    (r : policy_row) : policy_row :=
  if same_key (dict_get (columns r) id_column) id
  then PolicyRow (fold_left (fun d kv => Json.dict_set d (fst kv) (snd kv))
                            fields (columns r))
                 (vendor r)
  else r.

Definition update (table : string) (fields : pydict) (id_column : string)
    (id : pyval) (w : sim_world) : res unit * sim_world :=
  match update_faults w with
  | Some e :: rest =>
      (raise e, SimWorld (files w) (replies w) rest (clock w) (policies w)
                      (db_up w) (mail_up w))
  | _ =>
      (ok tt, SimWorld (files w) (replies w) (tl (update_faults w)) (clock w)
                    (map (apply_update fields id_column id) (policies w))
                    (db_up w) (mail_up w))
  end.

Definition select (q : select_query) (w : sim_world) : res (list pyval) * sim_world :=
  if db_up w then (eval_select (policies w) q, w)
  else (raise (Exn (OtherException "ConnectError") "connection refused"), w).

Definition epoch : datetime := Datetime (Date 1970 1 1) 0.

Definition now (w : sim_world) : datetime * sim_world :=
  match clock w with
  | [] => (epoch, w)
  | [t] => (t, w)
  | t :: rest =>
      (t, SimWorld (files w) (replies w) (update_faults w) rest (policies w)
                (db_up w) (mail_up w))
  end.

Definition send (m : email) (w : sim_world) : res pyval * sim_world :=
  if mail_up w then (ok (PDict [("id", PStr "msg_1")]), w)
  else (raise (Exn (OtherException "ResendError") "rejected"), w).

#[export] Instance sim_collaborators : Collaborators sim_world := {
  storage_download := download;
  client_post := post;
  table_update := update;
  table_select := select;
  datetime_now := now;
  emails_send := send;
  json_loads := Json.loads;
  GEMINI_API_KEY := Some "k";
  RESEND_API_KEY := Some "re_k"
}.

(** The success envelope of the provider around a reply text. *)
Definition envelope (reply : string) : string :=
  "{" ++ Json.quoted "candidates" ++ ": [{" ++ Json.quoted "content"
  ++ ": {" ++ Json.quoted "parts" ++ ": [{" ++ Json.quoted "text" ++ ": "
  ++ Json.quoted reply ++ "}]}}]}".

Definition start (w : sim_world) : state sim_world := State w [].

End Sim.

(** * Properties *)

Import Py Calendar Effects Main NagEngine Store.

#[global] Existing Instance Sim.sim_collaborators.

(** ** What the statements speak of *)

(** The answers the endpoint documents: the object
    [{status: success, policy_status: s}] with [s] one of the three
    statuses, or the object [{status: error, message: m}]. *)
Definition structured_outcome (r : res pyval) : Prop :=
  (exists status,
     r = ok (PDict [("status", PStr "success");
                    ("policy_status", PStr status)])
     /\ (status = "active" \/ status = "rejected" \/ status = "error"))
  \/ (exists message,
       r = ok (PDict [("status", PStr "error"); ("message", PStr message)])).

(** The date the clock shows in a state. *)
Definition today_in {World : Type} `{Collaborators World} (s : state World) : date :=
  dt_date (fst (datetime_now (world s))).

(** The second update of the handler: the one that writes nothing but
    the status ["error"]. *)
Definition is_mark_error (ev : event) : bool :=
  match ev with
  | EvUpdate _ [field] _ _ =>
      String.eqb (fst field) "processing_status"
      && match snd field with
         | PStr v => String.eqb v "error"
         | _ => false
         end
  | _ => false
  end.

(** A row the scan is to return: its status is ["active"] and its
    expiration date is no earlier than [today] and no later than
    [days_out] days after it. *)
Definition expiring_within (today : date) (days_out : Z) (r : policy_row)
  : bool :=
  match status_of r, expiration_of r with
  | PStr status, Some expiration =>
      String.eqb status "active"
      && (toordinal today <=? toordinal expiration)%Z
      && (toordinal expiration <=? toordinal today + days_out)%Z
  | _, _ => false
  end.

(** A row whose status is ["active"] and whose expiration date is none
    of the days before day number [first] and none after day number
    [last]. *)
Definition expiring_between (first last : Z) (r : policy_row) : bool :=
  match status_of r, expiration_of r with
  | PStr status, Some expiration =>
      String.eqb status "active"
      && (first <=? toordinal expiration)%Z
      && (toordinal expiration <=? last)%Z
  | _, _ => false
  end.

Section Observations.
Context {World : Type} `{Collaborators World}.

(** [text.replace("```json", "").replace("```", "").strip()] on a str. *)
Definition cleaned (reply : string) : string :=
  str_strip (str_replace (str_replace reply "```json" "") "```" "").

(** The requests to a list of models, one each, in order. *)
Definition posts_for (payload : pyval) (models : list string) : list event :=
  map (fun m => EvPost (request_of payload m)) models.

(** The world after each of [models] has been asked and has answered
    404, if that is what they do. *)
Fixpoint after_not_found (payload : pyval) (models : list string) (w : World)
  : option World :=
  match models with
  | [] => Some w
  | m :: rest =>
      match client_post (request_of payload m) w with
      | (inr r, w1) =>
          if (status_code r =? 404)%Z then after_not_found payload rest w1
          else None
      | (inl _, _) => None
      end
  end.

(** The answers the provider gives when each of [models] is asked in
    turn, and the world after the last one. *)
Fixpoint answers_of (payload : pyval) (models : list string) (w : World)
  : list (res response) * World :=
  match models with
  | [] => ([], w)
  | m :: rest =>
      let (a, w1) := client_post (request_of payload m) w in
      let (l, w2) := answers_of payload rest w1 in
      (a :: l, w2)
  end.

(** An answer from which the loop does not return. *)
Definition fails (a : res response) : bool :=
  match outcome_of a with
  | Found _ => false
  | _ => true
  end.

(** [last_error] after a run of failing answers: a 404 leaves it as it
    is, every other failure stores its detail. *)
Fixpoint last_error_after (last_error : option string)
    (l : list (res response)) : option string :=
  match l with
  | [] => last_error
  | a :: rest =>
      last_error_after
        match outcome_of a with
        | Failed detail => Some detail
        | _ => last_error
        end rest
  end.

(** What a run adds to the trace holds no second update. *)
Definition quiet (s s1 : state World) : Prop :=
  exists evs, trace s1 = trace s ++ evs
              /\ forallb (fun ev => negb (is_mark_error ev)) evs = true.

End Observations.

(** Whether [old] occurs somewhere in [s]. *)
Fixpoint occurs (old s : string) : bool :=
  starts_with old s ||
  match s with
  | String _ s' => occurs old s'
  | EmptyString => false
  end.

(** A text without a backtick. *)
Fixpoint no_backtick (s : string) : bool :=
  match s with
  | EmptyString => true
  | String c s' => negb (Ascii.eqb c "`") && no_backtick s'
  end.

(** A write to a table. *)
Definition is_update (ev : event) : bool :=
  match ev with
  | EvUpdate _ _ _ _ => true
  | _ => false
  end.

(** The calls the handler may make for the record [policy_id]: a
    download from the bucket ["cois"], a request to a model, a reading
    of the clock, and an update of that one record of the policies
    table which sets its status to one of the three.  A query or a mail
    is none of them. *)
Definition handler_call (policy_id : pyval) (ev : event) : Prop :=
  match ev with
  | EvDownload bucket _ => bucket = "cois"
  | EvPost _ => True
  | EvNow => True
  | EvUpdate table fields id_column id =>
      table = "policies" /\ id_column = "id" /\ id = policy_id
      /\ exists status,
           dict_lookup fields "processing_status" = Some (PStr status)
           /\ (status = "active" \/ status = "rejected" \/ status = "error")
  | EvSelect _ => False
  | EvEmail _ => False
  end.

(** A run from [s] to [s1] made only calls that satisfy [P], at most
    [n] of them updates. *)
Definition calls {World : Type} (P : event -> Prop) (n : nat)
    (s s1 : state World) : Prop :=
  exists evs, trace s1 = trace s ++ evs
              /\ Forall P evs
              /\ (List.length (List.filter is_update evs) <= n)%nat.

(** The reminder [send_email] composes for a policy: the carrier (or
    ["Unknown Carrier"] when the row has no such column), the
    expiration date and the identifier as the row has them, to the
    resolved recipient. *)
Definition reminder_for (p : pydict) : email :=
  let carrier := dict_get_default p "carrier_name" (PStr "Unknown Carrier") in
  let to_whom := match resolve_recipient (PDict p) with
                 | inr found => found
                 | inl _ => (PNone, PNone)
                 end in
  email_of (fst to_whom) (subject_of carrier)
           (body_of (snd to_whom) carrier (dict_get p "expiration_date")
                    (dict_get p "id")).

(** Whether the recipient of a policy can be resolved (it cannot when
    the row's ["vendors"] is a list or a text, which have no [get]). *)
Definition addressable (p : pydict) : bool :=
  match resolve_recipient (PDict p) with
  | inr _ => true
  | inl _ => false
  end.

(** Checks run over every month and day, and over every day of a
    year, in the proofs about dates. *)

(** After the year and its dash, the pattern reads a two-digit month, a
    dash and a two-digit day back, and takes the whole text. *)
Definition tail_ok (m d : Z) : bool :=
  match re_md (pad2 m ++ "-" ++ pad2 d) with
  | (m', d', EmptyString) :: _ => (m' =? m)%Z && (d' =? d)%Z
  | _ => false
  end.

(** When the pattern takes the whole of a month and a day written with
    two digits each, they are the month and the day written. *)
Definition tail_sound (m d : Z) : bool :=
  match re_md (pad2 m ++ "-" ++ pad2 d) with
  | (m', d', EmptyString) :: _ => (m' =? m)%Z && (d' =? d)%Z
  | _ => true
  end.

(** Month and day from the day of the year [n] are in range and count
    back to [n]. *)
Definition doy_ok (leap : bool) (n : Z) : bool :=
  let (m, d) := month_day_of n leap in
  (1 <=? m)%Z && (m <=? 12)%Z && (1 <=? d)%Z
  && (d <=? DAYS_IN_MONTH m + b2z ((m =? 2)%Z && leap))%Z
  && (DAYS_BEFORE_MONTH m + b2z ((2 <? m)%Z && leap) + d =? n + 1)%Z.

(** ** Scenarios *)

(** The envelope the provider wraps a reply text in, as a value. *)
Definition envelope_of (reply : pyval) : pyval :=
  PDict [("candidates", PList [PDict [("content",
    PDict [("parts", PList [PDict [("text", reply)]])])]])].

(** A payload without the record identifier, and one without the
    document reference. *)
Definition payload_without_id : WebhookPayload :=
  {| type := "INSERT"; table := "policies";
     record := [("document_url", PStr "cois/p1.pdf")];
     schema_name := "public"; old_record := None |}.

Definition payload_without_url : WebhookPayload :=
  {| type := "INSERT"; table := "policies";
     record := [("id", PStr "P1")];
     schema_name := "public"; old_record := None |}.

Definition payload_P1 : WebhookPayload :=
  {| type := "INSERT"; table := "policies";
     record := [("id", PStr "P1"); ("document_url", PStr "cois/p1.pdf")];
     schema_name := "public"; old_record := None |}.

(** The same record inside a different event. *)
Definition payload_P1_update : WebhookPayload :=
  {| type := "UPDATE"; table := "documents";
     record := [("id", PStr "P1"); ("document_url", PStr "cois/p1.pdf")];
     schema_name := "audit";
     old_record := Some [("id", PStr "P1"); ("document_url", PStr "cois/old.pdf")] |}.

Definition row_P1 : policy_row :=
  PolicyRow [("id", PStr "P1"); ("processing_status", PStr "pending")] None.

Definition june_1st : datetime := Datetime (Date 2024 6 1) 0.

Definition vendor_acme : pydict :=
  [("id", PInt 7); ("company_name", PStr "Acme Roofing");
   ("contact_email", PStr "ops@acme.example")].

(** A policy row with the given key, status and expiration date. *)
Definition row_of (id status : string) (expiration : pyval)
    (v : option pydict) : policy_row :=
  PolicyRow [("id", PStr id); ("carrier_name", PStr "Hartford");
             ("expiration_date", expiration);
             ("processing_status", PStr status)] v.

Definition row_linked : policy_row :=
  row_of "P2" "active" (PStr "2024-06-20") (Some vendor_acme).

(** The table of the scan scenario, with rows on and around both ends
    of the window. *)
Definition scan_table : list policy_row :=
  [ row_linked;
    row_of "P3" "rejected" (PStr "2024-06-20") None;
    row_of "P4" "active" (PStr "2024-07-15") None;
    row_of "P5" "active" (PStr "2024-06-01") None;
    row_of "P6" "active" (PStr "2024-07-01") None;
    row_of "P7" "active" (PStr "2024-05-31") None;
    row_of "P8" "active" (PStr "2024-07-02") None;
    row_of "P9" "active" PNone None ].

Definition scan_world (clock : list datetime) (db_up : bool) : Sim.sim_world :=
  Sim.SimWorld [] [] [] clock scan_table db_up true.

Definition pdf_P1 : bytes := [Byte.x25; Byte.x50; Byte.x44; Byte.x46].

(** A world with the file of P1 in the bucket and the given answers of
    the model provider. *)
Definition world_with (answers : list (res response)) : Sim.sim_world :=
  Sim.SimWorld [("p1.pdf", pdf_P1)] answers [] [june_1st] [row_P1] true true.

Definition not_found : res response := ok (Response 404 "model not found").

Definition server_error : res response := ok (Response 500 "internal error").

Definition timed_out : res response :=
  raise (Exn (OtherException "ReadTimeout") "timed out").

(** A 200 answer whose envelope carries the given reply text. *)
Definition replied (reply : string) : res response :=
  ok (Response 200 (Sim.envelope reply)).

(** A fenced reply with the four fields of the first scenario (the score
    0.95 is the float 0x1.e666666666666p-1), and the
    expiration date given. *)
Definition reply_with (expiration : string) : string :=
  "```json" ++ "{" ++ Json.quoted "policy_expiration_date" ++ ": " ++ expiration
  ++ ", " ++ Json.quoted "insurer_name" ++ ": " ++ Json.quoted "Acme"
  ++ ", " ++ Json.quoted "general_liability_limit" ++ ": 1000000"
  ++ ", " ++ Json.quoted "confidence_score" ++ ": 0.95}" ++ "```".

Definition extracted_with (expiration : pyval) : pydict :=
  [ ("policy_expiration_date", expiration);
    ("insurer_name", PStr "Acme");
    ("general_liability_limit", PInt 1000000);
    ("confidence_score", PFloat 0x1.e666666666666p-1) ].

Definition payload_P1_pdf : pyval :=
  payload_of "application/pdf" (b64encode pdf_P1).

(** [n] opening brackets: a text that is not JSON, and that [json.loads]
    gives up on before it can say so when [n] is large. *)
Fixpoint brackets (n : nat) : string :=
  match n with
  | O => ""
  | S k => String "[" (brackets k)
  end.

(** The no-break space U+00A0 and the fullwidth digit nine U+FF19, as
    their UTF-8 bytes. *)
Definition no_break_space : string := String "194" (String "160" "").

Definition fullwidth_nine : string :=
  String "239" (String "188" (String "153" "")).

Section RunningPrograms.
Context {World : Type} `{Collaborators World}.

Lemma bind_ret {A B} (a : A) (k : A -> M World B) (s : state World) :
  bind (ret a) k s = k a s.
Proof. reflexivity. Qed.

Lemma bindE_ok {A B} (a : A) (k : A -> M World (res B)) (s : state World) :
  bindE (lift (ok a)) k s = k a s.
Proof. reflexivity. Qed.

Lemma bindE_raise {A B} (e : exn) (k : A -> M World (res B)) (s : state World) :
  bindE (lift (raise e)) k s = (raise e, s).
Proof. reflexivity. Qed.

Lemma bindE_run {A B} (m : M World (res A)) (k : A -> M World (res B)) (s s' : state World) r :
  m s = (r, s') ->
  bindE m k s = match r with
                | inl e => (inl e, s')
                | inr a => k a s'
                end.
Proof.
  intros Hm. unfold bindE, bind. rewrite Hm. destruct r; reflexivity.
Qed.

Lemma bindE_run_ok {A B} (m : M World (res A)) (k : A -> M World (res B))
    (s s' : state World) (a : A) :
  m s = (ok a, s') -> bindE m k s = k a s'.
Proof. intros Hm. rewrite (bindE_run _ _ _ _ _ Hm). reflexivity. Qed.

Lemma bindE_run_raise {A B} (m : M World (res A)) (k : A -> M World (res B))
    (s s' : state World) (e : exn) :
  m s = (raise e, s') -> bindE m k s = (raise e, s').
Proof. intros Hm. rewrite (bindE_run _ _ _ _ _ Hm). reflexivity. Qed.

Lemma perform_run {A} (ev : event) (call : World -> A * World) (s : state World) :
  perform ev call s =
  (fst (call (world s)), State (snd (call (world s))) (trace s ++ [ev])).
Proof.
  unfold perform. destruct (call (world s)); reflexivity.
Qed.

End RunningPrograms.

Section IngestionProofs.
Context {World : Type} `{Collaborators World}.

Lemma strptime_str_error (str : string) (e : exn) :
  strptime_Ymd (PStr str) = inl e -> exn_cls e = ValueError.
Proof.
  unfold strptime_Ymd.
  destruct (re_Ymd str) as [|[d rest] l]; [intros [= <-]; reflexivity|].
  destruct rest; [|intros [= <-]; reflexivity].
  destruct (date_valid d); [discriminate|].
  unfold date_range_error.
  destruct (_ && _); intros [= <-]; reflexivity.
Qed.

Lemma date_ltb_irrefl (d : date) : date_ltb d d = false.
Proof.
  unfold date_ltb.
  rewrite !Z.ltb_irrefl, !Z.eqb_refl. reflexivity.
Qed.

Lemma resolve_status_values (v : pyval) (s s' : state World) (status : string) :
  resolve_status v s = (ok status, s') ->
  status = "active" \/ status = "rejected" \/ status = "error".
Proof.
  unfold resolve_status.
  destruct (truthy v).
  - destruct (strptime_Ymd v) as [e|d].
    + destruct (caught_by [ValueError] e); unfold ret; intros [= <- _]; auto.
    + unfold bind, call_now. rewrite perform_run. unfold ret.
      destruct (date_ltb d _); intros [= <- _]; auto.
  - unfold ret. intros [= <- _]. auto.
Qed.

Lemma process_body_answer (policy_id document_url answer : pyval)
    (s s' : state World) :
  process_body policy_id document_url s = (ok answer, s') ->
  exists status, answer = success_of status
    /\ (status = "active" \/ status = "rejected" \/ status = "error").
Proof.
  unfold process_body.
  destruct (download_file_from_supabase document_url s) as [[e|file_bytes] s1] eqn:E1;
    rewrite (bindE_run _ _ _ _ _ E1); [discriminate|].
  destruct (extract_data_with_gemini_raw file_bytes document_url s1)
    as [[e|extracted] s2] eqn:E2;
    rewrite (bindE_run _ _ _ _ _ E2); [discriminate|].
  destruct (as_dict extracted) as [e|d] eqn:E3;
    [rewrite bindE_raise; discriminate | rewrite bindE_ok].
  destruct (resolve_status (dict_get d "policy_expiration_date") s2)
    as [[e|status] s3] eqn:E4;
    rewrite (bindE_run _ _ _ _ _ E4); [discriminate|].
  destruct (call_update "policies"
              (update_data_of d (dict_get d "policy_expiration_date") status)
              "id" policy_id s3) as [[e|u] s4] eqn:E5;
    rewrite (bindE_run _ _ _ _ _ E5); [discriminate|].
  unfold ret. intros [= <- _].
  exists status. split; [reflexivity|].
  eapply resolve_status_values; eassumption.
Qed.


Lemma strptime_ok_truthy (str : string) (d : date) :
  strptime_Ymd (PStr str) = ok d -> truthy (PStr str) = true.
Proof.
  destruct str; [discriminate | reflexivity].
Qed.

Lemma resolve_status_run (v : pyval) (s : state World) :
  fst (resolve_status v s) =
  if truthy v then
    match strptime_Ymd v with
    | inr d => ok (if date_ltb d (today_in s) then "rejected" else "active")
    | inl e => if caught_by [ValueError] e then ok "error" else raise e
    end
  else ok "error".
Proof.
  unfold resolve_status, today_in.
  destruct (truthy v); [|reflexivity].
  destruct (strptime_Ymd v) as [e|d].
  - destruct (caught_by [ValueError] e); reflexivity.
  - unfold bind, call_now. rewrite perform_run. reflexivity.
Qed.

(** C1 (as amended): when the record holds both an ['id'] and a
    ['document_url'], the call returns a structured answer, whatever
    the collaborators do: no exception leaves the handler. *)
Theorem process_coi_webhook_structured (payload : WebhookPayload)
    (s : state World) (policy_id document_url : pyval) :
  dict_lookup (record payload) "id" = Some policy_id ->
  dict_lookup (record payload) "document_url" = Some document_url ->
  structured_outcome (fst (process_coi_webhook payload s)).
Proof.
  intros Hid Hurl.
  unfold process_coi_webhook, dict_getitem. rewrite Hid, Hurl.
  rewrite !bindE_ok. unfold bind.
  destruct (process_body policy_id document_url s) as [[e|answer] s1] eqn:E.
  - right. exists (exn_str e).
    unfold on_failure, bind.
    destruct (call_update _ _ _ _ s1). reflexivity.
  - left. destruct (process_body_answer _ _ _ _ _ E) as (status & -> & Hs).
    exists status. split; [reflexivity | exact Hs].
Qed.

(** C10: the handler reads nothing of the payload but the two keys of
    the record: payloads that agree on them run identically (same
    answer, same calls, same final world). *)
Theorem process_coi_webhook_reads_two_keys (p1 p2 : WebhookPayload)
    (s : state World) :
  dict_lookup (record p1) "id" = dict_lookup (record p2) "id" ->
  dict_lookup (record p1) "document_url"
    = dict_lookup (record p2) "document_url" ->
  process_coi_webhook p1 s = process_coi_webhook p2 s.
Proof.
  intros Hid Hurl.
  unfold process_coi_webhook, dict_getitem.
  rewrite Hid, Hurl. reflexivity.
Qed.

End IngestionProofs.

(** C1 (as stated) fails: a record without ['id'], or without
    ['document_url'], makes the handler raise [KeyError] before its
    [try]. *)
Lemma process_coi_webhook_raises_KeyError :
  fst (process_coi_webhook payload_without_id (Sim.start (world_with [])))
    = raise (Exn KeyError "'id'")
  /\ fst (process_coi_webhook payload_without_url (Sim.start (world_with [])))
    = raise (Exn KeyError "'document_url'")
  /\ ~ structured_outcome
        (fst (process_coi_webhook payload_without_id
                (Sim.start (world_with [])))).
Proof.
  split; [reflexivity|]. split; [reflexivity|].
  intros [(status & Hs & _) | (message & Hm)]; discriminate.
Qed.

Lemma process_coi_webhook_structured_witness :
  structured_outcome
    (fst (process_coi_webhook payload_P1 (Sim.start (world_with [])))).
Proof.
  apply (process_coi_webhook_structured payload_P1 (Sim.start (world_with []))
           (PStr "P1") (PStr "cois/p1.pdf")); reflexivity.
Defined.

Lemma process_coi_webhook_reads_two_keys_witness :
  process_coi_webhook payload_P1 (Sim.start (world_with []))
  = process_coi_webhook payload_P1_update (Sim.start (world_with [])).
Proof.
  apply (process_coi_webhook_reads_two_keys payload_P1 payload_P1_update);
    reflexivity.
Defined.

(** The clock shows 2024-06-01: that very date is still active, the day
    before is rejected, and a text that is no date is an error. *)
Example resolve_status_boundary :
  map (fun v => fst (resolve_status v (Sim.start (world_with []))))
      [PStr "2024-06-01"; PStr "2024-05-31"; PStr "2099-01-01";
       PStr "06/01/2024"; PStr "2024-02-30"; PStr ""; PNone]
  = [ok "active"; ok "rejected"; ok "active";
     ok "error"; ok "error"; ok "error"; ok "error"].
Proof. reflexivity. Qed.

Section GatewayProofs.
Context {World : Type} `{Collaborators World}.

Lemma attempt_model_run (payload : pyval) (m : string) (w : World)
    (tr : list event) :
  attempt_model payload m (State w tr) =
  (outcome_of (fst (client_post (request_of payload m) w)),
   State (snd (client_post (request_of payload m) w))
         (tr ++ [EvPost (request_of payload m)])).
Proof.
  unfold attempt_model, bind, call_post. rewrite perform_run. reflexivity.
Qed.

Lemma try_models_cons (payload : pyval) (m : string) (rest : list string)
    (last_error : option string) (w : World) (tr : list event) :
  try_models payload (m :: rest) last_error (State w tr) =
  let a := client_post (request_of payload m) w in
  let s1 := State (snd a) (tr ++ [EvPost (request_of payload m)]) in
  match outcome_of (fst a) with
  | Found v => (ok v, s1)
  | NotFound => try_models payload rest last_error s1
  | Failed detail => try_models payload rest (Some detail) s1
  end.
Proof.
  cbn [try_models]. unfold bind at 1. rewrite attempt_model_run.
  destruct (outcome_of _); reflexivity.
Qed.

(** The loop returns from an answer exactly when the request came
    back, with a 2xx status, a body that is JSON, and the reply text
    inside it parsed. *)
Lemma outcome_found (a : res response) (v : pyval) :
  outcome_of a = Found v <->
  exists r envelope,
    a = ok r /\ is_success r = true
    /\ py_json_loads (text r) = ok envelope
    /\ parse_reply envelope = ok v.
Proof.
  unfold outcome_of. split.
  - destruct a as [e|r]; [discriminate|].
    destruct (status_code r =? 404)%Z; [discriminate|].
    destruct (is_success r) eqn:Es; [|discriminate]. cbn [negb].
    destruct (py_json_loads (text r)) as [e|envelope] eqn:Ej; [discriminate|].
    cbn [res_bind].
    destruct (parse_reply envelope) as [e|v'] eqn:E; [discriminate|].
    intros [= <-]. exists r, envelope. repeat split; reflexivity || assumption.
  - intros (r & envelope & -> & Hs & Hj & Hp).
    assert (H404 : (status_code r =? 404)%Z = false).
    { unfold is_success in Hs. apply andb_prop in Hs as [_ Hs].
      apply Z.leb_le in Hs. apply Z.eqb_neq. lia. }
    unfold ok at 1. cbv iota beta.
    rewrite H404, Hs, Hj. cbn [negb res_bind ok]. rewrite Hp. reflexivity.
Qed.

(** The inner [try] returns a value exactly when the text was found
    in the envelope and its cleaned form parsed, and then it returns
    that parsed value. *)
Lemma parse_reply_ok (envelope v : pyval) :
  parse_reply envelope = ok v <->
  exists reply,
    reply_text envelope = ok (PStr reply)
    /\ json_loads (cleaned reply) = inr v.
Proof.
  unfold parse_reply. split.
  - destruct (reply_text envelope) as [e|t]; cbn [res_bind].
    + destruct (caught_by _ e); discriminate.
    + destruct t as [| | | |reply| |]; try (cbn; discriminate).
      unfold clean_reply, method_replace, py_json_loads, ok.
      cbn [res_bind].
      destruct (json_loads _) as [e|v'] eqn:E.
      * destruct (caught_by _ e); discriminate.
      * intros [= <-]. exists reply. auto.
  - intros (reply & Ht & Hj). rewrite Ht. cbn [res_bind].
    unfold clean_reply, method_replace, ok. cbn [res_bind].
    unfold py_json_loads. fold (cleaned reply). rewrite Hj. reflexivity.
Qed.

Lemma posts_for_app (payload : pyval) (l1 l2 : list string) :
  posts_for payload (l1 ++ l2) = posts_for payload l1 ++ posts_for payload l2.
Proof. apply map_app. Qed.

Lemma try_models_skips_not_found (payload : pyval) (pre rest : list string)
    (last_error : option string) :
  forall (w w1 : World) (tr : list event),
  after_not_found payload pre w = Some w1 ->
  try_models payload (pre ++ rest) last_error (State w tr)
  = try_models payload rest last_error
      (State w1 (tr ++ posts_for payload pre)).
Proof.
  induction pre as [|m pre IH]; intros w w1 tr Hnf.
  - cbn in Hnf. injection Hnf as <-. cbn. rewrite app_nil_r. reflexivity.
  - cbn [after_not_found] in Hnf. cbn [app]. rewrite try_models_cons. cbn zeta.
    destruct (client_post (request_of payload m) w) as [[e|r] w'] eqn:E;
      [discriminate|].
    cbn [fst snd outcome_of].
    destruct (status_code r =? 404)%Z; [|discriminate].
    rewrite (IH _ _ _ Hnf). cbn [posts_for map].
    rewrite <- app_assoc. reflexivity.
Qed.

(** C3: when the candidates before the k-th answer 404 and the k-th
    answers with a 2xx status and a reply whose cleaned text parses,
    the gateway returns that parsed value, and the requests made are
    those to the first k candidates, in order: none to a later one. *)
Theorem gateway_first_success_wins
    (pre : list string) (mk : string) (post : list string)
    (file_bytes : bytes) (path : string)
    (w w1 w2 : World) (tr : list event)
    (r : response) (envelope : pyval) (reply : string) (v : pyval) :
  let payload :=
    payload_of (mime_type_of (str_lower path)) (b64encode file_bytes) in
  after_not_found payload pre w = Some w1 ->
  client_post (request_of payload mk) w1 = (ok r, w2) ->
  is_success r = true ->
  py_json_loads (text r) = ok envelope ->
  reply_text envelope = ok (PStr reply) ->
  json_loads (cleaned reply) = inr v ->
  extract_with_models (pre ++ mk :: post) file_bytes (PStr path) (State w tr)
  = (ok v, State w2 (tr ++ posts_for payload (pre ++ [mk]))).
Proof.
  intros payload Hpre Hpost Hs Hj Ht Hv.
  unfold extract_with_models. cbn [method_lower]. rewrite bindE_ok.
  fold payload.
  rewrite (try_models_skips_not_found _ _ _ _ _ _ _ Hpre).
  rewrite try_models_cons, Hpost. cbn zeta. cbn [fst snd].
  assert (Hfound : outcome_of (ok r) = Found v).
  { apply outcome_found. exists r, envelope. repeat split; auto.
    apply parse_reply_ok. exists reply. auto. }
  rewrite Hfound, posts_for_app, app_assoc. reflexivity.
Qed.

Lemma try_models_all_fail (payload : pyval) (models : list string) :
  forall (last_error : option string) (w : World) (tr : list event),
  forallb fails (fst (answers_of payload models w)) = true ->
  try_models payload models last_error (State w tr)
  = (raise (exhausted (last_error_after last_error
                         (fst (answers_of payload models w)))),
     State (snd (answers_of payload models w))
           (tr ++ posts_for payload models)).
Proof.
  induction models as [|m rest IH]; intros last_error w tr Hall.
  - cbn. rewrite app_nil_r. reflexivity.
  - rewrite try_models_cons. cbn zeta.
    cbn [answers_of] in *.
    destruct (client_post (request_of payload m) w) as [a w1].
    destruct (answers_of payload rest w1) as [l w2] eqn:El.
    cbn [fst snd forallb last_error_after] in *.
    apply andb_prop in Hall as [Ha Hl].
    unfold fails in Ha.
    assert (Hrest : forall le, try_models payload rest le
                        (State w1 (tr ++ [EvPost (request_of payload m)]))
              = (raise (exhausted (last_error_after le l)),
                 State w2 (tr ++ posts_for payload (m :: rest)))).
    { intros le. rewrite IH; rewrite El; cbn [fst snd]; [|exact Hl].
      cbn [posts_for map]. rewrite <- app_assoc. reflexivity. }
    destruct (outcome_of a); [discriminate | apply Hrest | apply Hrest].
Qed.

(** The ways an answer fails: the request raised, the status is 404,
    the status is not 2xx, the body is not JSON, or the inner [try]
    raised. *)
Lemma fails_kinds (a : res response) :
  fails a = true <->
  (exists e, a = raise e)
  \/ (exists r, a = ok r /\
       (status_code r = 404%Z
        \/ is_success r = false
        \/ (exists e, py_json_loads (text r) = raise e)
        \/ (exists envelope e, py_json_loads (text r) = ok envelope
                               /\ parse_reply envelope = raise e))).
Proof.
  unfold fails. split.
  - intros Hf.
    destruct a as [e|r]; [left; eauto|]. right. exists r. split; [reflexivity|].
    unfold outcome_of in Hf.
    destruct (status_code r =? 404)%Z eqn:E404; [left; apply Z.eqb_eq, E404|].
    destruct (is_success r); [|right; left; reflexivity].
    cbn [negb] in Hf.
    destruct (py_json_loads (text r)) as [e|envelope]; [right; right; left; eauto|].
    cbn [res_bind] in Hf.
    destruct (parse_reply envelope) as [e|v] eqn:Ep; [|discriminate].
    right; right; right. exists envelope, e. auto.
  - intros [(e & ->) | (r & -> & Hr)]; [reflexivity|].
    unfold outcome_of, ok.
    destruct (status_code r =? 404)%Z eqn:E404; [reflexivity|].
    destruct Hr as [H404 | [Hs | [(e & He) | (envelope & e & Hj & Hp)]]].
    + apply Z.eqb_neq in E404. contradiction.
    + rewrite Hs. reflexivity.
    + destruct (is_success r); [|reflexivity]. rewrite He. reflexivity.
    + destruct (is_success r); [|reflexivity]. rewrite Hj. cbn [negb res_bind ok].
      rewrite Hp. reflexivity.
Qed.

(** C4: when no candidate's answer lets the loop return (a 404, an
    exception of the request, a status that is not 2xx, a body or
    reply that does not parse), the gateway raises the exhaustion
    error built from the last stored detail, having sent exactly one
    request to each of the N candidates, in order. *)
Theorem gateway_exhaustion (models : list string)
    (file_bytes : bytes) (path : string) (w : World) (tr : list event) :
  let payload :=
    payload_of (mime_type_of (str_lower path)) (b64encode file_bytes) in
  let answers := answers_of payload models w in
  forallb fails (fst answers) = true ->
  extract_with_models models file_bytes (PStr path) (State w tr)
  = (raise (Exn ValueError
             ("All models failed. Last API response: "
              ++ str_option (last_error_after None (fst answers)))),
     State (snd answers) (tr ++ posts_for payload models))
  /\ List.length (posts_for payload models) = List.length models.
Proof.
  intros payload answers Hall. split.
  - unfold extract_with_models. cbn [method_lower]. rewrite bindE_ok.
    fold payload. apply try_models_all_fail. exact Hall.
  - apply length_map.
Qed.

End GatewayProofs.

Lemma gateway_first_success_wins_witness :
  extract_with_models target_models pdf_P1 (PStr "cois/p1.pdf")
    (Sim.start (world_with [not_found; replied (reply_with "null")]))
  = (ok (PDict (extracted_with PNone)),
     State (world_with [])
           (posts_for payload_P1_pdf
              ["gemini-2.5-flash-preview-09-2025"; "gemini-2.5-flash"])).
Proof.
  apply (gateway_first_success_wins
           ["gemini-2.5-flash-preview-09-2025"] "gemini-2.5-flash"
           ["gemini-1.5-flash-latest"; "gemini-1.5-flash"]
           pdf_P1 "cois/p1.pdf"
           (world_with [not_found; replied (reply_with "null")])
           (world_with [replied (reply_with "null")])
           (world_with []) []
           (Response 200 (Sim.envelope (reply_with "null")))
           (PDict [("candidates", PList [PDict [("content",
              PDict [("parts", PList [PDict [("text",
                PStr (reply_with "null"))]])])]])])
           (reply_with "null"));
    reflexivity.
Defined.

Lemma gateway_exhaustion_witness :
  extract_with_models target_models pdf_P1 (PStr "cois/p1.pdf")
    (Sim.start (world_with [not_found; timed_out; replied "no data";
                            server_error]))
  = (raise (Exn ValueError
             ("All models failed. Last API response: " ++ "internal error")),
     State (world_with []) (posts_for payload_P1_pdf target_models))
  /\ List.length (posts_for payload_P1_pdf target_models) = 4%nat.
Proof.
  exact (gateway_exhaustion target_models pdf_P1 "cois/p1.pdf"
           (world_with [not_found; timed_out; replied "no data"; server_error])
           [] eq_refl).
Defined.

(** A reply between blanks that are not ASCII, and one nested too deep:
    the first is cleaned like any other and returned by the first
    request; the second fails its candidate with the bare message of
    the [RecursionError], and the next candidate is asked. *)
Example gateway_blanks_and_depth :
  extract_with_models target_models pdf_P1 (PStr "cois/p1.pdf")
    (Sim.start (world_with [replied (no_break_space ++ "{}" ++ no_break_space)]))
  = (ok (PDict []),
     State (world_with [])
           (posts_for payload_P1_pdf ["gemini-2.5-flash-preview-09-2025"]))
  /\ fst (extract_with_models target_models pdf_P1 (PStr "cois/p1.pdf")
            (Sim.start (world_with [replied (brackets 2000)])))
     = raise (Exn ValueError
                ("All models failed. Last API response: "
                 ++ "connection refused"))
  /\ fst (extract_with_models ["gemini-2.5-flash"] pdf_P1 (PStr "cois/p1.pdf")
            (Sim.start (world_with [replied (brackets 2000)])))
     = raise (Exn ValueError
                ("All models failed. Last API response: "
                 ++ "maximum recursion depth exceeded while decoding "
                 ++ "a JSON array from a unicode string")).
Proof. repeat split; vm_compute; reflexivity. Qed.

Section ValidatorProofs.
Context {World : Type} `{Collaborators World}.

Lemma success_not_404 (r : response) :
  is_success r = true -> (status_code r =? 404)%Z = false.
Proof.
  unfold is_success. intros Hs. apply andb_prop in Hs as [_ Hs].
  apply Z.leb_le in Hs. apply Z.eqb_neq. lia.
Qed.

Lemma parse_reply_run (envelope : pyval) :
  parse_reply envelope =
  match reply_text envelope with
  | inl e =>
      if caught_by [KeyError; IndexError; JSONDecodeError] e
      then raise (Exn ValueError ("Invalid JSON structure: " ++ exn_str e))
      else raise e
  | inr (PStr reply) =>
      match json_loads (cleaned reply) with
      | inl e =>
          if caught_by [KeyError; IndexError; JSONDecodeError] e
          then raise (Exn ValueError ("Invalid JSON structure: " ++ exn_str e))
          else raise e
      | inr v => ok v
      end
  | inr t => raise (no_attribute t "replace")
  end.
Proof.
  unfold parse_reply.
  destruct (reply_text envelope) as [e|t]; cbn [res_bind]; [reflexivity|].
  destruct t; reflexivity.
Qed.

(** C5 (as amended): the inner [try] fails with the malformed-output
    error when a key is missing or a list is empty on the way to the
    reply text, and when [json.loads] refuses the cleaned text with a
    [JSONDecodeError]; any other exception of [json.loads] (the
    [RecursionError] of brackets nested too deep, the [ValueError] of
    an integer too long) leaves the inner [try] as it is.  A value is
    returned only when the cleaned text parsed, and then exactly the
    parsed value, of whatever kind; and every failure is the failure of
    that candidate in the loop, stored with the message of the
    exception that left the inner [try]. *)
Theorem parse_reply_cases (envelope : pyval) :
  (forall e, reply_text envelope = raise e ->
     exn_cls e = KeyError \/ exn_cls e = IndexError ->
     parse_reply envelope
     = raise (Exn ValueError ("Invalid JSON structure: " ++ exn_str e)))
  /\ (forall d, envelope = PDict d -> dict_lookup d "candidates" = None ->
     parse_reply envelope
     = raise (Exn ValueError "Invalid JSON structure: 'candidates'"))
  /\ (forall d, envelope = PDict d ->
     dict_lookup d "candidates" = Some (PList []) ->
     parse_reply envelope
     = raise (Exn ValueError "Invalid JSON structure: list index out of range"))
  /\ (forall reply msg, reply_text envelope = ok (PStr reply) ->
     json_loads (cleaned reply) = raise (Exn JSONDecodeError msg) ->
     parse_reply envelope
     = raise (Exn ValueError ("Invalid JSON structure: " ++ msg)))
  /\ (forall reply e, reply_text envelope = ok (PStr reply) ->
     json_loads (cleaned reply) = raise e ->
     exn_cls e = OtherException "RecursionError" \/ exn_cls e = ValueError ->
     parse_reply envelope = raise e)
  /\ (forall v, parse_reply envelope = ok v <->
     exists reply, reply_text envelope = ok (PStr reply)
                   /\ json_loads (cleaned reply) = inr v)
  /\ (forall r e, is_success r = true ->
     py_json_loads (text r) = ok envelope ->
     parse_reply envelope = raise e ->
     outcome_of (ok r) = Failed (exn_str e)).
Proof.
  repeat split.
  - intros e He Hcls. rewrite parse_reply_run. unfold raise in He. rewrite He.
    unfold caught_by. destruct Hcls as [-> | ->]; reflexivity.
  - intros d -> Hd. rewrite parse_reply_run.
    unfold reply_text, getitem_str, dict_getitem. rewrite Hd. reflexivity.
  - intros d -> Hd. rewrite parse_reply_run.
    unfold reply_text, getitem_str, dict_getitem. rewrite Hd. reflexivity.
  - intros reply msg Ht Hj. rewrite parse_reply_run. unfold ok in Ht.
    unfold raise in Hj. rewrite Ht, Hj. reflexivity.
  - intros reply e Ht Hj Hcls. rewrite parse_reply_run. unfold ok in Ht.
    unfold raise in Hj. rewrite Ht, Hj.
    unfold caught_by. destruct Hcls as [-> | ->]; reflexivity.
  - intros Hv. apply parse_reply_ok in Hv. exact Hv.
  - intros Hv. apply parse_reply_ok. exact Hv.
  - intros r e Hs Hj Hp. unfold outcome_of, ok.
    rewrite (success_not_404 r Hs), Hs, Hj. cbn [negb res_bind ok]. rewrite Hp. reflexivity.
Qed.

End ValidatorProofs.

(** C5 (as stated) fails: a reply whose cleaned text is a JSON array is
    returned as it is, by the inner [try] and by the gateway. *)
Lemma parse_reply_returns_non_object :
  parse_reply (World := Sim.sim_world) (envelope_of (PStr "```json [1, 2] ```"))
    = ok (PList [PInt 1; PInt 2])
  /\ fst (extract_data_with_gemini_raw pdf_P1 (PStr "cois/p1.pdf")
            (Sim.start (world_with [replied "```json [1, 2] ```"])))
    = ok (PList [PInt 1; PInt 2]).
Proof. split; reflexivity. Qed.

Lemma parse_reply_cases_witness :
  parse_reply (World := Sim.sim_world) (PDict [])
    = raise (Exn ValueError "Invalid JSON structure: 'candidates'")
  /\ parse_reply (World := Sim.sim_world) (envelope_of (PStr (brackets 2000)))
     = raise (Exn (OtherException "RecursionError")
                  ("maximum recursion depth exceeded while decoding "
                   ++ "a JSON array from a unicode string"))
  /\ outcome_of (World := Sim.sim_world)
       (ok (Response 200 (Sim.envelope (brackets 2000))))
     = Failed ("maximum recursion depth exceeded while decoding "
               ++ "a JSON array from a unicode string").
Proof.
  destruct (@parse_reply_cases _ Sim.sim_collaborators (PDict []))
    as (_ & Hmissing & _).
  destruct (@parse_reply_cases _ Sim.sim_collaborators
              (envelope_of (PStr (brackets 2000))))
    as (_ & _ & _ & _ & Hdeep & _ & Hloop).
  assert (Hparse : parse_reply (World := Sim.sim_world)
                     (envelope_of (PStr (brackets 2000)))
                   = raise (Json.recursion_error "[")).
  { apply (Hdeep (brackets 2000)); [reflexivity | vm_compute; reflexivity |].
    left. reflexivity. }
  split; [exact (Hmissing [] eq_refl eq_refl)|].
  split; [exact Hparse|].
  apply (Hloop (Response 200 (Sim.envelope (brackets 2000)))
               (Json.recursion_error "[")).
  - reflexivity.
  - vm_compute. reflexivity.
  - exact Hparse.
Defined.

(** An envelope of the wrong type fails with the [TypeError] of the
    subscript, which the three classes of the inner [except] do not
    cover; the loop stores it all the same. *)
Example parse_reply_wrong_type :
  parse_reply (World := Sim.sim_world) (PList [])
    = raise (Exn TypeError "list indices must be integers or slices, not str")
  /\ parse_reply (World := Sim.sim_world) (envelope_of (PInt 7))
    = raise (Exn AttributeError "'int' object has no attribute 'replace'")
  /\ outcome_of (World := Sim.sim_world) (ok (Response 200 "[]"))
    = Failed "list indices must be integers or slices, not str".
Proof. repeat split; reflexivity. Qed.

Section OrchestratorProofs.
Context {World : Type} `{Collaborators World}.

Lemma quiet_refl (s : state World) : quiet s s.
Proof. exists []. rewrite app_nil_r. auto. Qed.

Lemma quiet_trans (s s1 s2 : state World) :
  quiet s s1 -> quiet s1 s2 -> quiet s s2.
Proof.
  intros (e1 & H1 & Q1) (e2 & H2 & Q2). exists (e1 ++ e2). split.
  - rewrite H2, H1, app_assoc. reflexivity.
  - rewrite forallb_app, Q1, Q2. reflexivity.
Qed.

Lemma quiet_perform {A} (ev : event) (call : World -> A * World)
    (s s1 : state World) (a : A) :
  is_mark_error ev = false ->
  perform ev call s = (a, s1) -> quiet s s1.
Proof.
  intros Hev Hp. rewrite perform_run in Hp. injection Hp as _ <-.
  exists [ev]. cbn. rewrite Hev. auto.
Qed.

Lemma quiet_download (file_path : pyval) (s s1 : state World) (r : res bytes) :
  download_file_from_supabase file_path s = (r, s1) -> quiet s s1.
Proof.
  unfold download_file_from_supabase, bind, bindE, bind, lift, ret.
  destruct (method_replace file_path "cois/" "") as [e|clean_path].
  - intros [= _ <-]. apply quiet_refl.
  - destruct (call_download "cois" clean_path s) as [r0 s0] eqn:E.
    intros [= _ <-]. eapply quiet_perform; [|exact E]. reflexivity.
Qed.

Lemma quiet_try_models (payload : pyval) (models : list string) :
  forall (last_error : option string) (s s1 : state World) (r : res pyval),
  try_models payload models last_error s = (r, s1) -> quiet s s1.
Proof.
  induction models as [|m rest IH]; intros last_error s s1 r.
  - cbn. intros [= _ <-]. apply quiet_refl.
  - cbn [try_models]. unfold bind at 1.
    destruct (attempt_model payload m s) as [a s0] eqn:E.
    assert (Q0 : quiet s s0).
    { unfold attempt_model, bind, call_post in E.
      destruct (perform _ _ s) as [r0 s'] eqn:Ep.
      unfold ret in E. injection E as _ <-.
      eapply quiet_perform; [|exact Ep]. reflexivity. }
    destruct a.
    + unfold ret. intros [= _ <-]. exact Q0.
    + intros Hr. eapply quiet_trans; [exact Q0 | eapply IH; exact Hr].
    + intros Hr. eapply quiet_trans; [exact Q0 | eapply IH; exact Hr].
Qed.

Lemma quiet_extract (file_bytes : bytes) (file_path : pyval)
    (s s1 : state World) (r : res pyval) :
  extract_data_with_gemini_raw file_bytes file_path s = (r, s1) -> quiet s s1.
Proof.
  unfold extract_data_with_gemini_raw, extract_with_models.
  destruct (method_lower file_path) as [e|lower_path].
  - rewrite bindE_raise. intros [= _ <-]. apply quiet_refl.
  - rewrite bindE_ok. apply quiet_try_models.
Qed.

Lemma quiet_resolve_status (v : pyval) (s s1 : state World) (r : res string) :
  resolve_status v s = (r, s1) -> quiet s s1.
Proof.
  unfold resolve_status.
  destruct (truthy v); [|unfold ret; intros [= _ <-]; apply quiet_refl].
  destruct (strptime_Ymd v) as [e|d].
  - destruct (caught_by [ValueError] e); unfold ret; intros [= _ <-];
      apply quiet_refl.
  - unfold bind, call_now. destruct (perform EvNow datetime_now s) as [t s0] eqn:E.
    unfold ret. intros [= _ <-]. eapply quiet_perform; [|exact E]. reflexivity.
Qed.

Lemma quiet_process_body (policy_id document_url : pyval)
    (s s1 : state World) (r : res pyval) :
  process_body policy_id document_url s = (r, s1) -> quiet s s1.
Proof.
  unfold process_body.
  destruct (download_file_from_supabase document_url s) as [[e|file_bytes] s2] eqn:E1;
    rewrite (bindE_run _ _ _ _ _ E1); apply quiet_download in E1;
    [intros [= _ <-]; exact E1|].
  destruct (extract_data_with_gemini_raw file_bytes document_url s2)
    as [[e|extracted] s3] eqn:E2;
    rewrite (bindE_run _ _ _ _ _ E2); apply quiet_extract in E2;
    [intros [= _ <-]; eapply quiet_trans; eassumption|].
  destruct (as_dict extracted) as [e|d];
    [rewrite bindE_raise; intros [= _ <-]; eapply quiet_trans; eassumption
    | rewrite bindE_ok].
  destruct (resolve_status (dict_get d "policy_expiration_date") s3)
    as [[e|status] s4] eqn:E4;
    rewrite (bindE_run _ _ _ _ _ E4); apply quiet_resolve_status in E4;
    [intros [= _ <-]; repeat (eapply quiet_trans; [eassumption|]); apply quiet_refl|].
  destruct (call_update "policies"
              (update_data_of d (dict_get d "policy_expiration_date") status)
              "id" policy_id s4) as [[e|u] s5] eqn:E5;
    rewrite (bindE_run _ _ _ _ _ E5);
    (assert (Q5 : quiet s4 s5)
       by (eapply quiet_perform; [|exact E5]; reflexivity));
    unfold ret; intros [= _ <-];
    repeat (eapply quiet_trans; [eassumption|]); apply quiet_refl.
Qed.

(** The two ways the handler ends once both keys are read. *)
Lemma handler_on_raise (payload : WebhookPayload)
    (policy_id document_url : pyval) (e : exn) (s s1 : state World) :
  dict_lookup (record payload) "id" = Some policy_id ->
  dict_lookup (record payload) "document_url" = Some document_url ->
  process_body policy_id document_url s = (raise e, s1) ->
  process_coi_webhook payload s
  = (ok (error_of (exn_str e)),
     State (snd (table_update "policies" mark_error "id" policy_id (world s1)))
           (trace s1 ++ [EvUpdate "policies" mark_error "id" policy_id])).
Proof.
  intros Hid Hurl Hbody.
  unfold process_coi_webhook, dict_getitem. rewrite Hid, Hurl.
  rewrite !bindE_ok. unfold bind at 1. rewrite Hbody.
  unfold raise, on_failure, bind, call_update. rewrite perform_run.
  reflexivity.
Qed.

Lemma handler_on_return (payload : WebhookPayload)
    (policy_id document_url answer : pyval) (s s1 : state World) :
  dict_lookup (record payload) "id" = Some policy_id ->
  dict_lookup (record payload) "document_url" = Some document_url ->
  process_body policy_id document_url s = (ok answer, s1) ->
  process_coi_webhook payload s = (ok answer, s1).
Proof.
  intros Hid Hurl Hbody.
  unfold process_coi_webhook, dict_getitem. rewrite Hid, Hurl.
  rewrite !bindE_ok. unfold bind at 1. rewrite Hbody. reflexivity.
Qed.

(** C7 (as amended): both keys are read and the body of the [try]
    raises.  Then the handler makes one more call, the update of that
    record with [{processing_status: error}]; whatever that call
    answers, the handler returns the object
    [{status: error, message: m}], [m] being the message of the
    exception the body raised; and the body itself made no such marking
    update. *)
Theorem process_coi_webhook_on_failure (payload : WebhookPayload)
    (policy_id document_url : pyval) (e : exn) (s s1 : state World) :
  dict_lookup (record payload) "id" = Some policy_id ->
  dict_lookup (record payload) "document_url" = Some document_url ->
  process_body policy_id document_url s = (raise e, s1) ->
  let mark := [("processing_status", PStr "error")] in
  let second := table_update "policies" mark "id" policy_id (world s1) in
  process_coi_webhook payload s
  = (ok (PDict [("status", PStr "error"); ("message", PStr (exn_str e))]),
     State (snd second)
           (trace s1 ++ [EvUpdate "policies" mark "id" policy_id]))
  /\ exists evs,
       trace s1 = trace s ++ evs
       /\ List.length
            (List.filter is_mark_error
               (evs ++ [EvUpdate "policies" mark "id" policy_id]))
          = 1%nat.
Proof.
  intros Hid Hurl Hbody mark second. split.
  - rewrite (handler_on_raise _ _ _ _ _ _ Hid Hurl Hbody). reflexivity.
  - destruct (quiet_process_body _ _ _ _ _ Hbody) as (evs & Htr & Hq).
    exists evs. split; [exact Htr|].
    rewrite filter_app, length_app. cbn.
    assert (Hnone : List.filter is_mark_error evs = []).
    { clear Htr. induction evs as [|ev evs IH]; [reflexivity|].
      cbn in Hq. apply andb_prop in Hq as [Hev Hq].
      cbn. destruct (is_mark_error ev); [discriminate|]. apply IH, Hq. }
    rewrite Hnone. reflexivity.
Qed.

Lemma download_run (path : string) (s : state World) :
  let clean_path := str_replace path "cois/" "" in
  let answer := storage_download "cois" clean_path (world s) in
  download_file_from_supabase (PStr path) s
  = (match fst answer with
     | inr data => ok data
     | inl _ => raise (Exn HTTPException "500: Storage Download Failed")
     end,
     State (snd answer) (trace s ++ [EvDownload "cois" clean_path])).
Proof.
  unfold download_file_from_supabase, bind, bindE, bind, lift, ret,
    call_download.
  cbn [method_replace ok]. rewrite perform_run.
  destruct (fst _); reflexivity.
Qed.

(** The three failures the handler meets: the download, the
    extraction, and the first update. *)
Lemma process_body_storage_failure (policy_id : pyval) (path : string)
    (e : exn) (w1 : World) (s : state World) :
  storage_download "cois" (str_replace path "cois/" "") (world s) = (raise e, w1) ->
  process_body policy_id (PStr path) s
  = (raise (Exn HTTPException "500: Storage Download Failed"),
     State w1 (trace s ++ [EvDownload "cois" (str_replace path "cois/" "")])).
Proof.
  intros Hd. unfold process_body.
  rewrite (bindE_run _ _ _ _ _ (download_run path s)), Hd. reflexivity.
Qed.

Lemma process_body_extraction_failure (policy_id document_url : pyval)
    (file_bytes : bytes) (e : exn) (s s1 s2 : state World) :
  download_file_from_supabase document_url s = (ok file_bytes, s1) ->
  extract_data_with_gemini_raw file_bytes document_url s1 = (raise e, s2) ->
  process_body policy_id document_url s = (raise e, s2).
Proof.
  intros Hd He. unfold process_body.
  rewrite (bindE_run_ok _ _ _ _ _ Hd).
  rewrite (bindE_run_raise _ _ _ _ _ He). reflexivity.
Qed.

Lemma process_body_update_failure (policy_id document_url : pyval)
    (file_bytes : bytes) (d : pydict) (status : string) (e : exn)
    (w4 : World) (s s1 s2 s3 : state World) :
  download_file_from_supabase document_url s = (ok file_bytes, s1) ->
  extract_data_with_gemini_raw file_bytes document_url s1 = (ok (PDict d), s2) ->
  resolve_status (dict_get d "policy_expiration_date") s2 = (ok status, s3) ->
  table_update "policies"
    (update_data_of d (dict_get d "policy_expiration_date") status)
    "id" policy_id (world s3) = (raise e, w4) ->
  fst (process_body policy_id document_url s) = raise e.
Proof.
  intros Hd He Hs Hu. unfold process_body.
  rewrite (bindE_run_ok _ _ _ _ _ Hd).
  rewrite (bindE_run_ok _ _ _ _ _ He).
  cbn [as_dict]. rewrite bindE_ok.
  rewrite (bindE_run_ok _ _ _ _ _ Hs).
  unfold bindE, bind, call_update. rewrite perform_run, Hu. reflexivity.
Qed.

(** C6 (as amended): download and extraction succeed.  When the
    extracted expiration date is absent, null, otherwise false, or a
    text that [strptime] refuses, the first update writes the status
    ["error"] beside the other extracted fields, and once it has
    succeeded the handler answers
    [{status: success, policy_status: error}].  When the date is a true
    value that is not a text (a number, a list, an object), nothing
    extracted is written: the only update marks the record, and the
    handler answers [{status: error, message: m}] with the message of
    the [TypeError] of [strptime]. *)
Theorem process_coi_webhook_unusable_date (payload : WebhookPayload)
    (policy_id document_url : pyval) (file_bytes : bytes) (d : pydict)
    (s s1 s2 : state World) :
  dict_lookup (record payload) "id" = Some policy_id ->
  dict_lookup (record payload) "document_url" = Some document_url ->
  download_file_from_supabase document_url s = (ok file_bytes, s1) ->
  extract_data_with_gemini_raw file_bytes document_url s1 = (ok (PDict d), s2) ->
  let exp_date_str := dict_get d "policy_expiration_date" in
  let update_data :=
    [ ("carrier_name", dict_get d "insurer_name");
      ("policy_number", PStr "PENDING");
      ("expiration_date", if truthy exp_date_str then exp_date_str else PNone);
      ("limit_amount", dict_get d "general_liability_limit");
      ("ocr_confidence_score", dict_get d "confidence_score");
      ("ocr_data", PDict d);
      ("processing_status", PStr "error") ] in
  let mark := [("processing_status", PStr "error")] in
  ((truthy exp_date_str = false
    \/ exists str e, exp_date_str = PStr str
                     /\ strptime_Ymd (PStr str) = raise e) ->
   forall w3,
   table_update "policies" update_data "id" policy_id (world s2) = (ok tt, w3) ->
   process_coi_webhook payload s
   = (ok (PDict [("status", PStr "success"); ("policy_status", PStr "error")]),
      State w3 (trace s2 ++ [EvUpdate "policies" update_data "id" policy_id])))
  /\ (truthy exp_date_str = true ->
      (forall str, exp_date_str <> PStr str) ->
      process_coi_webhook payload s
      = (ok (PDict [("status", PStr "error");
                    ("message",
                     PStr ("strptime() argument 1 must be str, not "
                           ++ type_name exp_date_str))]),
         State (snd (table_update "policies" mark "id" policy_id (world s2)))
               (trace s2 ++ [EvUpdate "policies" mark "id" policy_id]))).
Proof.
  intros Hid Hurl Hd He exp_date_str update_data mark. split.
  - intros Hexp w3 Hu.
    assert (Hs : resolve_status exp_date_str s2 = (ok "error", s2)).
    { unfold resolve_status. destruct Hexp as [Hf | (str & e & Hstr & Hp)].
      - rewrite Hf. reflexivity.
      - rewrite Hstr. destruct (truthy (PStr str)); [|reflexivity].
        unfold raise in Hp. rewrite Hp. unfold caught_by.
        rewrite (strptime_str_error _ _ Hp). reflexivity. }
    apply (handler_on_return _ _ _ _ _ _ Hid Hurl).
    unfold process_body.
    rewrite (bindE_run_ok _ _ _ _ _ Hd).
    rewrite (bindE_run_ok _ _ _ _ _ He).
    cbn [as_dict]. rewrite bindE_ok.
    fold exp_date_str. rewrite (bindE_run_ok _ _ _ _ _ Hs).
    unfold bindE, bind, call_update. rewrite perform_run.
    change (update_data_of d exp_date_str "error") with update_data.
    rewrite Hu. reflexivity.
  - intros Ht Hnot.
    assert (Hs : resolve_status exp_date_str s2
                 = (raise (Exn TypeError
                             ("strptime() argument 1 must be str, not "
                              ++ type_name exp_date_str)), s2)).
    { unfold resolve_status. rewrite Ht.
      destruct exp_date_str; try reflexivity; try discriminate.
      exfalso. eapply Hnot. reflexivity. }
    assert (Hbody : process_body policy_id document_url s
                    = (raise (Exn TypeError
                                ("strptime() argument 1 must be str, not "
                                 ++ type_name exp_date_str)), s2)).
    { unfold process_body.
      rewrite (bindE_run_ok _ _ _ _ _ Hd), (bindE_run_ok _ _ _ _ _ He).
      cbn [as_dict]. rewrite bindE_ok. fold exp_date_str.
      rewrite (bindE_run_raise _ _ _ _ _ Hs). reflexivity. }
    rewrite (handler_on_raise _ _ _ _ _ _ Hid Hurl Hbody). reflexivity.
Qed.

End OrchestratorProofs.

Lemma process_coi_webhook_unusable_date_witness :
  let run := process_coi_webhook payload_P1
               (Sim.start (world_with [replied (reply_with (Json.quoted "soon"))])) in
  fst run = ok (PDict [("status", PStr "success");
                       ("policy_status", PStr "error")])
  /\ Sim.policies (world (snd run))
     = [ PolicyRow
           [ ("id", PStr "P1");
             ("processing_status", PStr "error");
             ("carrier_name", PStr "Acme");
             ("policy_number", PStr "PENDING");
             ("expiration_date", PStr "soon");
             ("limit_amount", PInt 1000000);
             ("ocr_confidence_score", PFloat 0x1.e666666666666p-1);
             ("ocr_data", PDict (extracted_with (PStr "soon"))) ]
           None ].
Proof.
  intros run. subst run.
  destruct (@process_coi_webhook_unusable_date _ Sim.sim_collaborators payload_P1
             (PStr "P1") (PStr "cois/p1.pdf") pdf_P1
             (extracted_with (PStr "soon"))
             (Sim.start (world_with [replied (reply_with (Json.quoted "soon"))]))
             (State (world_with [replied (reply_with (Json.quoted "soon"))])
                    [EvDownload "cois" "p1.pdf"])
             (State (world_with [])
                    (EvDownload "cois" "p1.pdf"
                     :: posts_for payload_P1_pdf
                          ["gemini-2.5-flash-preview-09-2025"]))
             eq_refl eq_refl eq_refl eq_refl) as [Hrun _].
  rewrite (Hrun (or_intror (ex_intro _ "soon" (ex_intro _ _ (conj eq_refl eq_refl))))
                (snd (Sim.update "policies"
                        (update_data_of (extracted_with (PStr "soon"))
                                        (PStr "soon") "error")
                        "id" (PStr "P1") (world_with [])))
                eq_refl).
  split; reflexivity.
Defined.

(** C6 (as stated) fails: with download and extraction done and the
    expiration date extracted as a number, which is no more a date than
    a text [strptime] refuses, the handler answers the error outcome,
    and the record holds the error mark and none of the extracted
    fields. *)
Lemma process_coi_webhook_number_date_fails :
  let s := Sim.start (world_with [replied (reply_with "20990101")]) in
  fst (extract_data_with_gemini_raw pdf_P1 (PStr "cois/p1.pdf")
         (snd (download_file_from_supabase (PStr "cois/p1.pdf") s)))
    = ok (PDict (extracted_with (PInt 20990101)))
  /\ fst (process_coi_webhook payload_P1 s)
     = ok (PDict [("status", PStr "error");
                  ("message",
                   PStr "strptime() argument 1 must be str, not int")])
  /\ Sim.policies (world (snd (process_coi_webhook payload_P1 s)))
     = [PolicyRow [("id", PStr "P1"); ("processing_status", PStr "error")] None].
Proof. repeat split; reflexivity. Qed.

(** The third scenario: the model answers [null] for the date. *)
Example scenario_null_expiration :
  let run := process_coi_webhook payload_P1
               (Sim.start (world_with [replied (reply_with "null")])) in
  fst run = ok (success_of "error")
  /\ Sim.policies (world (snd run))
     = [ PolicyRow
           [ ("id", PStr "P1");
             ("processing_status", PStr "error");
             ("carrier_name", PStr "Acme");
             ("policy_number", PStr "PENDING");
             ("expiration_date", PNone);
             ("limit_amount", PInt 1000000);
             ("ocr_confidence_score", PFloat 0x1.e666666666666p-1);
             ("ocr_data", PDict (extracted_with PNone)) ]
           None ].
Proof. split; reflexivity. Qed.

Lemma process_coi_webhook_on_failure_witness :
  let s := Sim.start (world_with [not_found; not_found; not_found; not_found]) in
  fst (process_coi_webhook payload_P1 s)
    = ok (PDict [("status", PStr "error");
                 ("message",
                  PStr "All models failed. Last API response: None")])
  /\ Sim.policies (world (snd (process_coi_webhook payload_P1 s)))
     = [PolicyRow [("id", PStr "P1"); ("processing_status", PStr "error")] None]
  /\ List.length (List.filter is_mark_error
                    (trace (snd (process_coi_webhook payload_P1 s)))) = 1%nat.
Proof.
  intros s. subst s.
  destruct (@process_coi_webhook_on_failure _ Sim.sim_collaborators payload_P1
              (PStr "P1") (PStr "cois/p1.pdf")
              (exhausted None)
              (Sim.start (world_with [not_found; not_found; not_found; not_found]))
              (State (world_with [])
                     (EvDownload "cois" "p1.pdf"
                      :: posts_for payload_P1_pdf target_models))
              eq_refl eq_refl eq_refl) as [Hrun _].
  rewrite Hrun. repeat split; reflexivity.
Defined.

(** C7 (as stated) fails: a record with an ['id'] and no
    ['document_url'] raises [KeyError] after the identifier is read and
    before the [try]; no update is attempted, the record stays as it
    was, and the exception leaves the handler. *)
Lemma process_coi_webhook_unmarked_KeyError :
  dict_lookup (record payload_without_url) "id" = Some (PStr "P1")
  /\ process_coi_webhook payload_without_url (Sim.start (world_with []))
     = (raise (Exn KeyError "'document_url'"), State (world_with []) []).
Proof. split; reflexivity. Qed.

(** ** Dates *)

Lemma digit_cases (k : Z) :
  (0 <= k <= 9)%Z ->
  k = 0%Z \/ k = 1%Z \/ k = 2%Z \/ k = 3%Z \/ k = 4%Z \/ k = 5%Z
  \/ k = 6%Z \/ k = 7%Z \/ k = 8%Z \/ k = 9%Z.
Proof. lia. Qed.

Lemma digit_char_digit (k : Z) :
  (0 <= k <= 9)%Z ->
  is_digit (digit_char k) = true /\ digit_val (digit_char k) = k.
Proof.
  intros Hk.
  destruct (digit_cases k Hk) as [-> | [-> | [-> | [-> | [-> | [-> | [-> | [-> | [-> | ->]]]]]]]]];
    split; reflexivity.
Qed.

Lemma date_valid_bounds (d : date) :
  date_valid d = true ->
  (1 <= year d <= 9999 /\ 1 <= month d <= 12
   /\ 1 <= day d <= days_in_month (year d) (month d))%Z.
Proof.
  unfold date_valid, MINYEAR, MAXYEAR. intros Hv.
  repeat (apply andb_prop in Hv as [Hv ?]).
  repeat match goal with
         | H : (_ <=? _)%Z = true |- _ => apply Z.leb_le in H
         end.
  lia.
Qed.

Lemma days_in_month_le_31 (y m : Z) : (28 <= days_in_month y m <= 31)%Z.
Proof.
  unfold days_in_month.
  destruct (m =? 2)%Z; [destruct (is_leap y); lia|].
  destruct (_ || _); lia.
Qed.

(** What [isoformat] writes, a date column reads back. *)
Lemma date_fromisoformat_isoformat (d : date) :
  date_valid d = true -> date_fromisoformat (isoformat d) = Some d.
Proof.
  intros Hv. destruct (date_valid_bounds d Hv) as (Hy & Hm & Hd).
  pose proof (days_in_month_le_31 (year d) (month d)) as H31.
  destruct d as [y m dd]. cbn [year month day] in *.
  assert (Hy1 : (0 <= y / 1000 mod 10 <= 9)%Z) by (pose proof (Z.mod_pos_bound (y / 1000) 10); lia).
  assert (Hy2 : (0 <= y / 100 mod 10 <= 9)%Z) by (pose proof (Z.mod_pos_bound (y / 100) 10); lia).
  assert (Hy3 : (0 <= y / 10 mod 10 <= 9)%Z) by (pose proof (Z.mod_pos_bound (y / 10) 10); lia).
  assert (Hy4 : (0 <= y mod 10 <= 9)%Z) by (pose proof (Z.mod_pos_bound (y) 10); lia).
  assert (Hm1 : (0 <= m / 10 mod 10 <= 9)%Z) by (pose proof (Z.mod_pos_bound (m / 10) 10); lia).
  assert (Hm2 : (0 <= m mod 10 <= 9)%Z) by (pose proof (Z.mod_pos_bound (m) 10); lia).
  assert (Hd1 : (0 <= dd / 10 mod 10 <= 9)%Z) by (pose proof (Z.mod_pos_bound (dd / 10) 10); lia).
  assert (Hd2 : (0 <= dd mod 10 <= 9)%Z) by (pose proof (Z.mod_pos_bound (dd) 10); lia).
  unfold date_fromisoformat, isoformat, pad4, pad2.
  cbn [year month day append iso_fields].
  destruct (digit_char_digit _ Hy1) as [-> ->].
  destruct (digit_char_digit _ Hy2) as [-> ->].
  destruct (digit_char_digit _ Hy3) as [-> ->].
  destruct (digit_char_digit _ Hy4) as [-> ->].
  destruct (digit_char_digit _ Hm1) as [-> ->].
  destruct (digit_char_digit _ Hm2) as [-> ->].
  destruct (digit_char_digit _ Hd1) as [-> ->].
  destruct (digit_char_digit _ Hd2) as [-> ->].
  cbn [andb].
  assert (Ey : (y / 1000 mod 10 * 1000 + y / 100 mod 10 * 100
                + y / 10 mod 10 * 10 + y mod 10 = y)%Z).
  { Z.div_mod_to_equations. lia. }
  assert (Em : (m / 10 mod 10 * 10 + m mod 10 = m)%Z).
  { Z.div_mod_to_equations. lia. }
  assert (Ed : (dd / 10 mod 10 * 10 + dd mod 10 = dd)%Z).
  { Z.div_mod_to_equations. lia. }
  rewrite Ey, Em, Ed, Hv. reflexivity.
Qed.

Lemma date_fromisoformat_valid (s : string) (d : date) :
  date_fromisoformat s = Some d -> date_valid d = true.
Proof.
  unfold date_fromisoformat.
  destruct (iso_fields s) as [d0|]; [|discriminate].
  destruct (date_valid d0) eqn:Hv; [|discriminate].
  intros [= <-]. exact Hv.
Qed.

Lemma forallb_range (P : Z -> bool) (k : nat) :
  forallb P (map Z.of_nat (seq 0 k)) = true ->
  forall n, (0 <= n < Z.of_nat k)%Z -> P n = true.
Proof.
  intros Hall n Hn. rewrite forallb_forall in Hall. apply Hall.
  apply in_map_iff. exists (Z.to_nat n). split; [lia|].
  apply in_seq. lia.
Qed.

Lemma doy_ok_all (leap : bool) (n : Z) :
  (0 <= n <= 364)%Z -> doy_ok leap n = true.
Proof.
  intros Hn. apply (forallb_range (doy_ok leap) 365); [|lia].
  destruct leap; vm_compute; reflexivity.
Qed.

Lemma month_cases (m : Z) :
  (1 <= m <= 12)%Z ->
  m = 1%Z \/ m = 2%Z \/ m = 3%Z \/ m = 4%Z \/ m = 5%Z \/ m = 6%Z
  \/ m = 7%Z \/ m = 8%Z \/ m = 9%Z \/ m = 10%Z \/ m = 11%Z \/ m = 12%Z.
Proof. lia. Qed.

Ltac each_month m Hm :=
  destruct (month_cases m Hm)
    as [-> | [-> | [-> | [-> | [-> | [-> | [-> | [-> | [-> | [-> | [-> | ->]]]]]]]]]]].

Lemma days_in_month_table (y m : Z) :
  (1 <= m <= 12)%Z ->
  days_in_month y m = (DAYS_IN_MONTH m + b2z ((m =? 2)%Z && is_leap y))%Z.
Proof.
  intros Hm. unfold days_in_month.
  each_month m Hm; cbn; try reflexivity. destruct (is_leap y); reflexivity.
Qed.

(** A year number split by the 400-, 100- and 4-year cycles. *)
Lemma days_before_year_cycles (a b c e : Z) :
  (0 <= a)%Z -> (0 <= b <= 3)%Z -> (0 <= c <= 24)%Z -> (0 <= e <= 3)%Z ->
  days_before_year (400 * a + 100 * b + 4 * c + e + 1)
  = (146097 * a + 36524 * b + 1461 * c + 365 * e)%Z.
Proof.
  intros Ha Hb Hc He. unfold days_before_year.
  replace (400 * a + 100 * b + 4 * c + e + 1 - 1)%Z
    with (400 * a + 100 * b + 4 * c + e)%Z by lia.
  assert (E4 : ((400 * a + 100 * b + 4 * c + e) / 4 = 100 * a + 25 * b + c)%Z).
  { symmetry. apply (Z.div_unique _ 4 _ e); lia. }
  assert (E100 : ((400 * a + 100 * b + 4 * c + e) / 100 = 4 * a + b)%Z).
  { symmetry. apply (Z.div_unique _ 100 _ (4 * c + e)); lia. }
  assert (E400 : ((400 * a + 100 * b + 4 * c + e) / 400 = a)%Z).
  { symmetry. apply (Z.div_unique _ 400 _ (100 * b + 4 * c + e)); lia. }
  rewrite E4, E100, E400. lia.
Qed.

Lemma is_leap_cycles (a b c e : Z) :
  (0 <= a)%Z -> (0 <= b <= 3)%Z -> (0 <= c <= 24)%Z -> (0 <= e <= 3)%Z ->
  is_leap (400 * a + 100 * b + 4 * c + e + 1)
  = (e =? 3)%Z && (negb (c =? 24)%Z || (b =? 3)%Z).
Proof.
  intros Ha Hb Hc He. unfold is_leap.
  assert (E4 : ((400 * a + 100 * b + 4 * c + e + 1) mod 4 = (e + 1) mod 4)%Z).
  { replace (400 * a + 100 * b + 4 * c + e + 1)%Z
      with ((e + 1) + (100 * a + 25 * b + c) * 4)%Z by lia.
    apply Z.mod_add. lia. }
  assert (E100 : ((400 * a + 100 * b + 4 * c + e + 1) mod 100
                  = (4 * c + e + 1) mod 100)%Z).
  { replace (400 * a + 100 * b + 4 * c + e + 1)%Z
      with ((4 * c + e + 1) + (4 * a + b) * 100)%Z by lia.
    apply Z.mod_add. lia. }
  assert (E400 : ((400 * a + 100 * b + 4 * c + e + 1) mod 400
                  = (100 * b + 4 * c + e + 1) mod 400)%Z).
  { replace (400 * a + 100 * b + 4 * c + e + 1)%Z
      with ((100 * b + 4 * c + e + 1) + a * 400)%Z by lia.
    apply Z.mod_add. lia. }
  rewrite E4, E100, E400.
  destruct (Z.eqb_spec e 3) as [-> | He3].
  - replace ((3 + 1) mod 4)%Z with 0%Z by reflexivity. cbn [Z.eqb andb].
    destruct (Z.eqb_spec c 24) as [-> | Hc24].
    + replace ((4 * 24 + 3 + 1) mod 100)%Z with 0%Z by reflexivity.
      cbn [Z.eqb negb orb].
      destruct (Z.eqb_spec b 3) as [-> | Hb3]; [reflexivity|].
      apply Z.eqb_neq.
      rewrite Z.mod_small by lia. lia.
    + cbn [negb orb].
      assert (Hne : ((4 * c + 3 + 1) mod 100 <> 0)%Z).
      { rewrite Z.mod_small by lia. lia. }
      apply Z.eqb_neq in Hne. rewrite Hne. reflexivity.
  - assert (Hne : ((e + 1) mod 4 <> 0)%Z).
    { rewrite Z.mod_small by lia. lia. }
    apply Z.eqb_neq in Hne. rewrite Hne. reflexivity.
Qed.

Lemma december_31st (a b c : Z) :
  (0 <= a)%Z -> (0 <= b <= 3)%Z -> (0 <= c <= 24)%Z ->
  (negb (c =? 24)%Z || (b =? 3)%Z) = true ->
  (400 * a + 100 * b + 4 * c + 3 + 1 <= 9999)%Z ->
  date_valid (Date (400 * a + 100 * b + 4 * c + 3 + 1) 12 31) = true
  /\ toordinal (Date (400 * a + 100 * b + 4 * c + 3 + 1) 12 31)
     = (146097 * a + 36524 * b + 1461 * c + 1461)%Z.
Proof.
  intros Ha Hb Hc Hleap Hmax.
  assert (Hl : is_leap (400 * a + 100 * b + 4 * c + 3 + 1) = true).
  { rewrite is_leap_cycles by lia. rewrite Hleap. reflexivity. }
  split.
  - unfold date_valid, MINYEAR, MAXYEAR. cbn [year month day].
    repeat (apply andb_true_intro; split); try reflexivity;
      apply Z.leb_le; lia.
  - unfold toordinal, days_before_month. cbn [year month day].
    rewrite days_before_year_cycles by lia. rewrite Hl.
    change (DAYS_BEFORE_MONTH 12) with 334%Z.
    change (b2z ((2 <? 12)%Z && true)) with 1%Z. lia.
Qed.

(** [_ord2ymd] gives a date of the calendar, and it is the inverse of
    [toordinal]. *)
Lemma ord2ymd_spec (n : Z) :
  (1 <= n <= MAXORDINAL)%Z ->
  date_valid (ord2ymd n) = true /\ toordinal (ord2ymd n) = n.
Proof.
  unfold MAXORDINAL. intros Hn. unfold ord2ymd, DI400Y, DI100Y, DI4Y.
  pose proof (Z.div_mod (n - 1) 146097 ltac:(lia)) as E1.
  pose proof (Z.mod_pos_bound (n - 1) 146097 ltac:(lia)) as B1.
  set (a := ((n - 1) / 146097)%Z) in *.
  set (r400 := ((n - 1) mod 146097)%Z) in *.
  pose proof (Z.div_mod r400 36524 ltac:(lia)) as E2.
  pose proof (Z.mod_pos_bound r400 36524 ltac:(lia)) as B2.
  set (b := (r400 / 36524)%Z) in *.
  set (r100 := (r400 mod 36524)%Z) in *.
  pose proof (Z.div_mod r100 1461 ltac:(lia)) as E3.
  pose proof (Z.mod_pos_bound r100 1461 ltac:(lia)) as B3.
  set (c := (r100 / 1461)%Z) in *.
  set (r4 := (r100 mod 1461)%Z) in *.
  pose proof (Z.div_mod r4 365 ltac:(lia)) as E4.
  pose proof (Z.mod_pos_bound r4 365 ltac:(lia)) as B4.
  set (e := (r4 / 365)%Z) in *.
  set (r1 := (r4 mod 365)%Z) in *.
  clearbody a r400 b r100 c r4 e r1.
  assert (Ha : (0 <= a <= 24)%Z) by lia.
  assert (Hb : (0 <= b <= 4)%Z) by lia.
  assert (Hc : (0 <= c <= 24)%Z) by lia.
  assert (He : (0 <= e <= 4)%Z) by lia.
  destruct (Z.eqb_spec b 4) as [Hb4 | Hb4].
  - (* the last day of a 400-year cycle *)
    rewrite orb_true_r.
    assert (r100 = 0 /\ c = 0 /\ r4 = 0 /\ e = 0 /\ r1 = 0)%Z
      as (-> & -> & -> & -> & ->) by lia.
    subst b.
    replace (a * 400 + 1 + 4 * 100 + 0 * 4 + 0 - 1)%Z
      with (400 * a + 100 * 3 + 4 * 24 + 3 + 1)%Z by lia.
    destruct (december_31st a 3 24 ltac:(lia) ltac:(lia) ltac:(lia)
                eq_refl ltac:(lia)) as [Hv Ho].
    split; [exact Hv | rewrite Ho; lia].
  - destruct (Z.eqb_spec e 4) as [He4 | He4].
    + (* the last day of a 4-year cycle *)
      cbn [orb]. subst e.
      assert (Hr1 : r1 = 0%Z) by lia. subst r1.
      replace (a * 400 + 1 + b * 100 + c * 4 + 4 - 1)%Z
        with (400 * a + 100 * b + 4 * c + 3 + 1)%Z by lia.
      assert (Hc23 : (c <= 23)%Z) by lia.
      assert (Hleap : (negb (c =? 24)%Z || (b =? 3)%Z) = true).
      { destruct (Z.eqb_spec c 24); [lia | reflexivity]. }
      destruct (december_31st a b c ltac:(lia) ltac:(lia) ltac:(lia)
                  Hleap ltac:(lia)) as [Hv Ho].
      split; [exact Hv | rewrite Ho; lia].
    + cbn [orb].
      set (leapyear := (e =? 3)%Z && (negb (c =? 24)%Z || (b =? 3)%Z)).
      pose proof (doy_ok_all leapyear r1 ltac:(lia)) as Hdoy.
      unfold doy_ok in Hdoy.
      destruct (month_day_of r1 leapyear) as [m d].
      repeat (apply andb_prop in Hdoy as [Hdoy ?]).
      repeat match goal with
             | H : (_ <=? _)%Z = true |- _ => apply Z.leb_le in H
             | H : (_ =? _)%Z = true |- _ => apply Z.eqb_eq in H
             end.
      replace (a * 400 + 1 + b * 100 + c * 4 + e)%Z
        with (400 * a + 100 * b + 4 * c + e + 1)%Z by lia.
      assert (Hl : is_leap (400 * a + 100 * b + 4 * c + e + 1) = leapyear)
        by (apply is_leap_cycles; lia).
      split.
      * unfold date_valid, MINYEAR, MAXYEAR. cbn [year month day].
        rewrite days_in_month_table by lia. rewrite Hl.
        repeat (apply andb_true_intro; split); apply Z.leb_le; lia.
      * unfold toordinal, days_before_month. cbn [year month day].
        rewrite days_before_year_cycles by lia. rewrite Hl. lia.
Qed.

Lemma days_before_year_step (y : Z) :
  (1 <= y)%Z ->
  days_before_year (y + 1) = (days_before_year y + 365 + b2z (is_leap y))%Z.
Proof.
  intros Hy. unfold days_before_year, is_leap.
  replace (y + 1 - 1)%Z with y by lia.
  destruct (Z.eqb_spec (y mod 4) 0) as [H4 | H4];
    destruct (Z.eqb_spec (y mod 100) 0) as [H100 | H100];
    destruct (Z.eqb_spec (y mod 400) 0) as [H400 | H400];
    cbn [negb andb orb b2z];
    Z.div_mod_to_equations; lia.
Qed.

Lemma days_before_year_grows (k : nat) (y : Z) :
  (1 <= y)%Z ->
  (days_before_year y + 365 * Z.of_nat k <= days_before_year (y + Z.of_nat k))%Z.
Proof.
  intros Hy. induction k as [|k IH].
  - replace (y + Z.of_nat 0)%Z with y by lia. lia.
  - replace (y + Z.of_nat (S k))%Z with (y + Z.of_nat k + 1)%Z by lia.
    rewrite days_before_year_step by lia.
    destruct (is_leap (y + Z.of_nat k)); cbn [b2z]; lia.
Qed.

Lemma days_before_year_mono (y1 y2 : Z) :
  (1 <= y1 < y2)%Z ->
  (days_before_year y1 + 365 + b2z (is_leap y1) <= days_before_year y2)%Z.
Proof.
  intros Hy. rewrite <- days_before_year_step by lia.
  pose proof (days_before_year_grows (Z.to_nat (y2 - (y1 + 1))) (y1 + 1)
                ltac:(lia)) as Hg.
  replace (y1 + 1 + Z.of_nat (Z.to_nat (y2 - (y1 + 1))))%Z with y2 in Hg by lia.
  lia.
Qed.

Lemma month_start_mono (y m1 m2 : Z) :
  (1 <= m1 < m2)%Z -> (m2 <= 12)%Z ->
  (days_before_month y m1 + days_in_month y m1 <= days_before_month y m2)%Z.
Proof.
  intros H1 H2.
  assert (Hm1 : (1 <= m1 <= 12)%Z) by lia.
  assert (Hm2 : (1 <= m2 <= 12)%Z) by lia.
  unfold days_before_month, days_in_month.
  each_month m1 Hm1; each_month m2 Hm2; try lia;
    destruct (is_leap y); cbv -[Z.add Z.le Z.lt]; lia.
Qed.

Lemma day_of_year_bounds (d : date) :
  date_valid d = true ->
  (1 <= days_before_month (year d) (month d) + day d
     <= 365 + b2z (is_leap (year d)))%Z.
Proof.
  intros Hv. destruct (date_valid_bounds d Hv) as (Hy & Hm & Hd).
  destruct d as [y m dd]. cbn [year month day] in *.
  unfold days_before_month, days_in_month in *.
  each_month m Hm; destruct (is_leap y); cbv -[Z.add Z.le Z.lt] in *; lia.
Qed.

Lemma date_ltb_cases (d1 d2 : date) :
  date_ltb d1 d2 = true <->
  (year d1 < year d2
   \/ (year d1 = year d2
       /\ (month d1 < month d2
           \/ (month d1 = month d2 /\ day d1 < day d2))))%Z.
Proof. unfold date_ltb. lia. Qed.

(** The order of dates is the order of their ordinals. *)
Lemma toordinal_lt (d1 d2 : date) :
  date_valid d1 = true -> date_valid d2 = true ->
  date_ltb d1 d2 = true -> (toordinal d1 < toordinal d2)%Z.
Proof.
  intros Hv1 Hv2 Hlt. apply date_ltb_cases in Hlt.
  pose proof (day_of_year_bounds d1 Hv1) as B1.
  pose proof (day_of_year_bounds d2 Hv2) as B2.
  destruct (date_valid_bounds d1 Hv1) as (Hy1 & Hm1 & Hd1).
  destruct (date_valid_bounds d2 Hv2) as (Hy2 & Hm2 & Hd2).
  unfold toordinal.
  destruct Hlt as [Hy | (Hy & [Hm | (Hm & Hd)])].
  - pose proof (days_before_year_mono (year d1) (year d2) ltac:(lia)). lia.
  - rewrite Hy in *.
    pose proof (month_start_mono (year d2) (month d1) (month d2)
                  ltac:(lia) ltac:(lia)). lia.
  - rewrite Hy, Hm. lia.
Qed.

Lemma date_ltb_total (d1 d2 : date) :
  date_ltb d1 d2 = false -> date_ltb d2 d1 = false -> d1 = d2.
Proof.
  intros H1 H2.
  assert (N1 : ~ date_ltb d1 d2 = true) by congruence.
  assert (N2 : ~ date_ltb d2 d1 = true) by congruence.
  rewrite date_ltb_cases in N1, N2.
  destruct d1 as [y1 m1 dd1], d2 as [y2 m2 dd2]. cbn [year month day] in *.
  f_equal; lia.
Qed.

Lemma date_leb_ordinal (d1 d2 : date) :
  date_valid d1 = true -> date_valid d2 = true ->
  date_leb d1 d2 = (toordinal d1 <=? toordinal d2)%Z.
Proof.
  intros Hv1 Hv2. unfold date_leb.
  destruct (date_ltb d2 d1) eqn:E21; cbn [negb]; symmetry.
  - apply Z.leb_gt. apply toordinal_lt; assumption.
  - apply Z.leb_le.
    destruct (date_ltb d1 d2) eqn:E12.
    + apply Z.lt_le_incl. apply toordinal_lt; assumption.
    + rewrite (date_ltb_total d1 d2 E12 E21). lia.
Qed.

Lemma dict_lookup_app_miss (d1 d2 : pydict) (k : string) :
  dict_lookup d1 k = None -> dict_lookup (d1 ++ d2) k = dict_lookup d2 k.
Proof.
  induction d1 as [|[k' v] d1 IH]; [reflexivity|].
  cbn. destruct (String.eqb k' k); [discriminate | exact IH].
Qed.

Lemma joined_vendors (r : policy_row) :
  dict_lookup (columns r) "vendors" = None ->
  method_get (joined r) "vendors" = ok (embed_vendor (vendor r)).
Proof.
  intros Hc. unfold joined, method_get, method_get_default, dict_get_default.
  rewrite (dict_lookup_app_miss _ _ _ Hc). reflexivity.
Qed.

(** C9: for a policy row joined with its vendor.  A linked vendor with
    a non-empty contact email gives that email and the company name; no
    linked vendor, or a vendor whose email is null or empty, gives the
    fallback address and ["Valued Vendor"]. *)
Theorem resolve_recipient_of_joined (r : policy_row) :
  dict_lookup (columns r) "vendors" = None ->
  (forall v email,
     vendor r = Some v -> dict_get v "contact_email" = PStr email ->
     email <> "" ->
     resolve_recipient (joined r) = ok (PStr email, dict_get v "company_name"))
  /\ (vendor r = None ->
      resolve_recipient (joined r) = ok (PStr fallback_email, PStr fallback_name))
  /\ (forall v,
     vendor r = Some v ->
     dict_get v "contact_email" = PNone \/ dict_get v "contact_email" = PStr "" ->
     resolve_recipient (joined r) = ok (PStr fallback_email, PStr fallback_name))
  /\ fallback_email = "mlodic.blue@gmail.com"
  /\ fallback_name = "Valued Vendor".
Proof.
  intros Hc. unfold resolve_recipient. rewrite (joined_vendors r Hc).
  cbn [res_bind ok]. repeat split.
  - intros v email Hv He Hne. rewrite Hv. cbn. rewrite He.
    destruct email; [contradiction | reflexivity].
  - intros ->. reflexivity.
  - intros v Hv [He | He]; rewrite Hv; cbn; rewrite He; reflexivity.
Qed.

Section NotifierProofs.
Context {World : Type} `{Collaborators World}.

(** With a provider key configured, the reminder for a joined row goes
    to the resolved address and greets the resolved name. *)
Lemma send_email_to_recipient (r : policy_row) (target_email vendor_name : pyval)
    (s : state World) :
  armed = true ->
  resolve_recipient (joined r) = ok (target_email, vendor_name) ->
  let carrier := dict_get_default (columns r ++ [("vendors", embed_vendor (vendor r))])
                   "carrier_name" (PStr "Unknown Carrier") in
  let exp_date := dict_get (columns r ++ [("vendors", embed_vendor (vendor r))])
                   "expiration_date" in
  let doc_id := dict_get (columns r ++ [("vendors", embed_vendor (vendor r))]) "id" in
  let m := email_of target_email (subject_of carrier)
                    (body_of vendor_name carrier exp_date doc_id) in
  send_email (joined r) s
  = (ok tt, State (snd (emails_send m (world s))) (trace s ++ [EvEmail m])).
Proof.
  intros Harmed Hrec carrier exp_date doc_id m.
  unfold send_email. cbn [joined method_get_default method_get].
  rewrite !bindE_ok. rewrite Hrec, bindE_ok.
  rewrite Harmed. unfold bind, call_email. rewrite perform_run. reflexivity.
Qed.

End NotifierProofs.

Lemma resolve_recipient_of_joined_witness :
  resolve_recipient (joined row_linked)
    = ok (PStr "ops@acme.example", PStr "Acme Roofing")
  /\ resolve_recipient (joined row_P1)
    = ok (PStr "mlodic.blue@gmail.com", PStr "Valued Vendor").
Proof.
  split.
  - apply (proj1 (resolve_recipient_of_joined row_linked eq_refl)
             vendor_acme "ops@acme.example"); [reflexivity | reflexivity | discriminate].
  - apply (proj1 (proj2 (resolve_recipient_of_joined row_P1 eq_refl))).
    reflexivity.
Defined.

Lemma toordinal_bounds (d : date) :
  date_valid d = true -> (1 <= toordinal d <= MAXORDINAL)%Z.
Proof.
  intros Hv. destruct (date_valid_bounds d Hv) as (Hy & Hm & Hd).
  pose proof (days_in_month_le_31 (year d) (month d)) as H31.
  assert (Hlo : date_leb (Date 1 1 1) d = true).
  { unfold date_leb, date_ltb. cbn [year month day]. lia. }
  assert (Hhi : date_leb d (Date 9999 12 31) = true).
  { unfold date_leb, date_ltb. cbn [year month day]. lia. }
  rewrite date_leb_ordinal in Hlo, Hhi by (assumption || reflexivity).
  apply Z.leb_le in Hlo, Hhi.
  change (toordinal (Date 1 1 1)) with 1%Z in Hlo.
  change (toordinal (Date 9999 12 31)) with 3652059%Z in Hhi.
  unfold MAXORDINAL. lia.
Qed.

(** [dt + timedelta(days=n)] is the date [n] days later, when the
    calendar has that date. *)
Lemma datetime_add_days_ordinal (dt : datetime) (n : Z) :
  date_valid (dt_date dt) = true ->
  (1 <= toordinal (dt_date dt) + n <= MAXORDINAL)%Z ->
  exists target,
    datetime_add_days dt n = ok (Datetime target (dt_micros dt))
    /\ date_valid target = true
    /\ toordinal target = (toordinal (dt_date dt) + n)%Z.
Proof.
  intros Hv Hr. pose proof (toordinal_bounds _ Hv) as Hb.
  unfold MAXORDINAL in *.
  destruct (ord2ymd_spec _ Hr) as [Hvt Hot].
  exists (ord2ymd (toordinal (dt_date dt) + n)).
  split; [|split; assumption].
  unfold datetime_add_days, timedelta_days, fromordinal, MAXORDINAL.
  assert (H1 : (Z.abs n <=? 999999999)%Z = true) by (apply Z.leb_le; lia).
  assert (H2 : ((1 <=? toordinal (dt_date dt) + n)%Z
                && (toordinal (dt_date dt) + n <=? 3652059)%Z) = true).
  { apply andb_true_intro. split; apply Z.leb_le; lia. }
  rewrite H1. cbn [res_bind ok]. rewrite H2. reflexivity.
Qed.

Lemma date_ltb_asym (d1 d2 : date) :
  date_ltb d1 d2 = true -> date_ltb d2 d1 = false.
Proof.
  intros H12. destruct (date_ltb d2 d1) eqn:H21; [|reflexivity].
  apply date_ltb_cases in H12, H21. lia.
Qed.

Lemma op_lte_date (d lit : date) :
  op_holds OpLte (date_compare d lit) = date_leb d lit.
Proof.
  unfold date_compare, date_leb.
  destruct (date_ltb d lit) eqn:E1.
  - rewrite (date_ltb_asym _ _ E1). reflexivity.
  - destruct (date_ltb lit d); reflexivity.
Qed.

Lemma op_gte_date (d lit : date) :
  op_holds OpGte (date_compare d lit) = date_leb lit d.
Proof.
  unfold date_compare, date_leb.
  destruct (date_ltb d lit) eqn:E1; [reflexivity|].
  destruct (date_ltb lit d); reflexivity.
Qed.

Lemma op_eq_text (s lit : string) :
  op_holds OpEq (String.compare s lit) = String.eqb s lit.
Proof.
  destruct (String.eqb_spec s lit) as [-> | Hne].
  - pose proof (String.compare_antisym lit lit) as Ha.
    destruct (String.compare lit lit); (reflexivity || discriminate).
  - destruct (String.compare s lit) eqn:E; try reflexivity.
    apply String.compare_eq_iff in E. contradiction.
Qed.

(** The query of the scanner, evaluated on a table. *)
Lemma eval_scan_query (tbl : list policy_row) (today target : date) (h : Z) :
  date_valid today = true -> date_valid target = true ->
  toordinal target = (toordinal today + h)%Z ->
  eval_select tbl (scan_query today target)
  = ok (map joined (List.filter (expiring_within today h) tbl)).
Proof.
  intros Hv Hvt Hot.
  unfold eval_select, scan_query. cbn [q_table q_columns q_filters].
  cbn [compile_filters]. unfold compile_filter at 1 2 3.
  cbn [f_column f_value f_op]. 
  change (is_date_column "processing_status") with false.
  change (is_date_column "expiration_date") with true.
  cbv iota.
  rewrite !date_fromisoformat_isoformat by assumption.
  change (String.eqb "policies" "policies"
          && String.eqb "*, vendors(company_name, contact_email)"
                        "*, vendors(company_name, contact_email)") with true.
  cbn [res_bind ok]. unfold ok. f_equal. f_equal.
  apply filter_ext. intros r.
  unfold expiring_within, status_of.
  destruct (dict_get (columns r) "processing_status") as [| | | |status| |];
    try reflexivity.
  rewrite op_eq_text.
  destruct (expiration_of r) as [e|] eqn:Ee.
  - assert (Hve : date_valid e = true).
    { unfold expiration_of in Ee.
      destruct (dict_get (columns r) "expiration_date"); try discriminate.
      eapply date_fromisoformat_valid; eassumption. }
    rewrite op_lte_date, op_gte_date.
    rewrite !date_leb_ordinal by assumption. rewrite Hot.
    rewrite andb_true_r.
    destruct (String.eqb status "active"); cbn [andb]; [|reflexivity].
    apply andb_comm.
  - rewrite !andb_false_r. reflexivity.
Qed.

Section ScannerProofs.
Context {World : Type} `{Collaborators World}.

Lemma datetime_add_days_error (dt : datetime) (n : Z) (e : exn) :
  datetime_add_days dt n = raise e -> exn_cls e = OverflowError.
Proof.
  unfold datetime_add_days, timedelta_days, fromordinal.
  destruct (Z.abs n <=? 999999999)%Z.
  - cbn [res_bind ok].
    destruct (_ && _); [discriminate | intros [= <-]; reflexivity].
  - destruct (_ && _); intros [= <-]; reflexivity.
Qed.

Lemma get_expiring_policies_run (days_out : Z) (s : state World) :
  let now1 := datetime_now (world s) in
  let now2 := datetime_now (snd now1) in
  get_expiring_policies days_out s
  = match datetime_add_days (fst now1) days_out with
    | inl e => (raise e, State (snd now1) (trace s ++ [EvNow]))
    | inr target =>
        let q := scan_query (dt_date (fst now2)) (dt_date target) in
        let answer := table_select q (snd now2) in
        (ok match fst answer with
            | inr data => data
            | inl _ => []
            end,
         State (snd answer) (trace s ++ [EvNow; EvNow; EvSelect q]))
    end.
Proof.
  cbv zeta.
  unfold get_expiring_policies, bind at 1, call_now at 1.
  rewrite perform_run.
  destruct (datetime_add_days _ days_out) as [e|target].
  - rewrite bindE_raise. reflexivity.
  - rewrite bindE_ok. unfold bind, call_now, call_select.
    rewrite !perform_run. cbn [world trace fst snd].
    rewrite <- !app_assoc. reflexivity.
Qed.

Lemma eval_scan_query_between (tbl : list policy_row) (today target : date) :
  date_valid today = true -> date_valid target = true ->
  eval_select tbl (scan_query today target)
  = ok (map joined
          (List.filter (expiring_between (toordinal today) (toordinal target))
                       tbl)).
Proof.
  intros Hv Hvt.
  rewrite (eval_scan_query tbl today target
             (toordinal target - toordinal today) Hv Hvt) by lia.
  f_equal. f_equal. apply filter_ext. intros r.
  unfold expiring_within, expiring_between.
  replace (toordinal today + (toordinal target - toordinal today))%Z
    with (toordinal target) by lia.
  reflexivity.
Qed.

Lemma expiring_between_within (today : date) (h : Z) (r : policy_row) :
  expiring_between (toordinal today) (toordinal today + h) r
  = expiring_within today h r.
Proof. reflexivity. Qed.

(** C8 (as amended): the clock is read twice, and the dates it shows,
    [first_day] and then [today], are dates of the calendar.  When the
    calendar has the day [days_out] days after [first_day], there is
    one query, and if the database answers it as a table would, the
    scanner returns exactly the rows whose status is ["active"] and
    whose expiration date is from [today] to that day, both ends
    included, each with its vendor embedded (or null): the rows of
    [today .. today + days_out] when both readings fall on one day.
    If that query raises, the scanner returns the empty list.  When
    the calendar has no such day, the [OverflowError] of the date
    leaves the scanner. *)
Theorem get_expiring_policies_window (days_out : Z)
    (tbl : list policy_row) (s : state World) :
  let now1 := datetime_now (world s) in
  let now2 := datetime_now (snd now1) in
  let first_day := dt_date (fst now1) in
  let today := dt_date (fst now2) in
  let last := (toordinal first_day + days_out)%Z in
  let query := scan_query today (ord2ymd last) in
  date_valid first_day = true ->
  date_valid today = true ->
  ((1 <= last <= MAXORDINAL)%Z ->
   toordinal (ord2ymd last) = last
   /\ (fst (table_select query (snd now2)) = eval_select tbl query ->
       fst (get_expiring_policies days_out s)
       = ok (map joined
               (List.filter (expiring_between (toordinal today) last) tbl))
       /\ (first_day = today ->
           fst (get_expiring_policies days_out s)
           = ok (map joined
                   (List.filter (expiring_within today days_out) tbl))))
   /\ (forall e,
       fst (table_select query (snd now2)) = raise e ->
       fst (get_expiring_policies days_out s) = ok []))
  /\ (~ (1 <= last <= MAXORDINAL)%Z ->
      exists e, fst (get_expiring_policies days_out s) = raise e
                /\ exn_cls e = OverflowError).
Proof.
  intros now1 now2 first_day today last query Hv1 Hv2.
  rewrite get_expiring_policies_run. cbv zeta.
  subst query last today first_day now2 now1.
  set (now1 := datetime_now (world s)) in *.
  set (now2 := datetime_now (snd now1)) in *.
  set (last := (toordinal (dt_date (fst now1)) + days_out)%Z) in *.
  split.
  - intros Hr.
    destruct (ord2ymd_spec _ Hr) as [Hvt Hot].
    assert (Hadd : datetime_add_days (fst now1) days_out
                   = inr (Datetime (ord2ymd last) (dt_micros (fst now1)))).
    { pose proof (toordinal_bounds _ Hv1) as Hb.
      unfold datetime_add_days, timedelta_days, fromordinal.
      fold last.
      assert (H1 : (Z.abs days_out <=? 999999999)%Z = true)
        by (apply Z.leb_le; unfold MAXORDINAL in *; subst last; lia).
      assert (H2 : ((1 <=? last)%Z && (last <=? MAXORDINAL)%Z) = true).
      { apply andb_true_intro. split; apply Z.leb_le; lia. }
      rewrite H1. cbn [res_bind ok]. fold last. rewrite H2. reflexivity. }
    split; [exact Hot|].
    rewrite Hadd. cbn [dt_date fst]. split.
    + intros Hdb. rewrite Hdb.
      rewrite (eval_scan_query_between tbl _ (ord2ymd last) Hv2 Hvt).
      rewrite Hot. split; [reflexivity|].
      intros Hsame.
      assert (Hlast : last = (toordinal (dt_date (fst now2)) + days_out)%Z)
        by (unfold last; f_equal; f_equal; exact Hsame).
      rewrite Hlast. reflexivity.
    + intros e He. unfold raise in He. rewrite He. reflexivity.
  - intros Hout.
    destruct (datetime_add_days (fst now1) days_out) as [e|target] eqn:Hadd.
    + exists e. split; [reflexivity|].
      exact (datetime_add_days_error _ _ _ Hadd).
    + exfalso. apply Hout.
      unfold datetime_add_days, timedelta_days, fromordinal in Hadd.
      fold last in Hadd.
      destruct (Z.abs days_out <=? 999999999)%Z;
        [|destruct (_ && _); discriminate].
      cbn [res_bind ok] in Hadd. fold last in Hadd.
      destruct ((1 <=? last)%Z && (last <=? MAXORDINAL)%Z) eqn:Hin;
        [|discriminate].
      apply andb_prop in Hin as [Hlo Hhi].
      apply Z.leb_le in Hlo, Hhi. lia.
Qed.

End ScannerProofs.

Lemma get_expiring_policies_window_witness :
  fst (get_expiring_policies 30 (Sim.start (scan_world [june_1st] true)))
  = ok [ joined row_linked;
         joined (row_of "P5" "active" (PStr "2024-06-01") None);
         joined (row_of "P6" "active" (PStr "2024-07-01") None) ].
Proof.
  destruct (@get_expiring_policies_window _ Sim.sim_collaborators
              30 scan_table (Sim.start (scan_world [june_1st] true))
              eq_refl eq_refl) as [Hin _].
  destruct (Hin ltac:(split; apply Z.leb_le; reflexivity))
    as (_ & Hrows & _).
  exact (proj1 (Hrows eq_refl)).
Defined.

(** C8 (as stated) fails.  Read on either side of midnight, the clock
    gives a window that is the thirty days after neither reading: the
    row that expires on the first day [2024-05-31] and the row that
    expires thirty days after the second [2024-07-01] are both left
    out.  And a horizon beyond the calendar is not answered at all: the
    [OverflowError] leaves the scanner. *)
Lemma get_expiring_policies_not_the_window :
  let s := Sim.start (scan_world [Datetime (Date 2024 5 31) 86399999999;
                                  june_1st] true) in
  fst (get_expiring_policies 30 s)
    = ok [ joined row_linked;
           joined (row_of "P5" "active" (PStr "2024-06-01") None) ]
  /\ map joined (List.filter (expiring_within (Date 2024 5 31) 30) scan_table)
     = [ joined row_linked;
         joined (row_of "P5" "active" (PStr "2024-06-01") None);
         joined (row_of "P7" "active" (PStr "2024-05-31") None) ]
  /\ map joined (List.filter (expiring_within (Date 2024 6 1) 30) scan_table)
     = [ joined row_linked;
         joined (row_of "P5" "active" (PStr "2024-06-01") None);
         joined (row_of "P6" "active" (PStr "2024-07-01") None) ]
  /\ fst (get_expiring_policies 3000000
            (Sim.start (scan_world [june_1st] true)))
     = raise (Exn OverflowError "date value out of range").
Proof. repeat split; reflexivity. Qed.

(** The same scan with the database down. *)
Example get_expiring_policies_database_down :
  fst (get_expiring_policies 30 (Sim.start (scan_world [june_1st] false)))
  = ok [].
Proof. reflexivity. Qed.

(** The horizon must stay within the calendar: the target date is
    computed before the [try], so its [OverflowError] leaves the
    scanner. *)
Example get_expiring_policies_overflow :
  fst (get_expiring_policies 3000000 (Sim.start (scan_world [june_1st] true)))
  = raise (Exn OverflowError "date value out of range").
Proof. reflexivity. Qed.

Lemma day_cases (d : Z) :
  (1 <= d <= 31)%Z ->
  In d (map Z.of_nat (seq 1 31)).
Proof.
  intros Hd. apply in_map_iff. exists (Z.to_nat d). split; [lia|].
  apply in_seq. lia.
Qed.

Lemma tail_ok_all (m d : Z) :
  (1 <= m <= 12)%Z -> (1 <= d <= 31)%Z -> tail_ok m d = true.
Proof.
  intros Hm Hd.
  assert (Hall : forallb (fun m => forallb (tail_ok m) (map Z.of_nat (seq 1 31)))
                         (map Z.of_nat (seq 1 12)) = true)
    by (vm_compute; reflexivity).
  rewrite forallb_forall in Hall.
  assert (Hin : In m (map Z.of_nat (seq 1 12))).
  { apply in_map_iff. exists (Z.to_nat m). split; [lia|]. apply in_seq. lia. }
  specialize (Hall m Hin). rewrite forallb_forall in Hall.
  apply Hall, day_cases, Hd.
Qed.

(** On an ASCII digit, [\d] reads that digit. *)
Lemma re_digit_ascii (a : ascii) (r : string) :
  is_digit a = true -> re_digit (String a r) = [(digit_val a, r)].
Proof.
  unfold is_digit, digit_val, re_digit, code_point. cbv zeta.
  intros Hd. apply andb_prop in Hd as [Hlo Hhi].
  apply N.leb_le in Hlo, Hhi.
  assert (H128 : (Z.of_N (N_of_ascii a) <? 128)%Z = true)
    by (apply Z.ltb_lt; lia).
  rewrite H128. unfold decimal_zeros. cbn [find].
  assert (H48 : ((48 <=? Z.of_N (N_of_ascii a))%Z
                 && (Z.of_N (N_of_ascii a) <? 48 + 10)%Z) = true).
  { apply andb_true_intro. split; [apply Z.leb_le | apply Z.ltb_lt]; lia. }
  rewrite H48. reflexivity.
Qed.

Lemma re_digit_char (k : Z) (r : string) :
  (0 <= k <= 9)%Z -> re_digit (String (digit_char k) r) = [(k, r)].
Proof.
  intros Hk. destruct (digit_char_digit k Hk) as [Hd Hv].
  rewrite (re_digit_ascii _ _ Hd), Hv. reflexivity.
Qed.

Lemma re_Y_pad4 (y : Z) (r : string) :
  (0 <= y <= 9999)%Z -> re_Y (pad4 y ++ r)%string = [(y, r)].
Proof.
  intros Hy.
  assert (Hy1 : (0 <= y / 1000 mod 10 <= 9)%Z)
    by (pose proof (Z.mod_pos_bound (y / 1000) 10); lia).
  assert (Hy2 : (0 <= y / 100 mod 10 <= 9)%Z)
    by (pose proof (Z.mod_pos_bound (y / 100) 10); lia).
  assert (Hy3 : (0 <= y / 10 mod 10 <= 9)%Z)
    by (pose proof (Z.mod_pos_bound (y / 10) 10); lia).
  assert (Hy4 : (0 <= y mod 10 <= 9)%Z)
    by (pose proof (Z.mod_pos_bound y 10); lia).
  assert (Ey : (y / 1000 mod 10 * 1000 + y / 100 mod 10 * 100
                + y / 10 mod 10 * 10 + y mod 10 = y)%Z).
  { Z.div_mod_to_equations. lia. }
  unfold pad4, pad2, re_Y. cbn [append].
  rewrite (re_digit_char _ _ Hy1). cbn [flat_map]. rewrite app_nil_r.
  rewrite (re_digit_char _ _ Hy2). cbn [flat_map]. rewrite app_nil_r.
  rewrite (re_digit_char _ _ Hy3). cbn [flat_map]. rewrite app_nil_r.
  rewrite (re_digit_char _ _ Hy4). cbn [map]. rewrite Ey. reflexivity.
Qed.

(** [strptime] with ["%Y-%m-%d"] reads back what [isoformat] writes. *)
Lemma strptime_isoformat (d : date) :
  date_valid d = true -> strptime_Ymd (PStr (isoformat d)) = ok d.
Proof.
  intros Hv. destruct (date_valid_bounds d Hv) as (Hy & Hm & Hd).
  pose proof (days_in_month_le_31 (year d) (month d)) as H31.
  pose proof (tail_ok_all (month d) (day d) Hm ltac:(lia)) as Htail.
  destruct d as [y m dd]. cbn [year month day] in *.
  unfold strptime_Ymd, re_Ymd, isoformat. cbn [year month day].
  rewrite re_Y_pad4 by lia.
  cbn [flat_map append re_dash]. rewrite !app_nil_r.
  unfold tail_ok in Htail.
  destruct (re_md _) as [|[[m' d'] rest] l'] eqn:E; [discriminate|].
  destruct rest; [|discriminate].
  apply andb_prop in Htail as [Hm' Hd'].
  apply Z.eqb_eq in Hm', Hd'. subst m' d'.
  cbn [map]. rewrite Hv. reflexivity.
Qed.

(** The pattern is more liberal than the strict form: one-digit months
    and days pass, and so does a day written with a leading blank. *)
Example strptime_lenient :
  map (fun s => strptime_Ymd (PStr s)) ["2024-6-1"; "2024-06- 1"; "2024-1-31"]
  = [ok (Date 2024 6 1); ok (Date 2024 6 1); ok (Date 2024 1 31)].
Proof. reflexivity. Qed.

(** In the year, and after the 1 or 2 of a day, the pattern takes the
    decimal digits of every script, which [int] converts; the month
    takes ASCII digits only. *)
Example strptime_other_digits :
  strptime_Ymd (PStr ("209" ++ fullwidth_nine ++ "-01-01"))
    = ok (Date 2099 1 1)
  /\ strptime_Ymd (PStr ("2024-06-1" ++ fullwidth_nine)) = ok (Date 2024 6 19)
  /\ strptime_Ymd (PStr ("2024-0" ++ fullwidth_nine ++ "-01"))
     = raise (Exn ValueError
                ("time data '2024-0" ++ fullwidth_nine
                 ++ "-01' does not match format '%Y-%m-%d'")).
Proof. repeat split; reflexivity. Qed.


Section StatusOfDates.
Context {World : Type} `{Collaborators World}.

(** For a date of the calendar written in the strict form, the status
    is decided by the comparison with today alone. *)
Lemma resolve_status_of_date (d : date) (s : state World) :
  date_valid d = true ->
  fst (resolve_status (PStr (isoformat d)) s)
  = ok (if date_ltb d (today_in s) then "rejected" else "active").
Proof.
  intros Hv. rewrite resolve_status_run.
  rewrite (strptime_ok_truthy _ _ (strptime_isoformat d Hv)).
  rewrite (strptime_isoformat d Hv). reflexivity.
Qed.

Lemma tail_sound_all (m d : Z) :
  (0 <= m <= 99)%Z -> (0 <= d <= 99)%Z -> tail_sound m d = true.
Proof.
  intros Hm Hd.
  assert (Hall : forallb (fun m => forallb (tail_sound m)
                                     (map Z.of_nat (seq 0 100)))
                         (map Z.of_nat (seq 0 100)) = true)
    by (vm_compute; reflexivity).
  rewrite forallb_forall in Hall.
  assert (Hin : forall k, (0 <= k <= 99)%Z -> In k (map Z.of_nat (seq 0 100))).
  { intros k Hk. apply in_map_iff. exists (Z.to_nat k). split; [lia|].
    apply in_seq. lia. }
  specialize (Hall m (Hin m Hm)). rewrite forallb_forall in Hall.
  apply Hall, Hin, Hd.
Qed.

(** On a text of the form YYYY-MM-DD, [strptime] returns nothing but
    the date written, and that only if the calendar has it. *)
Lemma strptime_strict (d d' : date) :
  (0 <= year d <= 9999)%Z -> (0 <= month d <= 99)%Z -> (0 <= day d <= 99)%Z ->
  strptime_Ymd (PStr (isoformat d)) = ok d' ->
  d' = d /\ date_valid d = true.
Proof.
  intros Hy Hm Hd.
  pose proof (tail_sound_all (month d) (day d) Hm Hd) as Htail.
  destruct d as [y m dd]. cbn [year month day] in *.
  unfold strptime_Ymd, re_Ymd, isoformat. cbn [year month day].
  rewrite re_Y_pad4 by lia.
  cbn [flat_map append re_dash]. rewrite !app_nil_r.
  unfold tail_sound in Htail.
  destruct (re_md _) as [|[[m' d''] rest] l'] eqn:E; [discriminate|].
  cbn [map].
  destruct rest; [|discriminate].
  apply andb_prop in Htail as [Hm' Hd'].
  apply Z.eqb_eq in Hm', Hd'. subst m' d''.
  destruct (date_valid (Date y m dd)); [|discriminate].
  intros [= <-]. split; reflexivity.
Qed.

(** C2 (as amended): the status from the extracted expiration date.
    An absent field, a null and an empty text give ["error"].  A text
    of the form YYYY-MM-DD gives ["error"] when the calendar has no such
    date, ["rejected"] when the date is before today, and ["active"]
    from today on.  Any other text is judged by [strptime]: ["error"]
    when it refuses the text, and for a text it accepts (months and
    days of one digit, digits of other scripts) the same comparison.
    Before means fewer days since the start of the calendar; and two
    runs that see the same value on the same day agree. *)
Theorem resolve_status_by_date (s : state World) :
  let today := today_in s in
  fst (resolve_status PNone s) = ok "error"
  /\ fst (resolve_status (PStr "") s) = ok "error"
  /\ (forall d : date,
        (0 <= year d <= 9999)%Z -> (0 <= month d <= 99)%Z ->
        (0 <= day d <= 99)%Z ->
        fst (resolve_status (PStr (isoformat d)) s)
        = ok (if date_valid d
              then if date_ltb d today then "rejected" else "active"
              else "error"))
  /\ (forall str : string,
        fst (resolve_status (PStr str) s)
        = ok match strptime_Ymd (PStr str) with
             | inr d => if date_ltb d today then "rejected" else "active"
             | inl _ => "error"
             end)
  /\ (date_valid today = true ->
        fst (resolve_status (PStr (isoformat today)) s) = ok "active")
  /\ (forall d : date, date_valid d = true -> date_valid today = true ->
        date_ltb d today = (toordinal d <? toordinal today)%Z)
  /\ (forall (s' : state World) (v : pyval),
        today_in s' = today ->
        fst (resolve_status v s') = fst (resolve_status v s)).
Proof.
  intros today.
  assert (Htext : forall str,
            fst (resolve_status (PStr str) s)
            = ok match strptime_Ymd (PStr str) with
                 | inr d => if date_ltb d today then "rejected" else "active"
                 | inl _ => "error"
                 end).
  { intros str. rewrite resolve_status_run. fold today.
    destruct (strptime_Ymd (PStr str)) as [e|d] eqn:Ep.
    - unfold caught_by. rewrite (strptime_str_error _ _ Ep).
      destruct (truthy (PStr str)); reflexivity.
    - rewrite (strptime_ok_truthy _ _ Ep). reflexivity. }
  split; [reflexivity|]. split; [reflexivity|].
  split; [|split; [exact Htext|split; [|split]]].
  - intros d Hy Hm Hd. rewrite Htext.
    destruct (date_valid d) eqn:Hv.
    + rewrite (strptime_isoformat d Hv). reflexivity.
    + destruct (strptime_Ymd (PStr (isoformat d))) as [e|d'] eqn:Ep;
        [reflexivity|].
      destruct (strptime_strict d d' Hy Hm Hd Ep) as [_ Hv'].
      rewrite Hv in Hv'. discriminate.
  - intros Hv. rewrite Htext, (strptime_isoformat today Hv).
    unfold ok. rewrite date_ltb_irrefl. reflexivity.
  - intros d Hv Ht.
    pose proof (date_leb_ordinal today d Ht Hv) as Hle.
    unfold date_leb in Hle. rewrite Z.ltb_antisym, <- Hle.
    destruct (date_ltb d today); reflexivity.
  - intros s' v Htoday. rewrite !resolve_status_run, Htoday. reflexivity.
Qed.

End StatusOfDates.

Lemma resolve_status_by_date_witness :
  let status_of_text := fun str =>
    fst (resolve_status (PStr str) (Sim.start (world_with []))) in
  status_of_text "2024-05-31" = ok "rejected"
  /\ status_of_text "2024-06-01" = ok "active"
  /\ status_of_text "2024-06-02" = ok "active"
  /\ status_of_text "2024-02-30" = ok "error"
  /\ status_of_text "2024-13-01" = ok "error"
  /\ status_of_text "0000-01-01" = ok "error".
Proof.
  destruct (@resolve_status_by_date _ Sim.sim_collaborators
              (Sim.start (world_with []))) as (_ & _ & Hform & _).
  cbv zeta.
  split; [exact (Hform (Date 2024 5 31) ltac:(cbn; lia) ltac:(cbn; lia)
                       ltac:(cbn; lia))|].
  split; [exact (Hform (Date 2024 6 1) ltac:(cbn; lia) ltac:(cbn; lia)
                       ltac:(cbn; lia))|].
  split; [exact (Hform (Date 2024 6 2) ltac:(cbn; lia) ltac:(cbn; lia)
                       ltac:(cbn; lia))|].
  split; [exact (Hform (Date 2024 2 30) ltac:(cbn; lia) ltac:(cbn; lia)
                       ltac:(cbn; lia))|].
  split; [exact (Hform (Date 2024 13 1) ltac:(cbn; lia) ltac:(cbn; lia)
                       ltac:(cbn; lia))|].
  exact (Hform (Date 0 1 1) ltac:(cbn; lia) ltac:(cbn; lia) ltac:(cbn; lia)).
Defined.

(** C2 (as stated) fails: texts that are not of the form YYYY-MM-DD (a
    month and a day of one digit, a day after a blank) do not give
    ["error"]: [strptime] reads them as dates.  The clock shows
    2024-06-01. *)
Lemma resolve_status_lenient_texts :
  map iso_fields ["2024-6-1"; "2023-12- 5"] = [None; None]
  /\ map (fun str =>
            fst (resolve_status (PStr str) (Sim.start (world_with []))))
         ["2024-6-1"; "2023-12- 5"]
     = [ok "active"; ok "rejected"].
Proof. split; reflexivity. Qed.

(** The same resolution on any policy dict, joined by the scanner or
    not. *)
Lemma resolve_recipient_cases (p : pydict) :
  (forall v email,
     dict_get p "vendors" = PDict v ->
     dict_get v "contact_email" = PStr email -> email <> "" ->
     resolve_recipient (PDict p) = ok (PStr email, dict_get v "company_name"))
  /\ (truthy (dict_get p "vendors") = false ->
      resolve_recipient (PDict p) = ok (PStr fallback_email, PStr fallback_name))
  /\ (forall v,
     dict_get p "vendors" = PDict v ->
     truthy (dict_get v "contact_email") = false ->
     resolve_recipient (PDict p) = ok (PStr fallback_email, PStr fallback_name)).
Proof.
  unfold resolve_recipient, method_get, method_get_default.
  fold (dict_get p "vendors"). cbn [res_bind ok]. repeat split.
  - intros v email -> He Hne. fold (dict_get v "contact_email").
    fold (dict_get v "company_name").
    destruct v as [|kv v']; [discriminate|].
    cbn [truthy res_bind ok]. rewrite He.
    destruct email; [contradiction | reflexivity].
  - intros Hf. rewrite Hf. cbn [res_bind ok]. rewrite Hf. reflexivity.
  - intros v -> Hf. fold (dict_get v "contact_email").
    destruct v as [|kv v']; [reflexivity|].
    cbn [truthy res_bind ok]. rewrite Hf. reflexivity.
Qed.

(** The first two scenarios: an expiration date in 2099 gives an
    active record with the carrier and the limit as extracted; one in
    2000 gives a rejected record. *)
Example scenario_active :
  let run := process_coi_webhook payload_P1
               (Sim.start (world_with
                  [replied (reply_with (Json.quoted "2099-01-01"))])) in
  fst run = ok (success_of "active")
  /\ map (fun r => (dict_get (columns r) "processing_status",
                    dict_get (columns r) "carrier_name",
                    dict_get (columns r) "limit_amount"))
         (Sim.policies (world (snd run)))
     = [(PStr "active", PStr "Acme", PInt 1000000)].
Proof. split; reflexivity. Qed.

Example scenario_rejected :
  let run := process_coi_webhook payload_P1
               (Sim.start (world_with
                  [replied (reply_with (Json.quoted "2000-01-01"))])) in
  fst run = ok (success_of "rejected")
  /\ map (fun r => dict_get (columns r) "processing_status")
         (Sim.policies (world (snd run)))
     = [PStr "rejected"].
Proof. split; reflexivity. Qed.

(** A date that is a number, not a text, makes [strptime] raise
    [TypeError]: the handler marks the record and answers with the
    error. *)
Example scenario_date_not_text :
  let run := process_coi_webhook payload_P1
               (Sim.start (world_with [replied (reply_with "20990101")])) in
  fst run = ok (error_of "strptime() argument 1 must be str, not int")
  /\ map (fun r => dict_get (columns r) "processing_status")
         (Sim.policies (world (snd run)))
     = [PStr "error"].
Proof. split; reflexivity. Qed.

(** Two clock readings on either side of midnight: the window then
    starts at the second day and ends [days_out] days after the
    first. *)
Example scan_across_midnight :
  fst (get_expiring_policies 30
         (Sim.start (scan_world [Datetime (Date 2024 5 31) 86399999999;
                                 june_1st] true)))
  = ok [ joined row_linked;
         joined (row_of "P5" "active" (PStr "2024-06-01") None) ].
Proof. reflexivity. Qed.

(** Both updates fail: the answer carries the message of the first
    failure, and nothing of the second. *)
Example scenario_both_updates_fail :
  let w := Sim.SimWorld [("p1.pdf", pdf_P1)]
             [replied (reply_with (Json.quoted "2099-01-01"))]
             [Some (Exn (OtherException "APIError") "permission denied");
              Some (Exn (OtherException "ConnectError") "connection lost")]
             [june_1st] [row_P1] true true in
  let run := process_coi_webhook payload_P1 (Sim.start w) in
  fst run = ok (error_of "permission denied")
  /\ List.length (List.filter is_mark_error (trace (snd run))) = 1%nat
  /\ Sim.policies (world (snd run)) = [row_P1].
Proof. repeat split; reflexivity. Qed.

(** ** Texts: suffixes, replacement, fences *)

Lemma str_lower_app (a b : string) :
  str_lower (a ++ b)%string = (str_lower a ++ str_lower b)%string.
Proof.
  induction a as [|c a IH]; [reflexivity|]. cbn. rewrite IH. reflexivity.
Qed.

Lemma str_endswith_self (s : string) : str_endswith s s = true.
Proof.
  destruct s; cbn [str_endswith]; rewrite String.eqb_refl; reflexivity.
Qed.

Lemma str_endswith_app (a suffix : string) :
  str_endswith (a ++ suffix)%string suffix = true.
Proof.
  induction a as [|c a IH]; cbn [append].
  - apply str_endswith_self.
  - cbn [str_endswith]. rewrite IH. apply orb_true_r.
Qed.

Lemma append_length (a b : string) :
  String.length (a ++ b)%string = (String.length a + String.length b)%nat.
Proof.
  induction a as [|c a IH]; [reflexivity|]. cbn. rewrite IH. reflexivity.
Qed.

(** A text with more characters than the suffix ends with it only if
    its tail does. *)
Lemma str_endswith_longer (a b suffix : string) :
  (String.length suffix <= String.length b)%nat ->
  str_endswith b suffix = false ->
  str_endswith (a ++ b)%string suffix = false.
Proof.
  intros Hlen Hb. induction a as [|c a IH]; [exact Hb|].
  cbn [append str_endswith]. rewrite IH, orb_false_r.
  apply String.eqb_neq. intros Heq.
  apply (f_equal String.length) in Heq. cbn in Heq.
  rewrite append_length in Heq. lia.
Qed.

(** X1: the content type goes by the extension of the path, whatever
    the case of its letters and whatever stands before it: [.png] gives
    image/png, [.jpg] and [.jpeg] give image/jpeg. *)
Theorem mime_type_by_extension (stem ext : string) :
  (str_lower ext = ".png" ->
   mime_type_of (str_lower (stem ++ ext)) = "image/png")
  /\ (str_lower ext = ".jpg" \/ str_lower ext = ".jpeg" ->
      mime_type_of (str_lower (stem ++ ext)) = "image/jpeg").
Proof.
  rewrite str_lower_app. unfold mime_type_of. split.
  - intros ->. rewrite str_endswith_app. reflexivity.
  - intros [-> | ->].
    + rewrite (str_endswith_longer _ ".jpg" ".png") by (cbn; lia || reflexivity).
      rewrite str_endswith_app. reflexivity.
    + rewrite (str_endswith_longer _ ".jpeg" ".png") by (cbn; lia || reflexivity).
      rewrite (str_endswith_app _ ".jpeg"). rewrite orb_true_r. reflexivity.
Qed.

(** Paths with other endings, also ones that only look alike, are sent
    as PDF. *)
Example mime_type_other_endings :
  map (fun p => mime_type_of (str_lower p))
      ["cois/scan.PDF"; "cois/photo.png.bak"; "png"; "cois/a.JPeG"; ""; "x.gif"]
  = ["application/pdf"; "application/pdf"; "application/pdf"; "image/jpeg";
     "application/pdf"; "application/pdf"].
Proof. reflexivity. Qed.

Lemma starts_with_app (old s : string) : starts_with old (old ++ s) = true.
Proof.
  induction old as [|c old IH]; [reflexivity|].
  cbn. rewrite Ascii.eqb_refl. exact IH.
Qed.

(** Characters of an occurrence already replaced are passed over. *)
Lemma replace_from_skip (old new a s : string) :
  replace_from old new (a ++ s) (String.length a) = replace_from old new s 0.
Proof.
  induction a as [|c a IH]; [reflexivity|]. cbn. exact IH.
Qed.

(** [s.replace(old, new)] on a text that starts with [old]. *)
Lemma str_replace_prefix (old new s : string) :
  old <> "" ->
  str_replace (old ++ s) old new = (new ++ str_replace s old new)%string.
Proof.
  intros Hold. destruct old as [|c old]; [contradiction|].
  unfold str_replace. cbn [append replace_from].
  change (String c (old ++ s)%string) with (String c old ++ s)%string.
  rewrite starts_with_app. cbn [String.length Nat.pred].
  rewrite replace_from_skip. reflexivity.
Qed.

(** [s.replace(old, new)] on a text where [old] does not occur. *)
Lemma str_replace_absent (old new s : string) :
  occurs old s = false -> str_replace s old new = s.
Proof.
  intros Hocc. unfold str_replace. destruct old as [|c old]; [reflexivity|].
  induction s as [|d s IH]; [reflexivity|].
  cbn [occurs] in Hocc. apply orb_false_elim in Hocc as [Hhere Hlater].
  cbn [replace_from]. rewrite Hhere, (IH Hlater). reflexivity.
Qed.

(** Text without a backtick is copied when the pattern starts with
    one. *)
Lemma replace_from_no_backtick (old new body rest : string) :
  no_backtick body = true ->
  replace_from (String "`" old) new (body ++ rest) 0
  = (body ++ replace_from (String "`" old) new rest 0)%string.
Proof.
  intros Hb. induction body as [|c body IH]; [reflexivity|].
  cbn [no_backtick] in Hb. apply andb_prop in Hb as [Hc Hb].
  cbn [append replace_from starts_with].
  rewrite Ascii.eqb_sym. apply negb_true_iff in Hc. rewrite Hc. cbn [andb].
  rewrite (IH Hb). reflexivity.
Qed.

Lemma append_empty (s : string) : (s ++ "")%string = s.
Proof. induction s as [|c s IH]; [reflexivity|]. cbn. rewrite IH. reflexivity. Qed.

Lemma occurs_no_backtick (old body rest : string) :
  no_backtick body = true ->
  occurs (String "`" old) (body ++ rest) = occurs (String "`" old) rest.
Proof.
  intros Hb. induction body as [|c body IH]; [reflexivity|].
  cbn [no_backtick] in Hb. apply andb_prop in Hb as [Hc Hb].
  apply negb_true_iff in Hc.
  cbn [append occurs starts_with]. rewrite Ascii.eqb_sym, Hc. cbn [andb orb].
  exact (IH Hb).
Qed.

(** A word of letters cannot be completed by the closing fence. *)
Lemma starts_with_json (body : string) :
  starts_with "json" body = false ->
  starts_with "json" (body ++ "```") = false.
Proof.
  destruct body as [|c1 [|c2 [|c3 [|c4 body]]]]; intros Hs;
    cbn in *; try exact Hs;
    repeat match goal with
           | |- context [Ascii.eqb ?a ?c] =>
               is_var c; destruct (Ascii.eqb a c)
           end; reflexivity.
Qed.

Lemma occurs_cons (old : string) (c : ascii) (s : string) :
  occurs old (String c s) = starts_with old (String c s) || occurs old s.
Proof. reflexivity. Qed.

Lemma starts_with_same (c : ascii) (p s : string) :
  starts_with (String c p) (String c s) = starts_with p s.
Proof. cbn [starts_with]. rewrite Ascii.eqb_refl. reflexivity. Qed.

Lemma starts_with_backtick (p body : string) :
  no_backtick body = true ->
  starts_with (String "`" p) (body ++ "```")
  = match body with
    | EmptyString => starts_with p "``"
    | String _ _ => false
    end.
Proof.
  destruct body as [|c body]; [reflexivity|]. intros Hb.
  cbn [no_backtick] in Hb. apply andb_prop in Hb as [Hc _].
  apply negb_true_iff in Hc. cbn [append starts_with].
  rewrite Ascii.eqb_sym, Hc. reflexivity.
Qed.

Lemma occurs_plain_fence (body : string) :
  no_backtick body = true -> starts_with "json" body = false ->
  occurs "```json" ("```" ++ body ++ "```") = false.
Proof.
  intros Hb Hj.
  change ("```" ++ body ++ "```")%string
    with (String "`" (String "`" (String "`" (body ++ "```")%string))).
  rewrite !occurs_cons, !starts_with_same.
  rewrite (starts_with_json body Hj), !(starts_with_backtick _ body Hb).
  rewrite (occurs_no_backtick _ _ _ Hb).
  destruct body; reflexivity.
Qed.

(** X2: a reply without a backtick of its own comes out of the cleaning
    the same whether the model wrapped it in a json fence, in a plain
    fence, or in nothing: stripped of the blanks around it.  (Behind a
    plain fence the reply must not begin with the word json, which the
    first replacement would take with the fence.) *)
Theorem cleaned_fences (body : string) :
  no_backtick body = true ->
  cleaned ("```json" ++ body ++ "```") = str_strip body
  /\ (starts_with "json" body = false ->
      cleaned ("```" ++ body ++ "```") = str_strip body)
  /\ cleaned body = str_strip body.
Proof.
  intros Hb. unfold cleaned.
  assert (Htail : forall old new tail,
            str_replace (body ++ tail) (String "`" old) new
            = (body ++ str_replace tail (String "`" old) new)%string).
  { intros old new tail. unfold str_replace.
    apply replace_from_no_backtick, Hb. }
  assert (Hplain : forall old new,
            str_replace body (String "`" old) new = body).
  { intros old new. rewrite <- (append_empty body) at 1.
    rewrite Htail. apply append_empty. }
  assert (Hclose : str_replace (body ++ "```") "```" "" = body).
  { rewrite Htail. change (str_replace "```" "```" "") with "".
    apply append_empty. }
  repeat split.
  - rewrite (str_replace_prefix "```json") by discriminate.
    cbn [append]. rewrite Htail.
    change (str_replace "```" "```json" "") with "```".
    rewrite Hclose. reflexivity.
  - intros Hj.
    rewrite (str_replace_absent "```json").
    + rewrite (str_replace_prefix "```") by discriminate.
      cbn [append]. rewrite Hclose. reflexivity.
    + apply occurs_plain_fence; assumption.
  - rewrite (Hplain "``json"), (Hplain "``"). reflexivity.
Qed.

Lemma cleaned_fences_witness :
  cleaned ("```json" ++ " {} " ++ "```") = "{}"
  /\ cleaned ("```" ++ " {} " ++ "```") = "{}"
  /\ cleaned " {} " = "{}".
Proof.
  destruct (cleaned_fences " {} " eq_refl) as (H1 & H2 & H3).
  split; [exact H1 | split; [exact (H2 eq_refl) | exact H3]].
Defined.

(** A reply that begins with the word json loses it behind a plain
    fence. *)
Example cleaned_plain_fence_json :
  cleaned ("```" ++ "json is fine" ++ "```") = "is fine".
Proof. reflexivity. Qed.

(** Blanks of every script go: here the no-break space. *)
Example cleaned_no_break_space :
  cleaned ("```json" ++ no_break_space ++ "{}" ++ no_break_space ++ "```")
  = "{}"
  /\ cleaned (no_break_space ++ " {} " ++ no_break_space) = "{}".
Proof. split; reflexivity. Qed.

(** ** The download *)

Section DownloadProofs.
Context {World : Type} `{Collaborators World}.

Lemma download_not_text (file_path : pyval) (s : state World) :
  (forall path, file_path <> PStr path) ->
  download_file_from_supabase file_path s
  = (raise (Exn HTTPException "500: Storage Download Failed"), s).
Proof.
  intros Hnot. destruct file_path; try reflexivity.
  exfalso. eapply Hnot. reflexivity.
Qed.

(** X3: the download raises nothing but the [HTTPException] with status
    500 and the detail "Storage Download Failed", whatever went wrong;
    for a text it asks the bucket ["cois"] once, for the path with
    every ["cois/"] taken out; for anything else it asks nothing. *)
Theorem download_file_from_supabase_outcomes (file_path : pyval)
    (s : state World) :
  (forall e, fst (download_file_from_supabase file_path s) = raise e ->
     e = Exn HTTPException "500: Storage Download Failed")
  /\ (forall path, file_path = PStr path ->
      let asked := storage_download "cois" (str_replace path "cois/" "") (world s) in
      (forall data, fst asked = ok data ->
         fst (download_file_from_supabase file_path s) = ok data)
      /\ snd (download_file_from_supabase file_path s)
         = State (snd asked)
                 (trace s ++ [EvDownload "cois" (str_replace path "cois/" "")]))
  /\ ((forall path, file_path <> PStr path) ->
      snd (download_file_from_supabase file_path s) = s).
Proof.
  split; [|split].
  - destruct file_path as [| | | |path| |];
      try (cbn; intros e [= <-]; reflexivity).
    rewrite download_run. cbn [fst].
    destruct (fst (storage_download _ _ _)); [|discriminate].
    intros e' [= <-]. reflexivity.
  - intros path -> asked. rewrite download_run. cbn [fst snd]. split.
    + intros data Hd. subst asked. unfold ok in Hd. rewrite Hd. reflexivity.
    + reflexivity.
  - intros Hnot. rewrite (download_not_text _ _ Hnot). reflexivity.
Qed.

(** X4: a reference with the bucket name in front and the same
    reference without it fetch the same object: the prefix ["cois/"] is
    dropped, and a path without ["cois/"] is asked for as it is. *)
Theorem download_drops_bucket_prefix (name : string) (s : state World) :
  occurs "cois/" name = false ->
  download_file_from_supabase (PStr ("cois/" ++ name)) s
  = download_file_from_supabase (PStr name) s
  /\ trace (snd (download_file_from_supabase (PStr ("cois/" ++ name)) s))
     = trace s ++ [EvDownload "cois" name].
Proof.
  intros Hocc.
  assert (Hname : str_replace name "cois/" "" = name)
    by (apply str_replace_absent, Hocc).
  assert (Hpre : str_replace ("cois/" ++ name) "cois/" "" = name).
  { rewrite str_replace_prefix by discriminate. exact Hname. }
  rewrite !download_run. cbv zeta. rewrite Hpre, Hname. split; reflexivity.
Qed.

End DownloadProofs.

Lemma download_drops_bucket_prefix_witness :
  download_file_from_supabase (PStr "cois/p1.pdf") (Sim.start (world_with []))
  = download_file_from_supabase (PStr "p1.pdf") (Sim.start (world_with []))
  /\ trace (snd (download_file_from_supabase (PStr "cois/p1.pdf")
                   (Sim.start (world_with []))))
     = [EvDownload "cois" "p1.pdf"].
Proof.
  exact (@download_drops_bucket_prefix _ Sim.sim_collaborators "p1.pdf"
           (Sim.start (world_with [])) eq_refl).
Defined.

(** ["cois/"] is taken out wherever it stands, not only in front; what
    is left can spell it again. *)
Example download_path_inner_occurrences :
  map (fun p => str_replace p "cois/" "")
      ["archive/cois/p1.pdf"; "cois/cois/p1.pdf"; "cocois/is/p1.pdf"; "COIS/p1.pdf"]
  = ["archive/p1.pdf"; "p1.pdf"; "cois/p1.pdf"; "COIS/p1.pdf"].
Proof. reflexivity. Qed.

(** ** The gateway, in general *)

Section GatewayRuns.
Context {World : Type} `{Collaborators World}.

(** Failing answers are passed over, each leaving its detail (a 404
    leaves none). *)
Lemma try_models_skips_failures (payload : pyval) (pre rest : list string) :
  forall (last_error : option string) (w : World) (tr : list event),
  forallb fails (fst (answers_of payload pre w)) = true ->
  try_models payload (pre ++ rest) last_error (State w tr)
  = try_models payload rest
      (last_error_after last_error (fst (answers_of payload pre w)))
      (State (snd (answers_of payload pre w)) (tr ++ posts_for payload pre)).
Proof.
  induction pre as [|m pre IH]; intros last_error w tr Hall.
  - cbn. rewrite app_nil_r. reflexivity.
  - cbn [app]. rewrite try_models_cons. cbn zeta.
    cbn [answers_of] in *.
    destruct (client_post (request_of payload m) w) as [a w1].
    destruct (answers_of payload pre w1) as [l w2] eqn:El.
    cbn [fst snd forallb last_error_after] in *.
    apply andb_prop in Hall as [Ha Hl]. unfold fails in Ha.
    assert (Hrest : forall le,
              try_models payload (pre ++ rest) le
                (State w1 (tr ++ [EvPost (request_of payload m)]))
              = try_models payload rest (last_error_after le l)
                  (State w2 (tr ++ posts_for payload (m :: pre)))).
    { intros le. rewrite IH; rewrite El; cbn [fst snd]; [|exact Hl].
      cbn [posts_for map]. rewrite <- app_assoc. reflexivity. }
    destruct (outcome_of a); [discriminate | apply Hrest | apply Hrest].
Qed.

(** X5: the gateway returns the parse of the first answer it can use,
    whatever the failures before it were (404, exception, refused
    status, unreadable body): their details are dropped, the requests
    made are those to the candidates up to that one, and the later
    candidates are not asked. *)
Theorem gateway_first_usable_answer
    (pre : list string) (mk : string) (post : list string)
    (file_bytes : bytes) (path : string)
    (w w2 : World) (tr : list event)
    (r : response) (envelope : pyval) (reply : string) (v : pyval) :
  let payload :=
    payload_of (mime_type_of (str_lower path)) (b64encode file_bytes) in
  let answers := answers_of payload pre w in
  forallb fails (fst answers) = true ->
  client_post (request_of payload mk) (snd answers) = (ok r, w2) ->
  is_success r = true ->
  py_json_loads (text r) = ok envelope ->
  reply_text envelope = ok (PStr reply) ->
  json_loads (cleaned reply) = inr v ->
  extract_with_models (pre ++ mk :: post) file_bytes (PStr path) (State w tr)
  = (ok v, State w2 (tr ++ posts_for payload (pre ++ [mk]))).
Proof.
  intros payload answers Hpre Hpost Hs Hj Ht Hv.
  unfold extract_with_models. cbn [method_lower]. rewrite bindE_ok.
  fold payload.
  rewrite (try_models_skips_failures _ _ _ _ _ _ Hpre). fold answers.
  rewrite try_models_cons, Hpost. cbn zeta. cbn [fst snd].
  assert (Hfound : outcome_of (ok r) = Found v).
  { apply outcome_found. exists r, envelope. repeat split; auto.
    apply parse_reply_ok. exists reply. auto. }
  rewrite Hfound, posts_for_app, app_assoc. reflexivity.
Qed.

Lemma try_models_asks_in_order (payload : pyval) (models : list string) :
  forall (last_error : option string) (s : state World),
  exists k,
    (k <= List.length models)%nat
    /\ trace (snd (try_models payload models last_error s))
       = trace s ++ posts_for payload (firstn k models)
    /\ ((exists v, fst (try_models payload models last_error s) = ok v)
        \/ (k = List.length models
            /\ exists detail,
                 fst (try_models payload models last_error s)
                 = raise (exhausted detail))).
Proof.
  induction models as [|m rest IH]; intros last_error [w tr].
  - exists 0%nat. cbn. rewrite app_nil_r.
    split; [lia|]. split; [reflexivity|]. right. split; [reflexivity|].
    exists last_error. reflexivity.
  - rewrite try_models_cons. cbn zeta.
    set (s1 := State _ _).
    assert (Hnext : forall le, exists k,
              (k <= List.length (m :: rest))%nat
              /\ trace (snd (try_models payload rest le s1))
                 = tr ++ posts_for payload (firstn k (m :: rest))
              /\ ((exists v, fst (try_models payload rest le s1) = ok v)
                  \/ (k = List.length (m :: rest)
                      /\ exists detail,
                           fst (try_models payload rest le s1)
                           = raise (exhausted detail)))).
    { intros le. destruct (IH le s1) as (k & Hk & Htr & Hres).
      exists (S k). split; [cbn; lia|]. split.
      - rewrite Htr. subst s1. cbn [trace firstn posts_for map].
        rewrite <- app_assoc. reflexivity.
      - destruct Hres as [Hv | [-> Hd]]; [left; exact Hv | right; auto]. }
    destruct (outcome_of _) as [v| |detail]; [|apply Hnext|apply Hnext].
    exists 1%nat. split; [cbn; lia|]. split; [reflexivity|].
    left. exists v. reflexivity.
Qed.

(** X6: whatever the provider does, the gateway asks the candidates in
    the order of the list, each at most once, and nothing else; it ends
    with a parsed value, or, after asking them all, with the exhaustion
    error.  No other exception leaves it. *)
Theorem gateway_asks_in_order (models : list string) (file_bytes : bytes)
    (path : string) (s : state World) :
  let payload :=
    payload_of (mime_type_of (str_lower path)) (b64encode file_bytes) in
  let run := extract_with_models models file_bytes (PStr path) s in
  exists k,
    (k <= List.length models)%nat
    /\ trace (snd run) = trace s ++ posts_for payload (firstn k models)
    /\ ((exists v, fst run = ok v)
        \/ (k = List.length models
            /\ exists detail,
                 fst run
                 = raise (Exn ValueError
                            ("All models failed. Last API response: "
                             ++ str_option detail)))).
Proof.
  intros payload run. subst run.
  unfold extract_with_models. cbn [method_lower]. rewrite bindE_ok.
  fold payload. apply try_models_asks_in_order.
Qed.

End GatewayRuns.

Lemma gateway_first_usable_answer_witness :
  extract_with_models target_models pdf_P1 (PStr "cois/p1.pdf")
    (Sim.start (world_with [server_error; timed_out; not_found;
                            replied (reply_with "null")]))
  = (ok (PDict (extracted_with PNone)),
     State (world_with []) (posts_for payload_P1_pdf target_models)).
Proof.
  apply (@gateway_first_usable_answer _ Sim.sim_collaborators
           ["gemini-2.5-flash-preview-09-2025"; "gemini-2.5-flash";
            "gemini-1.5-flash-latest"] "gemini-1.5-flash" []
           pdf_P1 "cois/p1.pdf"
           (world_with [server_error; timed_out; not_found;
                        replied (reply_with "null")])
           (world_with []) []
           (Response 200 (Sim.envelope (reply_with "null")))
           (PDict [("candidates", PList [PDict [("content",
              PDict [("parts", PList [PDict [("text",
                PStr (reply_with "null"))]])])]])])
           (reply_with "null"));
    reflexivity.
Defined.

(** ** The handler, path by path *)

Section HandlerRuns.
Context {World : Type} `{Collaborators World}.






End HandlerRuns.





(** ** What the handler touches *)

Section HandlerCalls.
Context {World : Type} `{Collaborators World}.

Lemma calls_refl (P : event -> Prop) (s : state World) : calls P 0 s s.
Proof.
  exists []. rewrite app_nil_r. repeat split; [constructor | cbn; lia].
Qed.

Lemma calls_trans (P : event -> Prop) (n m : nat) (s s1 s2 : state World) :
  calls P n s s1 -> calls P m s1 s2 -> calls P (n + m) s s2.
Proof.
  intros (e1 & H1 & P1 & N1) (e2 & H2 & P2 & N2). exists (e1 ++ e2).
  split; [rewrite H2, H1, app_assoc; reflexivity|].
  split; [apply Forall_app; auto|].
  rewrite filter_app, length_app. lia.
Qed.

Lemma calls_read {A} (P : event -> Prop) (ev : event)
    (call : World -> A * World) (s s1 : state World) (a : A) :
  P ev -> is_update ev = false ->
  perform ev call s = (a, s1) -> calls P 0 s s1.
Proof.
  intros HP Hev Hp. rewrite perform_run in Hp. injection Hp as _ <-.
  exists [ev]. cbn. rewrite Hev. repeat split; [auto | cbn; lia].
Qed.

Lemma calls_write {A} (P : event -> Prop) (ev : event)
    (call : World -> A * World) (s s1 : state World) (a : A) :
  P ev -> perform ev call s = (a, s1) -> calls P 1 s s1.
Proof.
  intros HP Hp. rewrite perform_run in Hp. injection Hp as _ <-.
  exists [ev]. cbn. repeat split; [auto|].
  destruct (is_update ev); cbn; lia.
Qed.

Variable policy_id : pyval.

Lemma calls_download (file_path : pyval) (s s1 : state World) (r : res bytes) :
  download_file_from_supabase file_path s = (r, s1) ->
  calls (handler_call policy_id) 0 s s1.
Proof.
  unfold download_file_from_supabase, bind, bindE, bind, lift, ret.
  destruct (method_replace file_path "cois/" "") as [e|clean_path].
  - intros [= _ <-]. apply calls_refl.
  - destruct (call_download "cois" clean_path s) as [r0 s0] eqn:E.
    intros [= _ <-]. eapply calls_read; [| |exact E]; reflexivity.
Qed.

Lemma calls_try_models (payload : pyval) (models : list string) :
  forall (last_error : option string) (s s1 : state World) (r : res pyval),
  try_models payload models last_error s = (r, s1) ->
  calls (handler_call policy_id) 0 s s1.
Proof.
  induction models as [|m rest IH]; intros last_error s s1 r.
  - cbn. intros [= _ <-]. apply calls_refl.
  - cbn [try_models]. unfold bind at 1.
    destruct (attempt_model payload m s) as [a s0] eqn:E.
    assert (Q0 : calls (handler_call policy_id) 0 s s0).
    { unfold attempt_model, bind, call_post in E.
      destruct (perform _ _ s) as [r0 s'] eqn:Ep.
      unfold ret in E. injection E as _ <-.
      eapply calls_read; [| |exact Ep]; reflexivity. }
    destruct a.
    + unfold ret. intros [= _ <-]. exact Q0.
    + intros Hr. apply (calls_trans _ 0 0 s s0 s1 Q0). eapply IH; exact Hr.
    + intros Hr. apply (calls_trans _ 0 0 s s0 s1 Q0). eapply IH; exact Hr.
Qed.

Lemma calls_extract (file_bytes : bytes) (file_path : pyval)
    (s s1 : state World) (r : res pyval) :
  extract_data_with_gemini_raw file_bytes file_path s = (r, s1) ->
  calls (handler_call policy_id) 0 s s1.
Proof.
  unfold extract_data_with_gemini_raw, extract_with_models.
  destruct (method_lower file_path) as [e|lower_path].
  - rewrite bindE_raise. intros [= _ <-]. apply calls_refl.
  - rewrite bindE_ok. apply calls_try_models.
Qed.

Lemma calls_resolve_status (v : pyval) (s s1 : state World) (r : res string) :
  resolve_status v s = (r, s1) -> calls (handler_call policy_id) 0 s s1.
Proof.
  unfold resolve_status.
  destruct (truthy v); [|unfold ret; intros [= _ <-]; apply calls_refl].
  destruct (strptime_Ymd v) as [e|d].
  - destruct (caught_by [ValueError] e); unfold ret; intros [= _ <-];
      apply calls_refl.
  - unfold bind, call_now. destruct (perform EvNow datetime_now s) as [t s0] eqn:E.
    unfold ret. intros [= _ <-]. eapply calls_read; [| |exact E]; reflexivity.
Qed.

Lemma calls_process_body (document_url : pyval)
    (s s1 : state World) (r : res pyval) :
  process_body policy_id document_url s = (r, s1) ->
  calls (handler_call policy_id) 1 s s1.
Proof.
  unfold process_body.
  destruct (download_file_from_supabase document_url s) as [[e|file_bytes] s2] eqn:E1;
    rewrite (bindE_run _ _ _ _ _ E1); apply calls_download in E1.
  { intros [= _ <-]. apply (calls_trans _ 0 1 s s2 s2 E1).
    exists []. rewrite app_nil_r. repeat split; [constructor | cbn; lia]. }
  destruct (extract_data_with_gemini_raw file_bytes document_url s2)
    as [[e|extracted] s3] eqn:E2;
    rewrite (bindE_run _ _ _ _ _ E2); apply calls_extract in E2;
    pose proof (calls_trans _ 0 0 _ _ _ E1 E2) as E12; cbn [Nat.add] in E12.
  { intros [= _ <-]. apply (calls_trans _ 0 1 s s3 s3 E12).
    exists []. rewrite app_nil_r. repeat split; [constructor | cbn; lia]. }
  destruct (as_dict extracted) as [e|d];
    [rewrite bindE_raise | rewrite bindE_ok].
  { intros [= _ <-]. apply (calls_trans _ 0 1 s s3 s3 E12).
    exists []. rewrite app_nil_r. repeat split; [constructor | cbn; lia]. }
  destruct (resolve_status (dict_get d "policy_expiration_date") s3)
    as [[e|status] s4] eqn:E4;
    rewrite (bindE_run _ _ _ _ _ E4);
    pose proof (calls_resolve_status _ _ _ _ E4) as E4';
    pose proof (calls_trans _ 0 0 _ _ _ E12 E4') as E124; cbn [Nat.add] in E124.
  { intros [= _ <-]. apply (calls_trans _ 0 1 s s4 s4 E124).
    exists []. rewrite app_nil_r. repeat split; [constructor | cbn; lia]. }
  pose proof (resolve_status_values _ _ _ _ E4) as Hstatus.
  destruct (call_update "policies"
              (update_data_of d (dict_get d "policy_expiration_date") status)
              "id" policy_id s4) as [r5 s5] eqn:E5.
  assert (Q5 : calls (handler_call policy_id) 1 s4 s5).
  { eapply calls_write; [|exact E5].
    cbn. repeat split. exists status. split; [reflexivity | exact Hstatus]. }
  rewrite (bindE_run _ _ _ _ _ E5).
  destruct r5; unfold ret; intros [= _ <-];
    exact (calls_trans _ 0 1 _ _ _ E124 Q5).
Qed.

(** X11: whatever the payload holds beside the two keys and whatever
    the collaborators do, the handler's calls are downloads from the
    bucket ["cois"], requests to models, readings of the clock, and
    updates of the one record named by the payload's id in the policies
    table, each setting its status to ["active"], ["rejected"] or
    ["error"]; there are at most two updates; no query is made and no
    mail is sent. *)
Theorem process_coi_webhook_calls (payload : WebhookPayload)
    (document_url : pyval) (s : state World) :
  dict_lookup (record payload) "id" = Some policy_id ->
  dict_lookup (record payload) "document_url" = Some document_url ->
  exists evs,
    trace (snd (process_coi_webhook payload s)) = trace s ++ evs
    /\ Forall (handler_call policy_id) evs
    /\ (List.length (List.filter is_update evs) <= 2)%nat.
Proof.
  intros Hid Hurl.
  change (calls (handler_call policy_id) 2 s (snd (process_coi_webhook payload s))).
  destruct (process_body policy_id document_url s) as [[e|answer] s1] eqn:E;
    pose proof (calls_process_body _ _ _ _ E) as Q.
  - rewrite (handler_on_raise _ _ _ _ _ _ Hid Hurl E). cbn [snd].
    apply (calls_trans _ 1 1 _ _ _ Q).
    exists [EvUpdate "policies" mark_error "id" policy_id].
    split; [reflexivity|]. split; [|cbn; lia].
    constructor; [|constructor].
    cbn. repeat split. exists "error". split; [reflexivity | auto].
  - rewrite (handler_on_return _ _ _ _ _ _ Hid Hurl E). cbn [snd].
    apply (calls_trans _ 1 1 _ _ _ Q).
    exists []. rewrite app_nil_r. repeat split; [constructor | cbn; lia].
Qed.

End HandlerCalls.

Lemma process_coi_webhook_calls_witness :
  exists evs,
    trace (snd (process_coi_webhook payload_P1_update
                  (Sim.start (world_with [server_error]))))
    = [] ++ evs
    /\ Forall (handler_call (PStr "P1")) evs
    /\ (List.length (List.filter is_update evs) <= 2)%nat.
Proof.
  exact (@process_coi_webhook_calls _ Sim.sim_collaborators (PStr "P1")
           payload_P1_update (PStr "cois/p1.pdf")
           (Sim.start (world_with [server_error])) eq_refl eq_refl).
Defined.

(** ** The scan and the reminders, call by call *)

Section NagRuns.
Context {World : Type} `{Collaborators World}.

(** X12: the scanner only reads.  When the horizon stays within the
    calendar it reads the clock twice and queries the policies table
    once, and returns a list whatever the database does (the empty
    list when the query raises); when it does not, the
    [OverflowError] of the date leaves the scanner after the first
    reading of the clock, before any query. *)
Theorem get_expiring_policies_outcomes (days_out : Z) (s : state World) :
  let now1 := datetime_now (world s) in
  let now2 := datetime_now (snd now1) in
  let run := get_expiring_policies days_out s in
  (forall target, datetime_add_days (fst now1) days_out = ok target ->
     let q := scan_query (dt_date (fst now2)) (dt_date target) in
     trace (snd run) = trace s ++ [EvNow; EvNow; EvSelect q]
     /\ (forall data, fst (table_select q (snd now2)) = ok data ->
           fst run = ok data)
     /\ (forall e, fst (table_select q (snd now2)) = raise e ->
           fst run = ok []))
  /\ (forall e, datetime_add_days (fst now1) days_out = raise e ->
        exn_cls e = OverflowError
        /\ fst run = raise e
        /\ trace (snd run) = trace s ++ [EvNow]).
Proof.
  intros now1 now2 run. subst run. rewrite get_expiring_policies_run.
  cbv zeta. fold now1. fold now2. split.
  - intros target Ht. unfold ok in Ht. rewrite Ht. cbn [fst snd trace].
    split; [reflexivity|]. split.
    + intros data Hd. unfold ok in Hd. rewrite Hd. reflexivity.
    + intros e He. unfold raise in He. rewrite He. reflexivity.
  - intros e He. split; [exact (datetime_add_days_error _ _ _ He)|].
    unfold raise in He. rewrite He. split; reflexivity.
Qed.

(** One reminder, for a policy whose recipient resolves. *)
Lemma send_email_run (p : pydict) (s : state World) :
  addressable p = true ->
  send_email (PDict p) s
  = (ok tt,
     if armed
     then State (snd (emails_send (reminder_for p) (world s)))
                (trace s ++ [EvEmail (reminder_for p)])
     else s).
Proof.
  unfold addressable, reminder_for. intros Ha.
  unfold send_email. cbn [method_get_default method_get].
  rewrite !bindE_ok.
  destruct (resolve_recipient (PDict p)) as [e|[target_email vendor_name]];
    [discriminate|].
  rewrite bindE_ok. cbn [fst snd].
  destruct armed; [|reflexivity].
  unfold bind, call_email. rewrite perform_run. reflexivity.
Qed.

Lemma send_email_raises (p : pydict) (e : exn) (s : state World) :
  resolve_recipient (PDict p) = raise e ->
  send_email (PDict p) s = (raise e, s).
Proof.
  intros He. unfold send_email. cbn [method_get_default method_get].
  rewrite !bindE_ok. rewrite He, bindE_raise. reflexivity.
Qed.

Lemma resolve_recipient_error (p : pydict) (e : exn) :
  resolve_recipient (PDict p) = raise e -> exn_cls e = AttributeError.
Proof.
  unfold resolve_recipient. cbn [method_get method_get_default res_bind ok].
  destruct (truthy (dict_get_default p "vendors" PNone)) eqn:T.
  - destruct (dict_get_default p "vendors" PNone) as [| | | | | |v];
      try (intros [= <-]; reflexivity).
    cbn [method_get method_get_default res_bind ok].
    clear T. destruct (truthy _); discriminate.
  - cbn [res_bind ok]. rewrite T. discriminate.
Qed.

(** X13: for a policy whose recipient resolves, [send_email] ends
    normally whatever the mail provider answers, also when it raises.
    With a provider key set it asks the provider exactly once, with the
    composed reminder, sent from onboarding@resend.dev; without one it
    asks nothing.  A row without a carrier column is written to about
    ["Unknown Carrier"], a row whose carrier is null about that null. *)
Theorem send_email_delivery (p : pydict) (s : state World) :
  (addressable p = true ->
   fst (send_email (PDict p) s) = ok tt
   /\ trace (snd (send_email (PDict p) s))
      = trace s ++ (if armed then [EvEmail (reminder_for p)] else []))
  /\ email_from (reminder_for p) = "onboarding@resend.dev"
  /\ (dict_lookup p "carrier_name" = None ->
      email_subject (reminder_for p) = subject_of (PStr "Unknown Carrier"))
  /\ (forall v, dict_lookup p "carrier_name" = Some v ->
      email_subject (reminder_for p) = subject_of v).
Proof.
  split; [|split; [reflexivity|split]].
  - intros Ha. rewrite (send_email_run p s Ha). cbn [fst snd].
    split; [reflexivity|]. destruct armed; [reflexivity|].
    rewrite app_nil_r. reflexivity.
  - intros Hc. unfold reminder_for, dict_get_default. rewrite Hc. reflexivity.
  - intros v Hc. unfold reminder_for, dict_get_default. rewrite Hc. reflexivity.
Qed.

Lemma send_all_run (rows : list pydict) :
  forall s : state World,
  forallb addressable rows = true ->
  fst (send_all (map PDict rows) s) = ok tt
  /\ trace (snd (send_all (map PDict rows) s))
     = trace s ++ (if armed
                   then map (fun p => EvEmail (reminder_for p)) rows
                   else []).
Proof.
  induction rows as [|p rows IH]; intros s Hall.
  - cbn. destruct armed; rewrite app_nil_r; split; reflexivity.
  - cbn [forallb] in Hall. apply andb_prop in Hall as [Hp Hall].
    cbn [map send_all].
    rewrite (bindE_run_ok _ _ _ _ _ (send_email_run p s Hp)).
    destruct (IH (if armed
                  then State (snd (emails_send (reminder_for p) (world s)))
                             (trace s ++ [EvEmail (reminder_for p)])
                  else s) Hall) as [Hr Htr].
    split; [exact Hr|]. rewrite Htr.
    destruct armed; [|reflexivity].
    cbn [trace map]. rewrite <- app_assoc. reflexivity.
Qed.

Lemma send_all_stops (pre : list pydict) (bad : pydict) (post : list pyval)
    (e : exn) :
  forall s : state World,
  forallb addressable pre = true ->
  resolve_recipient (PDict bad) = raise e ->
  fst (send_all (map PDict pre ++ PDict bad :: post) s) = raise e
  /\ trace (snd (send_all (map PDict pre ++ PDict bad :: post) s))
     = trace s ++ (if armed
                   then map (fun p => EvEmail (reminder_for p)) pre
                   else []).
Proof.
  induction pre as [|p pre IH]; intros s Hall Hbad.
  - cbn [map app send_all].
    rewrite (bindE_run_raise _ _ _ _ _ (send_email_raises bad e s Hbad)).
    cbn [fst snd]. destruct armed; rewrite app_nil_r; split; reflexivity.
  - cbn [forallb] in Hall. apply andb_prop in Hall as [Hp Hall].
    cbn [map app send_all].
    rewrite (bindE_run_ok _ _ _ _ _ (send_email_run p s Hp)).
    destruct (IH (if armed
                  then State (snd (emails_send (reminder_for p) (world s)))
                             (trace s ++ [EvEmail (reminder_for p)])
                  else s) Hall Hbad) as [Hr Htr].
    split; [exact Hr|]. rewrite Htr.
    destruct armed; [|reflexivity].
    cbn [trace map]. rewrite <- app_assoc. reflexivity.
Qed.

Lemma run_nag_cycle_run (data : list pyval) (s s1 : state World) :
  get_expiring_policies 30 s = (ok data, s1) ->
  run_nag_cycle s = send_all data s1.
Proof.
  intros Hscan. unfold run_nag_cycle.
  rewrite (bindE_run_ok _ _ _ _ _ Hscan). destruct data; reflexivity.
Qed.

(** X14: the cycle composes one reminder for each policy the scan
    returned, in the order returned, and asks the provider for each of
    them even when an earlier delivery failed; it then ends normally.
    Without a provider key it asks for none. *)
Theorem run_nag_cycle_reminds_each (rows : list pydict)
    (s s1 : state World) :
  get_expiring_policies 30 s = (ok (map PDict rows), s1) ->
  forallb addressable rows = true ->
  fst (run_nag_cycle s) = ok tt
  /\ trace (snd (run_nag_cycle s))
     = trace s1 ++ (if armed
                    then map (fun p => EvEmail (reminder_for p)) rows
                    else []).
Proof.
  intros Hscan Hall. rewrite (run_nag_cycle_run _ _ _ Hscan).
  apply send_all_run, Hall.
Qed.

(** X15: a policy whose ["vendors"] holds something true that has no
    [get] (a list of vendors, a text) ends the cycle with its
    [AttributeError]: the policies before it have had their reminder,
    those after it get none. *)
Theorem run_nag_cycle_stops_at_bad_row (pre : list pydict) (bad : pydict)
    (post : list pyval) (s s1 : state World) :
  get_expiring_policies 30 s = (ok (map PDict pre ++ PDict bad :: post), s1) ->
  forallb addressable pre = true ->
  addressable bad = false ->
  exists e,
    fst (run_nag_cycle s) = raise e
    /\ exn_cls e = AttributeError
    /\ trace (snd (run_nag_cycle s))
       = trace s1 ++ (if armed
                      then map (fun p => EvEmail (reminder_for p)) pre
                      else []).
Proof.
  intros Hscan Hall Hbad. rewrite (run_nag_cycle_run _ _ _ Hscan).
  unfold addressable in Hbad.
  destruct (resolve_recipient (PDict bad)) as [e|found] eqn:E; [|discriminate].
  exists e. destruct (send_all_stops pre bad post e s1 Hall E) as [Hr Htr].
  split; [exact Hr|]. split; [exact (resolve_recipient_error _ _ E) | exact Htr].
Qed.

(** X16: when the query raises, the cycle ends normally after the scan:
    no reminder is sent. *)
Theorem run_nag_cycle_database_down (s : state World) (target : datetime)
    (e : exn) :
  let now1 := datetime_now (world s) in
  let now2 := datetime_now (snd now1) in
  let q := scan_query (dt_date (fst now2)) (dt_date target) in
  datetime_add_days (fst now1) 30 = ok target ->
  fst (table_select q (snd now2)) = raise e ->
  fst (run_nag_cycle s) = ok tt
  /\ trace (snd (run_nag_cycle s)) = trace s ++ [EvNow; EvNow; EvSelect q].
Proof.
  intros now1 now2 q Ht Hq.
  assert (Hscan : get_expiring_policies 30 s
                  = (ok [], State (snd (table_select q (snd now2)))
                                  (trace s ++ [EvNow; EvNow; EvSelect q]))).
  { rewrite get_expiring_policies_run. cbv zeta. fold now1.
    unfold ok in Ht. rewrite Ht. fold now2. fold q.
    unfold raise in Hq. rewrite Hq. reflexivity. }
  rewrite (run_nag_cycle_run _ _ _ Hscan). split; reflexivity.
Qed.

End NagRuns.

Lemma run_nag_cycle_reminds_each_witness :
  let run := run_nag_cycle (Sim.start (scan_world [june_1st] true)) in
  fst run = ok tt
  /\ map (fun ev => match ev with
                    | EvEmail m => email_to m
                    | _ => PNone
                    end) (trace (snd run))
     = [PNone; PNone; PNone;
        PStr "ops@acme.example"; PStr fallback_email; PStr fallback_email].
Proof.
  cbv zeta.
  destruct (@run_nag_cycle_reminds_each _ Sim.sim_collaborators
              [ columns row_linked
                  ++ [("vendors", embed_vendor (vendor row_linked))];
                columns (row_of "P5" "active" (PStr "2024-06-01") None)
                  ++ [("vendors", PNone)];
                columns (row_of "P6" "active" (PStr "2024-07-01") None)
                  ++ [("vendors", PNone)] ]
              (Sim.start (scan_world [june_1st] true))
              (State (scan_world [june_1st] true)
                     [EvNow; EvNow;
                      EvSelect (scan_query (Date 2024 6 1) (Date 2024 7 1))])
              eq_refl eq_refl) as [Hr Htr].
  rewrite Hr, Htr. split; reflexivity.
Defined.

Lemma run_nag_cycle_stops_at_bad_row_witness :
  let w := Sim.SimWorld [] [] [] [june_1st]
             [ row_linked;
               PolicyRow [ ("id", PStr "P10");
                           ("expiration_date", PStr "2024-06-15");
                           ("processing_status", PStr "active");
                           ("vendors", PList [PDict vendor_acme]) ] None;
               row_of "P5" "active" (PStr "2024-06-01") None ]
             true true in
  exists e,
    fst (run_nag_cycle (Sim.start w)) = raise e
    /\ exn_cls e = AttributeError
    /\ trace (snd (run_nag_cycle (Sim.start w)))
       = trace (snd (get_expiring_policies 30 (Sim.start w)))
         ++ [EvEmail (reminder_for
                        (columns row_linked
                         ++ [("vendors", embed_vendor (vendor row_linked))]))].
Proof.
  cbv zeta.
  exact (@run_nag_cycle_stops_at_bad_row _ Sim.sim_collaborators
           [ columns row_linked
               ++ [("vendors", embed_vendor (vendor row_linked))] ]
           [ ("id", PStr "P10");
             ("expiration_date", PStr "2024-06-15");
             ("processing_status", PStr "active");
             ("vendors", PList [PDict vendor_acme]);
             ("vendors", PNone) ]
           [ joined (row_of "P5" "active" (PStr "2024-06-01") None) ]
           (Sim.start
              (Sim.SimWorld [] [] [] [june_1st]
                 [ row_linked;
                   PolicyRow [ ("id", PStr "P10");
                               ("expiration_date", PStr "2024-06-15");
                               ("processing_status", PStr "active");
                               ("vendors", PList [PDict vendor_acme]) ] None;
                   row_of "P5" "active" (PStr "2024-06-01") None ]
                 true true))
           (snd (get_expiring_policies 30
                   (Sim.start
                      (Sim.SimWorld [] [] [] [june_1st]
                         [ row_linked;
                           PolicyRow [ ("id", PStr "P10");
                                       ("expiration_date", PStr "2024-06-15");
                                       ("processing_status", PStr "active");
                                       ("vendors", PList [PDict vendor_acme]) ]
                                     None;
                           row_of "P5" "active" (PStr "2024-06-01") None ]
                         true true))))
           eq_refl eq_refl eq_refl).
Defined.

Lemma run_nag_cycle_database_down_witness :
  let run := run_nag_cycle (Sim.start (scan_world [june_1st] false)) in
  fst run = ok tt
  /\ trace (snd run)
     = [EvNow; EvNow; EvSelect (scan_query (Date 2024 6 1) (Date 2024 7 1))].
Proof.
  exact (@run_nag_cycle_database_down _ Sim.sim_collaborators
           (Sim.start (scan_world [june_1st] false))
           (Datetime (Date 2024 7 1) 0)
           (Exn (OtherException "ConnectError") "connection refused")
           eq_refl eq_refl).
Defined.

(** ** The whole cycle on a table, and the status in days *)

Lemma addressable_joined (r : policy_row) :
  dict_lookup (columns r) "vendors" = None ->
  addressable (columns r ++ [("vendors", embed_vendor (vendor r))]) = true.
Proof.
  intros Hc. unfold addressable.
  change (PDict (columns r ++ [("vendors", embed_vendor (vendor r))]))
    with (joined r).
  unfold resolve_recipient. rewrite (joined_vendors r Hc).
  cbn [res_bind ok]. destruct (vendor r) as [v|]; [|reflexivity].
  cbn. destruct (truthy _); reflexivity.
Qed.

Section CycleOnTable.
Context {World : Type} `{Collaborators World}.

(** X17: the clock shows the same valid date [today] at both readings,
    the calendar has the date 30 days later, and the database answers
    the query as a table would.  Then the cycle sends, with a provider
    key set, exactly one reminder for each row whose status is
    ["active"] and whose expiration date is from [today] to 30 days
    later, in the order of the table, and none for any other row; it
    writes nothing to the table. *)
Theorem run_nag_cycle_on_table (today : date) (tbl : list policy_row)
    (s : state World) :
  let w1 := snd (datetime_now (world s)) in
  let w2 := snd (datetime_now w1) in
  dt_date (fst (datetime_now (world s))) = today ->
  dt_date (fst (datetime_now w1)) = today ->
  date_valid today = true ->
  (toordinal today + 30 <= MAXORDINAL)%Z ->
  (forall q, fst (table_select q w2) = eval_select tbl q) ->
  Forall (fun r => dict_lookup (columns r) "vendors" = None) tbl ->
  fst (run_nag_cycle s) = ok tt
  /\ exists target,
       toordinal target = (toordinal today + 30)%Z
       /\ trace (snd (run_nag_cycle s))
       = (trace s ++ [EvNow; EvNow; EvSelect (scan_query today target)])
         ++ (if armed
             then map (fun r =>
                         EvEmail (reminder_for
                                    (columns r
                                     ++ [("vendors", embed_vendor (vendor r))])))
                      (List.filter (expiring_within today 30) tbl)
             else []).
Proof.
  intros w1 w2 Hnow1 Hnow2 Hv Hr Hdb Hcols.
  assert (Hv1 : date_valid (dt_date (fst (datetime_now (world s)))) = true)
    by (rewrite Hnow1; exact Hv).
  pose proof (toordinal_bounds _ Hv) as Hb.
  assert (Hr1 : (1 <= toordinal (dt_date (fst (datetime_now (world s)))) + 30
                 <= MAXORDINAL)%Z) by (rewrite Hnow1; lia).
  destruct (datetime_add_days_ordinal _ 30 Hv1 Hr1)
    as (target & Hadd & Hvt & Hot).
  rewrite Hnow1 in Hot.
  set (rows := List.filter (expiring_within today 30) tbl).
  set (unjoin := fun r : policy_row =>
                   columns r ++ [("vendors", embed_vendor (vendor r))]).
  assert (Hscan : get_expiring_policies 30 s
                  = (ok (map PDict (map unjoin rows)),
                     State (snd (table_select (scan_query today target) w2))
                           (trace s ++ [EvNow; EvNow;
                                        EvSelect (scan_query today target)]))).
  { rewrite get_expiring_policies_run. cbv zeta.
    unfold ok in Hadd. rewrite Hadd. cbn [dt_date]. fold w1. rewrite Hnow2.
    fold w2. rewrite Hdb.
    rewrite (eval_scan_query tbl today target 30 Hv Hvt Hot).
    unfold ok. rewrite map_map. reflexivity. }
  assert (Hall : forallb addressable (map unjoin rows) = true).
  { apply forallb_forall. intros p Hp. apply in_map_iff in Hp as (r & <- & Hin).
    apply addressable_joined. subst rows. apply filter_In in Hin as [Hin _].
    rewrite Forall_forall in Hcols. apply Hcols, Hin. }
  rewrite (run_nag_cycle_run _ _ _ Hscan).
  destruct (send_all_run (map unjoin rows)
              (State (snd (table_select (scan_query today target) w2))
                     (trace s ++ [EvNow; EvNow;
                                  EvSelect (scan_query today target)]))
              Hall) as [Hres Htr].
  split; [exact Hres|]. exists target. split; [exact Hot|].
  rewrite Htr. cbn [trace]. rewrite map_map. reflexivity.
Qed.

(** X18: an expiration date of the calendar, written in the strict
    form year-month-day, is rejected exactly when it lies before
    today, counted in days; the date of today itself and every later
    one is active.  The clock is read once for it. *)
Theorem resolve_status_in_days (d : date) (s : state World) :
  date_valid d = true ->
  date_valid (today_in s) = true ->
  fst (resolve_status (PStr (isoformat d)) s)
  = ok (if (toordinal d <? toordinal (today_in s))%Z
        then "rejected" else "active")
  /\ trace (snd (resolve_status (PStr (isoformat d)) s)) = trace s ++ [EvNow].
Proof.
  intros Hv Ht.
  pose proof (strptime_isoformat d Hv) as Hp.
  pose proof (strptime_ok_truthy _ _ Hp) as Htrue.
  assert (Hlt : date_ltb d (today_in s)
                = (toordinal d <? toordinal (today_in s))%Z).
  { pose proof (date_leb_ordinal (today_in s) d Ht Hv) as Hle.
    unfold date_leb in Hle. rewrite Z.ltb_antisym, <- Hle.
    destruct (date_ltb d (today_in s)); reflexivity. }
  split.
  - rewrite resolve_status_run, Htrue. unfold ok in Hp. rewrite Hp, Hlt.
    reflexivity.
  - unfold resolve_status. rewrite Htrue. unfold ok in Hp. rewrite Hp.
    unfold bind, call_now. rewrite perform_run. reflexivity.
Qed.

End CycleOnTable.

Lemma run_nag_cycle_on_table_witness :
  let run := run_nag_cycle (Sim.start (scan_world [june_1st] true)) in
  fst run = ok tt
  /\ exists target,
       toordinal target = (toordinal (Date 2024 6 1) + 30)%Z
       /\ trace (snd run)
       = ([] ++ [EvNow; EvNow; EvSelect (scan_query (Date 2024 6 1) target)])
         ++ map (fun r =>
                   EvEmail (reminder_for
                              (columns r
                               ++ [("vendors", embed_vendor (vendor r))])))
                [ row_linked;
                  row_of "P5" "active" (PStr "2024-06-01") None;
                  row_of "P6" "active" (PStr "2024-07-01") None ].
Proof.
  apply (@run_nag_cycle_on_table _ Sim.sim_collaborators (Date 2024 6 1)
           scan_table (Sim.start (scan_world [june_1st] true))
           eq_refl eq_refl eq_refl).
  - apply Z.leb_le. reflexivity.
  - intros q. reflexivity.
  - repeat constructor.
Defined.

Lemma resolve_status_in_days_witness :
  fst (resolve_status (PStr "2024-05-31") (Sim.start (world_with [])))
  = ok "rejected"
  /\ trace (snd (resolve_status (PStr "2024-05-31") (Sim.start (world_with []))))
     = [EvNow].
Proof.
  exact (@resolve_status_in_days _ Sim.sim_collaborators (Date 2024 5 31)
           (Sim.start (world_with [])) eq_refl eq_refl).
Defined.

Section GatewayNotFound.
Context {World : Type} `{Collaborators World}.

(** X19: when every candidate answers 404, nothing is ever stored as
    the last error, and the exhaustion message ends with the text of
    Python's [None]; each candidate has been asked once. *)
Theorem gateway_all_not_found (models : list string) (file_bytes : bytes)
    (path : string) (w w1 : World) (tr : list event) :
  let payload :=
    payload_of (mime_type_of (str_lower path)) (b64encode file_bytes) in
  after_not_found payload models w = Some w1 ->
  extract_with_models models file_bytes (PStr path) (State w tr)
  = (raise (Exn ValueError "All models failed. Last API response: None"),
     State w1 (tr ++ posts_for payload models)).
Proof.
  intros payload Hnf.
  unfold extract_with_models. cbn [method_lower]. rewrite bindE_ok.
  fold payload. rewrite <- (app_nil_r models) at 1.
  rewrite (try_models_skips_not_found _ _ _ _ _ _ _ Hnf). reflexivity.
Qed.

End GatewayNotFound.

Lemma gateway_all_not_found_witness :
  extract_with_models target_models pdf_P1 (PStr "cois/scan.PNG")
    (Sim.start (world_with [not_found; not_found; not_found; not_found]))
  = (raise (Exn ValueError "All models failed. Last API response: None"),
     State (world_with [])
           (posts_for (payload_of "image/png" (b64encode pdf_P1)) target_models)).
Proof.
  exact (@gateway_all_not_found _ Sim.sim_collaborators target_models pdf_P1
           "cois/scan.PNG"
           (world_with [not_found; not_found; not_found; not_found])
           (world_with []) [] eq_refl).
Defined.
